(** * TRK chassis analyzer: damper lengths, ranking and clip assignment

    A shallow embedding of the computational kernel of
    [suspension_analyzer.py]: the damper-length calculation of the
    "Calculate" button (single-sheet and dual-sheet mode), the pandas
    rankings derived from it, the single-sheet roll-up by center
    section, and the Selector tab with its greedy clip optimizer, its
    weight gate and its editable lineup tables, together with the
    session state these steps read and write.

    Modelling conventions.
    - Survey coordinates and offsets are exact rationals ([Q]).  Cells
      are numeric and present: rows with a missing cell are the ones
      [dropna] removes before ranking.
    - A damper length is [np.sqrt] of a sum of squares.  It is kept as
      the symbolic value [Sqrt q]; square roots of non-negative
      rationals are ordered as their radicands.
    - Corner weights and the scores computed from them are IEEE 754
      double-precision numbers, as Python's [float] and numpy's
      [float64] are: [spec_float] with 53 bits of precision, rounded to
      nearest even, so that the arithmetic of the program can be
      evaluated bit for bit.
    - A column of center-section cells holds text (compared by code
      point) or whole numbers (compared by value); the kind of cell is
      a parameter of the model.  Clip identifiers are text: the
      dual-sheet calculation joins them with [' / '].
    - [st.session_state] is a record of optional entries; a script run
      is a function from the old session to the new one, and
      [st.stop()], [st.rerun()] and uncaught exceptions are explicit
      outcomes. *)

From Stdlib Require Import QArith Qabs Lqa SpecFloat.
From stdpp Require Import base gmap strings list sorting.

#[local] Set Warnings "-clear-no-such-hyp".
Local Open Scope Q_scope.

(** ** pandas [Series.rank(method='min')] *)

Section Rank.
Context {A : Type}.
(** [precedes x y]: [x] comes strictly before [y] in the ranking
    order ([>] on values for [ascending=False], [<] otherwise). *)
Variable precedes : A → A → bool.

Definition not_after (x y : A) : Prop := precedes y x = false.
Definition tied (x y : A) : Prop := precedes x y = false ∧ precedes y x = false.

#[global] Instance not_after_dec x y : Decision (not_after x y).
Proof. unfold not_after. apply _. Defined.
#[global] Instance tied_dec x y : Decision (tied x y).
Proof. unfold tied. apply _. Defined.

(** The column in ranking order. *)
Definition rank_order (col : list A) : list A := merge_sort not_after col.

(** [method='min']: every member of a group of ties receives the
    1-based position of the first member of the group in ranking
    order.  A value that is not in the column has no rank (pandas
    yields NaN there); it is reported as 0. *)
Definition rank_min (col : list A) (x : A) : nat :=
  match list_find (tied x) (rank_order col) with
  | Some (i, _) => S i
  | None => 0%nat
  end.

(** The number of entries of the column strictly before [x]. *)
Definition count_before (col : list A) (x : A) : nat :=
  length (filter (λ y, precedes y x = true) col).
End Rank.

(** ** Numbers *)

#[global] Instance Qle_decision (x y : Q) : Decision (x <= y).
Proof.
  refine (cast_if (decide (Qle_bool x y = true))); by rewrite <- Qle_bool_iff.
Defined.

Definition Qltb (x y : Q) : bool := negb (Qle_bool y x).
Definition Qgtb (x y : Q) : bool := Qltb y x.

(** [Series.median()]: the middle value of the sorted column, or the
    average of the two middle values; [None] for an empty column. *)
Definition median (l : list Q) : option Q :=
  let s := merge_sort Qle l in
  let n := length s in
  if Nat.odd n then s !! (n / 2)%nat
  else
    match s !! (n / 2 - 1)%nat, s !! (n / 2)%nat with
    | Some a, Some b => Some ((a + b) / 2)
    | _, _ => None
    end.

(** ** Double-precision floats *)

(** A Python [float] or numpy [float64]: the IEEE 754 binary64 numbers
    of the standard library's executable specification, with its
    correctly rounded operations (53 bits of precision, round to
    nearest even). *)
Definition float : Type := spec_float.

Definition fadd : float → float → float := SFadd 53 1024.
Definition fsub : float → float → float := SFsub 53 1024.
Definition fmul : float → float → float := SFmul 53 1024.
Definition fdiv : float → float → float := SFdiv 53 1024.
(** [abs(x)] *)
Definition fabs : float → float := SFabs.
(** [x < y] and [x <= y]; both are false when an operand is NaN. *)
Definition flt : float → float → bool := SFltb.
Definition fle : float → float → bool := SFleb.

Definition is_nan (x : float) : bool :=
  match x with S754_nan => true | _ => false end.

(** [float('inf')] *)
Definition infinity : float := S754_infinity false.

(** The float of a whole number: exact below 2^53, rounded above. *)
Definition float_of_Z (n : Z) : float := binary_normalize 53 1024 n 0 false.

(** The float nearest to the fraction [n / d] of two whole numbers
    below 2^53, which is the float Python reads from the decimal
    literal of that fraction: both operands are exact and the division
    is correctly rounded. *)
Definition float_of_ratio (n : Z) (d : positive) : float :=
  fdiv (float_of_Z n) (float_of_Z (Zpos d)).

(** The literals [100] (converted to [100.0] by the division), [100.0]
    and [0.01]. *)
Definition hundred : float := float_of_Z 100.
Definition hundredth : float := float_of_ratio 1 100.

(** A whole-number percentage, as the step buttons of a number input
    produce them ([25.0], [30.0], ...). *)
Definition pct (n : Z) : float := float_of_Z n.

(** The rational number a finite float stands for (0 for the values
    that stand for none: NaN and the infinities). *)
Definition float_value (x : float) : Q :=
  match x with
  | S754_finite s m e => (if s then - inject_Z (Zpos m) else inject_Z (Zpos m)) * Qpower 2 e
  | _ => 0
  end.

(** Equality of two floats as bit patterns. *)
Definition float_eqb (x y : float) : bool :=
  match x, y with
  | S754_zero s, S754_zero s' => Bool.eqb s s'
  | S754_infinity s, S754_infinity s' => Bool.eqb s s'
  | S754_nan, S754_nan => true
  | S754_finite s m e, S754_finite s' m' e' => Bool.eqb s s' && Pos.eqb m m' && Z.eqb e e'
  | _, _ => false
  end.

(** [np.rint]: the nearest whole number, halves going to the even
    neighbour.  A finite float with a non-negative exponent is whole
    already. *)
Definition Zrint (m : positive) (e : Z) : Z :=
  match e with
  | Zneg p =>
      let d := (2 ^ Zpos p)%Z in
      let q := (Zpos m / d)%Z in
      match (2 * (Zpos m mod d) ?= d)%Z with
      | Lt => q
      | Gt => (q + 1)%Z
      | Eq => if Z.even q then q else (q + 1)%Z
      end
  | _ => (Zpos m * 2 ^ e)%Z
  end.

Definition frint (x : float) : float :=
  match x with
  | S754_finite s m e =>
      if (0 <=? e)%Z then x
      else binary_normalize 53 1024 (cond_Zopp s (Zrint m e)) 0 s
  | _ => x
  end.

(** [Series.round(2)], numpy's [around]: multiply by [10**2], round to
    the nearest whole number, divide by [10**2]. *)
Definition round2 (x : float) : float := fdiv (frint (fmul x hundred)) hundred.

(** ** Identifiers *)

(** The cells of a center-section column.  pandas reads a column of
    text as Python strings and a column of whole numbers as [int64];
    [sorted] and [==] then act on the cells themselves, so text is
    ordered by code point and numbers by value.  [id_le] is the [<=] of
    the cells of the column. *)
Class Identifier (C : Type) `{Countable C} := {
  id_le : relation C;
  id_le_dec :: RelDecision id_le;
  id_le_po :: PartialOrder id_le;
  id_le_total :: Total id_le
}.

#[global] Instance string_identifier : Identifier string :=
  {| id_le := String.le |}.
#[global] Instance Z_identifier : Identifier Z :=
  {| id_le := Z.le |}.

(** [Series.unique()]: the distinct values in order of first appearance. *)
Fixpoint unique `{EqDecision K} (l : list K) : list K :=
  match l with
  | [] => []
  | x :: l => x :: filter (λ y, y ≠ x) (unique l)
  end.

(** [sorted(col.unique())] *)
Definition sorted_unique `{Identifier K} (l : list K) : list K :=
  merge_sort id_le (unique l).

(** ** Geometry *)

Record Point3 := mkPoint { px : Q; py : Q; pz : Q }.

(** The non-negative real [sqrt q], kept symbolically. *)
Inductive Len := Sqrt (q : Q).
Definition radicand (l : Len) : Q := let 'Sqrt q := l in q.
Definition Len_ltb (a b : Len) : bool := Qltb (radicand a) (radicand b).
Definition Len_gtb (a b : Len) : bool := Len_ltb b a.
Definition Len_eq (a b : Len) : Prop := radicand a == radicand b.

(** [calc_distance]: [np.sqrt((x2 - x1)**2 + (y2 - y1)**2 + (z2 - z1)**2)]. *)
Definition calc_distance (x1 y1 z1 x2 y2 z2 : Q) : Len :=
  Sqrt ((x2 - x1) ^ 2 + (y2 - y1) ^ 2 + (z2 - z1) ^ 2).

Inductive Corner := LF | RF | LR | RR.

(** The three surveyed points of one corner. *)
Record Hardpoints := {
  upper : Point3;
  lca_front : Point3;
  lca_rear : Point3
}.

(** The entries of [st.session_state['config']] the calculation reads. *)
Record Config := {
  lf_y_offset : Q;
  rf_y_offset : Q;
  lr_y_offset : Q;
  rr_y_offset : Q;
  normalize_lca_z : bool
}.



(** [(front + rear) / 2], coordinate by coordinate. *)
Definition lca_center (h : Hardpoints) : Point3 :=
  mkPoint ((px (lca_front h) + px (lca_rear h)) / 2)
          ((py (lca_front h) + py (lca_rear h)) / 2)
          ((pz (lca_front h) + pz (lca_rear h)) / 2).

(** [lower_y = center_y - np.abs(offset)] for LF and LR,
    [center_y + np.abs(offset)] for RF and RR. *)
Definition lower_mount (cfg : Config) (c : Corner) (center : Point3) : Point3 :=
  match c with
  | LF => mkPoint (px center) (py center - Qabs (lf_y_offset cfg)) (pz center)
  | RF => mkPoint (px center) (py center + Qabs (rf_y_offset cfg)) (pz center)
  | LR => mkPoint (px center) (py center - Qabs (lr_y_offset cfg)) (pz center)
  | RR => mkPoint (px center) (py center + Qabs (rr_y_offset cfg)) (pz center)
  end.

Definition damper_length (u lower : Point3) : Len :=
  calc_distance (px u) (py u) (pz u) (px lower) (py lower) (pz lower).

(** [col.rank(ascending=False, method='min').astype(int)] *)
Definition rank_descending (col : list Len) (x : Len) : nat := rank_min Len_gtb col x.
(** [col.rank(method='min').astype(int)] on an integer column *)
Definition rank_ascending (col : list nat) (x : nat) : nat := rank_min Nat.ltb col x.

(** An entry of the assignment map. *)
Record Assignment := { front_clip : string; rear_clip : string }.

(** The four corner weights, in percent. *)
Record Weights := { w_LF : float; w_RF : float; w_LR : float; w_RR : float }.

(** How a script run ends: at its last line, by [st.rerun()] (the
    script starts over), by [st.stop()] after an error message, or by
    an uncaught exception. *)
Inductive Outcome :=
  | Completed
  | Rerun
  | Stopped (error : string)
  | Raised (exception : string).

(** Python truth value of a string. *)
Definition truthy (s : string) : bool := negb (String.eqb s "").

(** The float of a rank (an [int64] cell) in a product with a float. *)
Definition rank_float (n : nat) : float := float_of_Z (Z.of_nat n).

(** [(lf_rank * lf_weight/100) + (rf_rank * rf_weight/100) +
     (lr_rank * lr_weight/100) + (rr_rank * rr_weight/100)]: each
    product is divided by 100, and the four terms are added from the
    left. *)
Definition combined_score (w : Weights) (lf_rank rf_rank lr_rank rr_rank : nat) : float :=
  fadd (fadd (fadd (fdiv (fmul (rank_float lf_rank) (w_LF w)) hundred)
                   (fdiv (fmul (rank_float rf_rank) (w_RF w)) hundred))
             (fdiv (fmul (rank_float lr_rank) (w_LR w)) hundred))
       (fdiv (fmul (rank_float rr_rank) (w_RR w)) hundred).

(** [best_score], [best_front], [best_rear] *)
Record Best := {
  best_score : float;
  best_front : option string;
  best_rear : option string
}.

(** [best_score = float('inf')], [best_front = None], [best_rear = None] *)
Definition no_best : Best :=
  {| best_score := infinity; best_front := None; best_rear := None |}.

(** [combined_score < best_score] *)
Definition improves (s best : float) : bool := flt s best.

(** [next((c for c in clips if c not in used), clips[0])]; the default
    [clips[0]] is evaluated first and raises IndexError on an empty
    list. *)
Definition fallback (clips : list string) (used : gset string) : option string :=
  match clips with
  | [] => None
  | first :: _ => Some (default first (head (filter (λ c, c ∉ used) clips)))
  end.

(** *** The weight controls *)

(** The initial [corner_weights]: 25.0 each. *)
Definition default_weights : Weights :=
  {| w_LF := pct 25; w_RF := pct 25; w_LR := pct 25; w_RR := pct 25 |}.

(** [lf_weight + rf_weight + lr_weight + rr_weight], added from the
    left. *)
Definition total_weight (w : Weights) : float :=
  fadd (fadd (fadd (w_LF w) (w_RF w)) (w_LR w)) (w_RR w).

(** [abs(total_weight - 100.0) > 0.01]: the button is drawn disabled. *)
Definition calculate_disabled (w : Weights) : bool :=
  flt hundredth (fabs (fsub (total_weight w) hundred)).

(** [set(counts[counts > 1].index)] for [counts = col.value_counts()] *)
Definition duplicates (col : list string) : gset string :=
  list_to_set (filter (λ c, (1 < length (filter (λ c', c' = c) col))%nat) col).

(** [for idx, row in edited.iterrows()], with [changes_made]; [edit]
    is the body of the loop and [None] its KeyError. *)
Fixpoint apply_edits {S R} (edit : S → R → option (S * bool))
    (l : S) (changes_made : bool) (rows : list R) : option (S * bool) :=
  match rows with
  | [] => Some (l, changes_made)
  | row :: rows =>
      '(l', changed) ← edit l row;
      apply_edits edit l' (changes_made || changed) rows
  end.

(** *** Saved column mapping *)

(** A value of the loaded JSON configuration. *)
Inductive ConfigValue :=
  | ConfigString (s : string)
  | ConfigNumber (q : Q).

(** [col_list.index(v)]: the first position of [v]. *)
Definition list_index (v : string) (col_list : list string) : option nat :=
  fst <$> list_find (λ c, c = v) col_list.

(** [get_index]: the position of the saved column in the list of the
    selectbox, or [default] when nothing is saved under [col_name] or
    the saved column is not in the list. *)
Definition get_index (loaded_config : gmap string ConfigValue) (col_name : string)
    (col_list : list string) (default_index : nat) : nat :=
  match loaded_config !! col_name with
  | Some (ConfigString v) => default default_index (list_index v col_list)
  | _ => default_index
  end.

(** ** The program, for one kind of center-section cell *)

Section Model.
Context {C : Type} {C_eq_dec : EqDecision C} {C_countable : Countable C}
        {C_identifier : Identifier C}.

(** *** Survey data *)

(** A row of the single sheet: all four corners. *)
Record SurveyRow := {
  center_section : C;
  clip : string;
  lf_points : Hardpoints;
  rf_points : Hardpoints;
  lr_points : Hardpoints;
  rr_points : Hardpoints
}.

(** A row of the front sheet (LF on the left, RF on the right) or of
    the rear sheet (LR, RR). *)
Record AxleRow := {
  axle_center_section : C;
  axle_clip : string;
  left_points : Hardpoints;
  right_points : Hardpoints
}.

Definition points (r : SurveyRow) (c : Corner) : Hardpoints :=
  match c with
  | LF => lf_points r
  | RF => rf_points r
  | LR => lr_points r
  | RR => rr_points r
  end.

(** *** Damper length calculator, dual-sheet mode *)

(** [pd.concat] of the four columns of LCA center heights: LF and RF
    over the front sheet, LR and RR over the rear sheet. *)
Definition all_z_heights (df_front df_rear : list AxleRow) : list Q :=
  ((λ r, pz (lca_center (left_points r))) <$> df_front) ++
  ((λ r, pz (lca_center (right_points r))) <$> df_front) ++
  ((λ r, pz (lca_center (left_points r))) <$> df_rear) ++
  ((λ r, pz (lca_center (right_points r))) <$> df_rear).

Definition median_z (df_front df_rear : list AxleRow) : option Q :=
  median (all_z_heights df_front df_rear).

(** The LCA center the dual-sheet branch works with.  Under
    [normalize_lca_z] every height column is overwritten by
    [[median_z] * len(column)]; the median is absent only when both
    sheets are empty, and then there is no row to overwrite. *)
Definition multi_lca_center (cfg : Config) (df_front df_rear : list AxleRow)
    (h : Hardpoints) : Point3 :=
  let c := lca_center h in
  if normalize_lca_z cfg then
    mkPoint (px c) (py c) (default (pz c) (median_z df_front df_rear))
  else c.

(** A row of [df_front_calc] or [df_rear_calc]: the sheet's row with
    its two damper lengths. *)
Record AxleCalcRow := {
  calc_center_section : C;
  calc_clip : string;
  left_length : Len;
  right_length : Len
}.

Definition multi_calc (cfg : Config) (df_front df_rear : list AxleRow)
    (l r : Corner) (sheet : list AxleRow) : list AxleCalcRow :=
  (λ row,
     {| calc_center_section := axle_center_section row;
        calc_clip := axle_clip row;
        left_length :=
          damper_length (upper (left_points row))
            (lower_mount cfg l (multi_lca_center cfg df_front df_rear (left_points row)));
        right_length :=
          damper_length (upper (right_points row))
            (lower_mount cfg r (multi_lca_center cfg df_front df_rear (right_points row))) |})
  <$> sheet.

Definition front_calc (cfg : Config) (df_front df_rear : list AxleRow) : list AxleCalcRow :=
  multi_calc cfg df_front df_rear LF RF df_front.
Definition rear_calc (cfg : Config) (df_front df_rear : list AxleRow) : list AxleCalcRow :=
  multi_calc cfg df_front df_rear LR RR df_rear.

(** A row of [results_df] before ranking.  [Clip] is the clip column
    in single-sheet mode and [Clip_Combination] in dual-sheet mode;
    [Front_Clip] and [Rear_Clip] exist in dual-sheet mode only. *)
Record ResultRow := {
  Center_Section : C;
  Clip : string;
  Front_Clip : option string;
  Rear_Clip : option string;
  LF_Damper_Length : Len;
  RF_Damper_Length : Len;
  LR_Damper_Length : Len;
  RR_Damper_Length : Len
}.

(** [pd.merge(front, rear, on=[center_section_col], how='inner')]:
    every front row paired with every rear row of its center section. *)
Definition merge_on_center (front rear : list AxleCalcRow) : list ResultRow :=
  f ← front;
  r ← filter (λ r, calc_center_section r = calc_center_section f) rear;
  [ {| Center_Section := calc_center_section f;
       Clip := calc_clip f +:+ " / " +:+ calc_clip r;
       Front_Clip := Some (calc_clip f);
       Rear_Clip := Some (calc_clip r);
       LF_Damper_Length := left_length f;
       RF_Damper_Length := right_length f;
       LR_Damper_Length := left_length r;
       RR_Damper_Length := right_length r |} ].

(** *** Damper length calculator, single-sheet mode *)

(** The single-sheet branch: per corner, the midpoint of the row's own
    LCA points, the lower mount and the length.  The branch does not
    read [normalize_lca_z]. *)
Definition single_lca_center (r : SurveyRow) (c : Corner) : Point3 :=
  lca_center (points r c).

Definition single_length (cfg : Config) (r : SurveyRow) (c : Corner) : Len :=
  damper_length (upper (points r c)) (lower_mount cfg c (single_lca_center r c)).

Definition single_calc (cfg : Config) (df : list SurveyRow) : list ResultRow :=
  (λ r,
     {| Center_Section := center_section r;
        Clip := clip r;
        Front_Clip := None;
        Rear_Clip := None;
        LF_Damper_Length := single_length cfg r LF;
        RF_Damper_Length := single_length cfg r RF;
        LR_Damper_Length := single_length cfg r LR;
        RR_Damper_Length := single_length cfg r RR |})
  <$> df.

(** *** Ranking engine *)

(** A row of [results_df] with its rank columns. *)
Record RankedRow := {
  result : ResultRow;
  LF_Rank : nat;
  RF_Rank : nat;
  LR_Rank : nat;
  RR_Rank : nat;
  Front_Weighted_Score : nat;
  Front_Rank : nat
}.

Definition front_weighted_score (rows : list ResultRow) (r : ResultRow) : nat :=
  rank_descending (LF_Damper_Length <$> rows) (LF_Damper_Length r) * 2 +
  rank_descending (RF_Damper_Length <$> rows) (RF_Damper_Length r) * 1.

Definition add_ranks (rows : list ResultRow) : list RankedRow :=
  (λ r,
     {| result := r;
        LF_Rank := rank_descending (LF_Damper_Length <$> rows) (LF_Damper_Length r);
        RF_Rank := rank_descending (RF_Damper_Length <$> rows) (RF_Damper_Length r);
        LR_Rank := rank_descending (LR_Damper_Length <$> rows) (LR_Damper_Length r);
        RR_Rank := rank_descending (RR_Damper_Length <$> rows) (RR_Damper_Length r);
        Front_Weighted_Score := front_weighted_score rows r;
        Front_Rank :=
          rank_ascending (front_weighted_score rows <$> rows) (front_weighted_score rows r) |})
  <$> rows.

(** [sort_values('LF_Damper_Length', ascending=False)]; rows of equal
    length come out in some order, here the one of a merge sort. *)
Definition sort_by_LF (rows : list RankedRow) : list RankedRow :=
  merge_sort (λ a b, not_after Len_gtb (LF_Damper_Length (result a))
                                       (LF_Damper_Length (result b))) rows.

(** The tail of the calculation, common to both modes. *)
Definition rank_results (rows : list ResultRow) : list RankedRow :=
  sort_by_LF (add_ranks rows).

(** The per-axle rank tables of dual-sheet mode ([df_front_display],
    [df_rear_display], [df_front_calc_ranks], [df_rear_calc_ranks]):
    ranks within one sheet, the 2:1 weighted score and its re-rank.
    For the front sheet the columns are LF_Rank, RF_Rank,
    Front_Weighted_Score and Front_Rank; for the rear sheet LR_Rank,
    RR_Rank, Rear_Weighted_Score and Rear_Rank. *)
Record AxleRankRow := {
  calc : AxleCalcRow;
  left_rank : nat;
  right_rank : nat;
  weighted_score : nat;
  axle_rank : nat
}.

Definition axle_weighted_score (rows : list AxleCalcRow) (r : AxleCalcRow) : nat :=
  rank_descending (left_length <$> rows) (left_length r) * 2 +
  rank_descending (right_length <$> rows) (right_length r) * 1.

Definition axle_ranks (rows : list AxleCalcRow) : list AxleRankRow :=
  (λ r,
     {| calc := r;
        left_rank := rank_descending (left_length <$> rows) (left_length r);
        right_rank := rank_descending (right_length <$> rows) (right_length r);
        weighted_score := axle_weighted_score rows r;
        axle_rank :=
          rank_ascending (axle_weighted_score rows <$> rows) (axle_weighted_score rows r) |})
  <$> rows.

(** *** The single-sheet roll-up by center section *)

(** The mean of a column of ranks over a group: pandas adds the ranks
    in float64 and divides by the size of the group.  Ranks add up to
    whole numbers far below 2^53, which float64 adds exactly. *)
Definition mean_rank {R} (f : R → nat) (group : list R) : float :=
  fdiv (float_of_Z (Z.of_nat (sum_list (f <$> group))))
       (float_of_Z (Z.of_nat (length group))).

(** A row of the single-sheet [center_rankings] (the columns of mean
    lengths, which no rank is computed from, are left out). *)
Record CenterRanking := {
  cr_center : C;
  cr_LF_Rank : float;
  cr_RF_Rank : float;
  cr_LR_Rank : float;
  cr_RR_Rank : float;
  cr_Front_Rank : float;
  cr_Rear_Rank : float
}.

(** [results_df.groupby(center_section_col).agg(... 'mean')] with
    [Rear_Rank = (LR_Rank + RR_Rank) / 2]. *)
Definition center_means (results_df : list RankedRow) : list CenterRanking :=
  (λ cs,
     let group := filter (λ r, Center_Section (result r) = cs) results_df in
     {| cr_center := cs;
        cr_LF_Rank := mean_rank LF_Rank group;
        cr_RF_Rank := mean_rank RF_Rank group;
        cr_LR_Rank := mean_rank LR_Rank group;
        cr_RR_Rank := mean_rank RR_Rank group;
        cr_Front_Rank := mean_rank Front_Rank group;
        cr_Rear_Rank :=
          fdiv (fadd (mean_rank LR_Rank group) (mean_rank RR_Rank group)) (float_of_Z 2) |})
  <$> sorted_unique ((λ r, Center_Section (result r)) <$> results_df).

(** [col.round(2)] on every rank column. *)
Definition round_ranks (row : CenterRanking) : CenterRanking :=
  {| cr_center := cr_center row;
     cr_LF_Rank := round2 (cr_LF_Rank row);
     cr_RF_Rank := round2 (cr_RF_Rank row);
     cr_LR_Rank := round2 (cr_LR_Rank row);
     cr_RR_Rank := round2 (cr_RR_Rank row);
     cr_Front_Rank := round2 (cr_Front_Rank row);
     cr_Rear_Rank := round2 (cr_Rear_Rank row) |}.

(** The single-sheet table of the Center Section tab: the means,
    sorted by [Front_Rank] (rows of equal mean in some order, here the
    one of a merge sort), then rounded. *)
Definition by_Front_Rank (a b : CenterRanking) : Prop :=
  fle (cr_Front_Rank a) (cr_Front_Rank b) = true.

#[global] Instance by_Front_Rank_dec a b : Decision (by_Front_Rank a b).
Proof. unfold by_Front_Rank. apply _. Defined.

Definition center_rankings_single (results_df : list RankedRow) : list CenterRanking :=
  round_ranks <$> merge_sort by_Front_Rank (center_means results_df).

(** *** Session state and the Calculate button *)

(** The entries of [st.session_state] the kernel reads and writes. *)
Record Session := {
  using_multi_sheet : bool;
  results_df : option (list RankedRow);
  df_front_calc : option (list AxleCalcRow);
  df_rear_calc : option (list AxleCalcRow);
  corner_weights : option Weights;
  lineup_assignments : option (gmap C Assignment);
  track_types : option (gmap C string);
  session_manual_order_mode : option bool;
  last_calculate_time : option nat
}.

Definition set_calc (fc rc : list AxleCalcRow) (s : Session) : Session :=
  {| using_multi_sheet := using_multi_sheet s;
     results_df := results_df s;
     df_front_calc := Some fc;
     df_rear_calc := Some rc;
     corner_weights := corner_weights s;
     lineup_assignments := lineup_assignments s;
     track_types := track_types s;
     session_manual_order_mode := session_manual_order_mode s;
     last_calculate_time := last_calculate_time s |}.

Definition set_results (rows : list RankedRow) (s : Session) : Session :=
  {| using_multi_sheet := using_multi_sheet s;
     results_df := Some rows;
     df_front_calc := df_front_calc s;
     df_rear_calc := df_rear_calc s;
     corner_weights := corner_weights s;
     lineup_assignments := lineup_assignments s;
     track_types := track_types s;
     session_manual_order_mode := session_manual_order_mode s;
     last_calculate_time := last_calculate_time s |}.

Definition set_weights (w : Weights) (s : Session) : Session :=
  {| using_multi_sheet := using_multi_sheet s;
     results_df := results_df s;
     df_front_calc := df_front_calc s;
     df_rear_calc := df_rear_calc s;
     corner_weights := Some w;
     lineup_assignments := lineup_assignments s;
     track_types := track_types s;
     session_manual_order_mode := session_manual_order_mode s;
     last_calculate_time := last_calculate_time s |}.

Definition set_assignments (a : gmap C Assignment) (s : Session) : Session :=
  {| using_multi_sheet := using_multi_sheet s;
     results_df := results_df s;
     df_front_calc := df_front_calc s;
     df_rear_calc := df_rear_calc s;
     corner_weights := corner_weights s;
     lineup_assignments := Some a;
     track_types := track_types s;
     session_manual_order_mode := session_manual_order_mode s;
     last_calculate_time := last_calculate_time s |}.

Definition set_track_types (t : gmap C string) (s : Session) : Session :=
  {| using_multi_sheet := using_multi_sheet s;
     results_df := results_df s;
     df_front_calc := df_front_calc s;
     df_rear_calc := df_rear_calc s;
     corner_weights := corner_weights s;
     lineup_assignments := lineup_assignments s;
     track_types := Some t;
     session_manual_order_mode := session_manual_order_mode s;
     last_calculate_time := last_calculate_time s |}.

Definition set_manual_order_mode (b : bool) (s : Session) : Session :=
  {| using_multi_sheet := using_multi_sheet s;
     results_df := results_df s;
     df_front_calc := df_front_calc s;
     df_rear_calc := df_rear_calc s;
     corner_weights := corner_weights s;
     lineup_assignments := lineup_assignments s;
     track_types := track_types s;
     session_manual_order_mode := Some b;
     last_calculate_time := last_calculate_time s |}.

Definition set_last_calculate_time (n : nat) (s : Session) : Session :=
  {| using_multi_sheet := using_multi_sheet s;
     results_df := results_df s;
     df_front_calc := df_front_calc s;
     df_rear_calc := df_rear_calc s;
     corner_weights := corner_weights s;
     lineup_assignments := lineup_assignments s;
     track_types := track_types s;
     session_manual_order_mode := session_manual_order_mode s;
     last_calculate_time := Some n |}.

(** The uploaded data: the single sheet, or the front and rear sheets. *)
Record Upload := {
  df : list SurveyRow;
  df_front : list AxleRow;
  df_rear : list AxleRow
}.

(** The body of [if calculate_button:]. *)
Definition calculate (cfg : Config) (up : Upload) (s : Session) : Session * Outcome :=
  if using_multi_sheet s then
    let fc := front_calc cfg (df_front up) (df_rear up) in
    let rc := rear_calc cfg (df_front up) (df_rear up) in
    let s := set_calc fc rc s in
    let merged := merge_on_center fc rc in
    if (length merged =? 0)%nat then
      (s, Stopped "No matching Center Sections found between front and rear sheets!")
    else (set_results (rank_results merged) s, Completed)
  else
    (set_results (rank_results (single_calc cfg (df up))) s, Completed).

(** *** Assignment optimizer (Selector tab, dual-sheet mode) *)

(** The variables [calculate_optimal_assignments] closes over. *)
Record Selector := {
  all_center_sections : list C;
  all_front_clips : list string;
  all_rear_clips : list string;
  df_front_calc_ranks : list AxleRankRow;
  df_rear_calc_ranks : list AxleRankRow
}.

Definition selector_data (results : list RankedRow) (fc rc : list AxleCalcRow) : Selector :=
  {| all_center_sections := sorted_unique ((λ r, Center_Section (result r)) <$> results);
     all_front_clips := sorted_unique (calc_clip <$> fc);
     all_rear_clips := sorted_unique (calc_clip <$> rc);
     df_front_calc_ranks := axle_ranks fc;
     df_rear_calc_ranks := axle_ranks rc |}.

(** [table[(table[center_section_col] == cs) & (table[clip_col] == c)]] *)
Definition rows_for (table : list AxleRankRow) (cs : C) (c : string) : list AxleRankRow :=
  filter (λ r, calc_center_section (calc r) = cs ∧ calc_clip (calc r) = c) table.

(** One iteration of [for rear_clip in all_rear_clips]. *)
Definition try_rear (d : Selector) (w : Weights) (used_rear_clips : gset string)
    (cs : C) (front_clip : string) (lf_rank rf_rank : nat) (b : Best) (rear_clip : string)
    : Best :=
  if decide (rear_clip ∈ used_rear_clips) then b
  else
    match rows_for (df_rear_calc_ranks d) cs rear_clip with
    | [] => b
    | rear_row :: _ =>
        let s := combined_score w lf_rank rf_rank (left_rank rear_row) (right_rank rear_row) in
        if improves s (best_score b) then
          {| best_score := s; best_front := Some front_clip; best_rear := Some rear_clip |}
        else b
    end.

(** One iteration of [for front_clip in all_front_clips]. *)
Definition try_front (d : Selector) (w : Weights) (used_front_clips used_rear_clips : gset string)
    (cs : C) (b : Best) (front_clip : string) : Best :=
  if decide (front_clip ∈ used_front_clips) then b
  else
    match rows_for (df_front_calc_ranks d) cs front_clip with
    | [] => b
    | front_row :: _ =>
        foldl (try_rear d w used_rear_clips cs front_clip
                 (left_rank front_row) (right_rank front_row))
              b (all_rear_clips d)
    end.

(** The search of one center section. *)
Definition best_combo (d : Selector) (w : Weights) (used_front_clips used_rear_clips : gset string)
    (cs : C) : Best :=
  foldl (try_front d w used_front_clips used_rear_clips cs) no_best (all_front_clips d).

(** An element of [center_best_combos]. *)
Record Combo := {
  center : C;
  combo_front : string;
  combo_rear : string;
  score : float
}.

Record OptState := {
  used_front_clips : gset string;
  used_rear_clips : gset string;
  center_best_combos : list Combo
}.

Definition commit (st : OptState) (cs : C) (f r : string) (s : float) : OptState :=
  {| used_front_clips := used_front_clips st ∪ {[ f ]};
     used_rear_clips := used_rear_clips st ∪ {[ r ]};
     center_best_combos :=
       center_best_combos st ++
       [ {| center := cs; combo_front := f; combo_rear := r; score := s |} ] |}.

Definition fallback_commit (d : Selector) (st : OptState) (cs : C) : option OptState :=
  fallback_front ← fallback (all_front_clips d) (used_front_clips st);
  fallback_rear ← fallback (all_rear_clips d) (used_rear_clips st);
  Some (commit st cs fallback_front fallback_rear infinity).

(** The body of [for cs in all_center_sections]; [None] when the
    fallback raises. *)
Definition assign_center (d : Selector) (w : Weights) (st : OptState) (cs : C)
    : option OptState :=
  let b := best_combo d w (used_front_clips st) (used_rear_clips st) cs in
  match best_front b, best_rear b with
  | Some f, Some r =>
      if truthy f && truthy r then Some (commit st cs f r (best_score b))
      else fallback_commit d st cs
  | _, _ => fallback_commit d st cs
  end.

Fixpoint assign_centers (d : Selector) (w : Weights) (css : list C) (st : OptState)
    : option OptState :=
  match css with
  | [] => Some st
  | cs :: css => st' ← assign_center d w st cs; assign_centers d w css st'
  end.

Definition initial_state : OptState :=
  {| used_front_clips := ∅; used_rear_clips := ∅; center_best_combos := [] |}.

(** [assignments[combo['center']] = {...}] over [center_best_combos]. *)
Definition store_assignments (combos : list Combo) : gmap C Assignment :=
  foldl (λ m c, <[ center c := {| front_clip := combo_front c; rear_clip := combo_rear c |} ]> m)
        ∅ combos.

Definition calculate_optimal_assignments (d : Selector)
    (lf_weight rf_weight lr_weight rr_weight : float) : option (gmap C Assignment) :=
  let w := {| w_LF := lf_weight; w_RF := rf_weight; w_LR := lr_weight; w_RR := rr_weight |} in
  st ← assign_centers d w (all_center_sections d) initial_state;
  Some (store_assignments (center_best_combos st)).

Definition optimize (d : Selector) (w : Weights) : option (gmap C Assignment) :=
  calculate_optimal_assignments d (w_LF w) (w_RF w) (w_LR w) (w_RR w).

(** *** The lineup tables *)

(** The weighted score a center section is shown with: the ranks of
    its assigned pair at that center section, each times
    [corner_weights[...] / 100], added from the left; [float('inf')]
    when the front clip or the rear clip has no row there. *)
Definition displayed_score (d : Selector) (w : Weights) (e : Assignment) (center : C)
    : float :=
  match rows_for (df_front_calc_ranks d) center (front_clip e),
        rows_for (df_rear_calc_ranks d) center (rear_clip e) with
  | front_data :: _, rear_data :: _ =>
      fadd (fadd (fadd (fmul (rank_float (left_rank front_data)) (fdiv (w_LF w) hundred))
                       (fmul (rank_float (right_rank front_data)) (fdiv (w_RF w) hundred)))
                 (fmul (rank_float (left_rank rear_data)) (fdiv (w_LR w) hundred)))
           (fmul (rank_float (right_rank rear_data)) (fdiv (w_RR w) hundred))
  | _, _ => infinity
  end.

(** [center_scores]; [None] is the KeyError of a center section that
    has no entry in the map. *)
Fixpoint center_scores (d : Selector) (w : Weights) (a : gmap C Assignment)
    (centers : list C) : option (list (C * float)) :=
  match centers with
  | [] => Some []
  | center :: centers =>
      e ← a !! center;
      rest ← center_scores d w a centers;
      Some ((center, displayed_score d w e center) :: rest)
  end.

(** [sorted(center_scores, key=lambda x: x[1])]: a stable sort, entries
    of equal score keep the order they had.  (The scores the program
    sorts are never NaN: they are sums of products of ranks and
    non-negative weights.) *)
Fixpoint insert_by_score (x : C * float) (l : list (C * float)) : list (C * float) :=
  match l with
  | [] => [x]
  | y :: l' => if flt y.2 x.2 then y :: insert_by_score x l' else x :: y :: l'
  end.

Definition sort_by_score (l : list (C * float)) : list (C * float) :=
  foldr insert_by_score [] l.

(** [sorted_centers]: identifier order in manual order mode, otherwise
    best weighted score first. *)
Definition sorted_centers (d : Selector) (w : Weights) (a : gmap C Assignment)
    (manual_order_mode : bool) : option (list C) :=
  if manual_order_mode then Some (merge_sort id_le (all_center_sections d))
  else (λ scores, (sort_by_score scores).*1) <$> center_scores d w a (all_center_sections d).

(** The rows of [df_front_table] and [df_rear_table]: one per center
    section of [sorted_centers] whose assigned front clip and rear
    clip both have a row at that center section. *)
Fixpoint lineup_rows (d : Selector) (a : gmap C Assignment) (centers : list C)
    : option (list (C * Assignment)) :=
  match centers with
  | [] => Some []
  | center :: centers =>
      e ← a !! center;
      rest ← lineup_rows d a centers;
      match rows_for (df_front_calc_ranks d) center (front_clip e),
            rows_for (df_rear_calc_ranks d) center (rear_clip e) with
      | _ :: _, _ :: _ => Some ((center, e) :: rest)
      | _, _ => Some rest
      end
  end.

Definition front_duplicates (rows : list (C * Assignment)) : gset string :=
  duplicates ((λ row, front_clip row.2) <$> rows).
Definition rear_duplicates (rows : list (C * Assignment)) : gset string :=
  duplicates ((λ row, rear_clip row.2) <$> rows).

(** *** Manual reassignment *)

(** The session entries the clip cells of the table editors write. *)
Record Lineup := {
  assignments : gmap C Assignment;
  manual_order_mode : bool
}.

(** One row of [edited_front]: the center section and the front clip
    now selected for it (the track type column, kept in a dictionary of
    its own, is handled by [edit_track]).  [None] is the KeyError of an
    unknown center section; the flag tells whether the row changed the
    map. *)
Definition edit_front (l : Lineup) (row : C * string) : option (Lineup * bool) :=
  e ← assignments l !! row.1;
  if decide (front_clip e ≠ row.2) then
    Some ({| assignments :=
               <[ row.1 := {| front_clip := row.2; rear_clip := rear_clip e |} ]>
                 (assignments l);
             manual_order_mode := true |}, true)
  else Some (l, false).

Definition edit_rear (l : Lineup) (row : C * string) : option (Lineup * bool) :=
  e ← assignments l !! row.1;
  if decide (rear_clip e ≠ row.2) then
    Some ({| assignments :=
               <[ row.1 := {| front_clip := front_clip e; rear_clip := row.2 |} ]>
                 (assignments l);
             manual_order_mode := true |}, true)
  else Some (l, false).

(** The second test of the front loop: the center section and the
    track type now selected for it. *)
Definition edit_track (t : gmap C string) (row : C * string) : option (gmap C string * bool) :=
  old ← t !! row.1;
  if decide (old ≠ row.2) then Some (<[ row.1 := row.2 ]> t, true)
  else Some (t, false).

(** *** One run of the Selector tab *)

(** What the widgets of the tab report in one run: the four number
    inputs, whether the user pressed Calculate, and the cells of the
    two table editors.  An editor returns the table it was given with
    the cells the user changed; its rows and their center sections
    (a disabled column) are those of the table shown.  For the row of
    a center section, [front_table_editor] maps the front clip shown
    to the one now selected, and likewise for the track type and the
    rear clip; an untouched table is the identity. *)
Record Widgets := {
  number_inputs : Weights;
  calculate_pressed : bool;
  front_table_editor : C → string → string;
  track_type_editor : C → string → string;
  rear_table_editor : C → string → string
}.

(** [{cs: 'INT' for cs in all_center_sections}] *)
Definition initial_track_types (d : Selector) : gmap C string :=
  list_to_map ((λ cs, (cs, "INT")) <$> all_center_sections d).

(** [st.session_state['track_types'][center]] for every row shown. *)
Definition track_column (t : gmap C string) (rows : list (C * Assignment))
    : option (list string) :=
  mapM (λ row, t !! row.1) rows.

(** [manual_order_mode] and [last_calculate_time] are created on the
    first run that reaches them (lines 1727-1733). *)
Definition init_order_flags (s : Session) : Session :=
  let s :=
    match session_manual_order_mode s with
    | Some _ => s
    | None => set_manual_order_mode false s
    end in
  match last_calculate_time s with
  | Some _ => s
  | None => set_last_calculate_time 0 s
  end.

(** The tab from the manual-order flag to the [st.rerun()] after the
    two editors (lines 1727-1988), for a run in which Calculate was
    not pressed: a press ends the run before.  An empty
    [df_front_table] has no column [Front_Clip], so that counting its
    duplicate clips raises KeyError.  The clip cells and the track
    cells of the front editor are written to different session
    entries; the loop over its rows is taken once for each. *)
Definition lineup_tables (d : Selector) (ui : Widgets) (s : Session) : Session * Outcome :=
  let s := init_order_flags s in
  match corner_weights s, lineup_assignments s, track_types s, session_manual_order_mode s with
  | Some w, Some a, Some t, Some manual =>
      match sorted_centers d w a manual with
      | None => (s, Raised "KeyError")
      | Some centers =>
          match lineup_rows d a centers with
          | None => (s, Raised "KeyError")
          | Some rows =>
              match track_column t rows with
              | None => (s, Raised "KeyError")
              | Some tracks =>
                  if decide (rows = []) then (s, Raised "KeyError")
                  else
                    let edited_front :=
                      (λ row, (row.1, front_table_editor ui row.1 (front_clip row.2)))
                        <$> rows in
                    let edited_tracks :=
                      (λ row, (row.1.1, track_type_editor ui row.1.1 row.2))
                        <$> zip rows tracks in
                    let edited_rear :=
                      (λ row, (row.1, rear_table_editor ui row.1 (rear_clip row.2)))
                        <$> rows in
                    match apply_edits edit_front
                            {| assignments := a; manual_order_mode := manual |}
                            false edited_front with
                    | None => (s, Raised "KeyError")
                    | Some (l1, c1) =>
                        match apply_edits edit_track t c1 edited_tracks with
                        | None => (s, Raised "KeyError")
                        | Some (t', c2) =>
                            match apply_edits edit_rear l1 c2 edited_rear with
                            | None => (s, Raised "KeyError")
                            | Some (l2, changes_made) =>
                                (set_manual_order_mode (manual_order_mode l2)
                                   (set_track_types t'
                                      (set_assignments (assignments l2) s)),
                                 if changes_made then Rerun else Completed)
                            end
                        end
                    end
              end
          end
      end
  | _, _, _, _ => (s, Raised "KeyError")
  end.

(** One run of the Selector tab, from its first line to the
    [st.rerun()] after the table editors, which is all of the tab that
    writes the session (the duplicate warning, the What-If calculator
    and the fleet summary that follow only display).  A disabled
    button never reports a press. *)
Definition selector_tab (s : Session) (ui : Widgets) : Session * Outcome :=
  match results_df s with
  | None => (s, Completed)
  | Some results =>
      if using_multi_sheet s then
        match df_front_calc s, df_rear_calc s with
        | Some fc, Some rc =>
            let d := selector_data results fc rc in
            let s :=
              match corner_weights s with
              | Some _ => s
              | None => set_weights default_weights s
              end in
            let stored := default default_weights (corner_weights s) in
            let init :=
              match lineup_assignments s with
              | Some _ => Some s
              | None => (λ a, set_assignments a s) <$> optimize d stored
              end in
            match init with
            | None => (s, Raised "IndexError")
            | Some s =>
                let s :=
                  match track_types s with
                  | Some _ => s
                  | None => set_track_types (initial_track_types d) s
                  end in
                let calculate_button :=
                  if calculate_disabled (number_inputs ui) then false
                  else calculate_pressed ui in
                if calculate_button then
                  let s := set_weights (number_inputs ui) s in
                  match optimize d (number_inputs ui) with
                  | Some a => (set_assignments a s, Rerun)
                  | None => (s, Raised "IndexError")
                  end
                else lineup_tables d ui s
            end
        | _, _ => (s, Raised "KeyError")
        end
      else (s, Completed)
  end.

(** Untouched table editors. *)
Definition untouched (input : Weights) (click : bool) : Widgets :=
  {| number_inputs := input;
     calculate_pressed := click;
     front_table_editor := λ _ shown, shown;
     track_type_editor := λ _ shown, shown;
     rear_table_editor := λ _ shown, shown |}.

(** *** Views used in the statements *)

(** Column accessors by corner. *)
Definition length_of (c : Corner) (r : ResultRow) : Len :=
  match c with
  | LF => LF_Damper_Length r
  | RF => RF_Damper_Length r
  | LR => LR_Damper_Length r
  | RR => RR_Damper_Length r
  end.

Definition rank_of (c : Corner) (r : RankedRow) : nat :=
  match c with
  | LF => LF_Rank r
  | RF => RF_Rank r
  | LR => LR_Rank r
  | RR => RR_Rank r
  end.

(** What a completed calculation stores as [results_df]. *)
Definition working_rows (cfg : Config) (up : Upload) (s : Session) : list ResultRow :=
  if using_multi_sheet s then
    merge_on_center (front_calc cfg (df_front up) (df_rear up))
                    (rear_calc cfg (df_front up) (df_rear up))
  else single_calc cfg (df up).

(** The rank tables the dual-sheet tabs derive from the stored sheets. *)
Definition df_front_display (s : Session) : option (list AxleRankRow) :=
  axle_ranks <$> df_front_calc s.
Definition df_rear_display (s : Session) : option (list AxleRankRow) :=
  axle_ranks <$> df_rear_calc s.

(** The rear score as the specification words it:
    [rear_weighted_score = 2·LR_rank + 1·RR_rank], and [rear_rank], the
    min-method ascending re-rank of the rear weighted scores of the
    working set. *)
Definition spec_rear_weighted_score (r : RankedRow) : nat :=
  (2 * LR_Rank r + 1 * RR_Rank r)%nat.

Definition spec_rear_rank (rs : list RankedRow) (r : RankedRow) : nat :=
  rank_ascending (spec_rear_weighted_score <$> rs) (spec_rear_weighted_score r).

(** The height column the specification takes the median of in
    single-sheet mode: the LCA center heights of all four corners of
    all rows. *)
Definition spec_single_z_heights (df : list SurveyRow) : list Q :=
  c ← [LF; RF; LR; RR]; (λ r, pz (single_lca_center r c)) <$> df.

(** *** The candidate pairs of one center section *)

(** A pair of clips with the four ranks looked up for it. *)
Record Candidate := {
  cand_front : string;
  cand_rear : string;
  cand_LF : nat;
  cand_RF : nat;
  cand_LR : nat;
  cand_RR : nat
}.

(** The pairs the nested loops reach for center section [cs], in loop
    order: front clips not yet used with a row at [cs], and for each
    of them the rear clips not yet used with a row at [cs]. *)
Definition candidates (d : Selector) (used_front used_rear : gset string) (cs : C)
    : list Candidate :=
  f ← all_front_clips d;
  if decide (f ∈ used_front) then []
  else
    match rows_for (df_front_calc_ranks d) cs f with
    | [] => []
    | front_row :: _ =>
        r ← all_rear_clips d;
        if decide (r ∈ used_rear) then []
        else
          match rows_for (df_rear_calc_ranks d) cs r with
          | [] => []
          | rear_row :: _ =>
              [ {| cand_front := f; cand_rear := r;
                   cand_LF := left_rank front_row; cand_RF := right_rank front_row;
                   cand_LR := left_rank rear_row; cand_RR := right_rank rear_row |} ]
          end
    end.

(** The order of the score display: by score, entries of equal score
    by identifier. *)
Definition shown_before (x y : C * float) : Prop :=
  flt y.2 x.2 = false ∧ (flt x.2 y.2 = false → id_le x.1 y.1).

(** The clips committed so far. *)
Definition fronts (combos : list Combo) : list string := combo_front <$> combos.
Definition rears (combos : list Combo) : list string := combo_rear <$> combos.

(** The used sets hold exactly the committed clips, and these come from
    the clip lists. *)
Definition consistent (d : Selector) (st : OptState) : Prop :=
  (∀ f, f ∈ used_front_clips st ↔ f ∈ fronts (center_best_combos st)) ∧
  (∀ r, r ∈ used_rear_clips st ↔ r ∈ rears (center_best_combos st)) ∧
  (∀ f, f ∈ fronts (center_best_combos st) → f ∈ all_front_clips d) ∧
  (∀ r, r ∈ rears (center_best_combos st) → r ∈ all_rear_clips d).

(** The map entry a combo is stored as. *)
Definition entry_of (c : Combo) : Assignment :=
  {| front_clip := combo_front c; rear_clip := combo_rear c |}.

End Model.

Definition with_normalize (b : bool) (cfg : Config) : Config :=
  {| lf_y_offset := lf_y_offset cfg; rf_y_offset := rf_y_offset cfg;
     lr_y_offset := lr_y_offset cfg; rr_y_offset := rr_y_offset cfg;
     normalize_lca_z := b |}.

(** ** The scores of a candidate pair *)

(** [w_LF·LF_rank + w_RF·RF_rank + w_LR·LR_rank + w_RR·RR_rank], as
    the exact number the specification writes. *)
Definition weighted_combination (w : Weights) (c : Candidate) : Q :=
  float_value (w_LF w) * inject_Z (Z.of_nat (cand_LF c)) +
  float_value (w_RF w) * inject_Z (Z.of_nat (cand_RF c)) +
  float_value (w_LR w) * inject_Z (Z.of_nat (cand_LR c)) +
  float_value (w_RR w) * inject_Z (Z.of_nat (cand_RR c)).

(** The score the loop computes for a candidate. *)
Definition candidate_score (w : Weights) (c : Candidate) : float :=
  combined_score w (cand_LF c) (cand_RF c) (cand_LR c) (cand_RR c).

(** The loop body seen on a candidate. *)
Definition consider (w : Weights) (b : Best) (c : Candidate) : Best :=
  if improves (candidate_score w c) (best_score b) then
    {| best_score := candidate_score w c;
       best_front := Some (cand_front c);
       best_rear := Some (cand_rear c) |}
  else b.

Definition best_of (w : Weights) (c : Candidate) : Best :=
  {| best_score := candidate_score w c;
     best_front := Some (cand_front c);
     best_rear := Some (cand_rear c) |}.

(** [c], at position [i], has a computed score below [float('inf')]
    that no candidate of the list undercuts, and is the first to reach
    it: the score of every candidate before it is strictly greater
    (or is NaN, which [<] never accepts). *)
Definition first_minimum (w : Weights) (cands : list Candidate) (i : nat) (c : Candidate)
    : Prop :=
  cands !! i = Some c ∧
  flt (candidate_score w c) infinity = true ∧
  (∀ c', c' ∈ cands → flt (candidate_score w c') (candidate_score w c) = false) ∧
  (∀ j c', (j < i)%nat → cands !! j = Some c' →
           flt (candidate_score w c) (candidate_score w c') = true ∨
           is_nan (candidate_score w c') = true).

(** ** Whole-number percentages *)

(** Sums of whole-number percentages are exact: adding a weight
    between 0 and 100 to a partial total of at most 300 yields the
    float of the sum.  Checked on every such pair. *)
Definition whole_sums_exact : bool :=
  forallb (λ t, forallb (λ c,
      float_eqb (fadd (pct (Z.of_nat t)) (pct (Z.of_nat c))) (pct (Z.of_nat (t + c))))
    (seq 0 101)) (seq 0 301).

(** The gate on a whole-number total between 0 and 400. *)
Definition whole_gate_exact : bool :=
  forallb (λ t,
      Bool.eqb (flt hundredth (fabs (fsub (pct (Z.of_nat t)) hundred)))
               (negb (t =? 100)%nat))
    (seq 0 401).

(** ** Sample data *)

Module Sample.
(** A corner whose three points lie on the vertical axis: upper
    mount at height [u], both LCA pivots at height [z]. *)
Definition corner (u z : Q) : Hardpoints :=
  {| upper := mkPoint 0 0 u; lca_front := mkPoint 0 0 z; lca_rear := mkPoint 0 0 z |}.

(** Offsets of magnitude 1; the LF offset is entered negative. *)
Definition cfg : Config :=
  {| lf_y_offset := -1; rf_y_offset := 1; lr_y_offset := 1; rr_y_offset := 1;
     normalize_lca_z := true |}.

(** A single sheet with two combinations. *)
Definition row_A : SurveyRow :=
  {| center_section := "A"; clip := "C1";
     lf_points := corner 10 0; rf_points := corner 10 2;
     lr_points := corner 10 4; rr_points := corner 8 6 |}.
Definition row_B : SurveyRow :=
  {| center_section := "B"; clip := "C2";
     lf_points := corner 9 0; rf_points := corner 11 2;
     lr_points := corner 9 4; rr_points := corner 10 6 |}.

Definition single_upload : Upload :=
  {| df := [row_A; row_B]; df_front := []; df_rear := [] |}.

(** A session before the first calculation. *)
Definition empty_session `{Identifier C} (multi : bool) : Session (C:=C) :=
  {| using_multi_sheet := multi; results_df := None; df_front_calc := None;
     df_rear_calc := None; corner_weights := None; lineup_assignments := None;
     track_types := None; session_manual_order_mode := None;
     last_calculate_time := None |}.

Definition single_results : list RankedRow :=
  rank_results (single_calc cfg (df single_upload)).

(** Front and rear sheets: two center sections, two front clips and
    two rear clips, every clip surveyed on every center section. *)
Definition axle_row `{Identifier C} (cs : C) (c : string) (l r : Hardpoints)
    : AxleRow (C:=C) :=
  {| axle_center_section := cs; axle_clip := c; left_points := l; right_points := r |}.

Definition front_sheet : list AxleRow :=
  [ axle_row "S1" "F1" (corner 10 0) (corner 12 2);
    axle_row "S1" "F2" (corner 9 0) (corner 11 2);
    axle_row "S2" "F1" (corner 12 0) (corner 14 2);
    axle_row "S2" "F2" (corner 11 0) (corner 13 2) ].
Definition rear_sheet : list AxleRow :=
  [ axle_row "S1" "R1" (corner 10 4) (corner 12 6);
    axle_row "S1" "R2" (corner 9 4) (corner 11 6);
    axle_row "S2" "R1" (corner 12 4) (corner 14 6);
    axle_row "S2" "R2" (corner 11 4) (corner 13 6) ].

Definition dual_upload : Upload :=
  {| df := []; df_front := front_sheet; df_rear := rear_sheet |}.

Definition dual_session : Session := (calculate cfg dual_upload (empty_session true)).1.

(** A rear sheet that shares no center section with the front sheet. *)
Definition disjoint_upload : Upload :=
  {| df := []; df_front := front_sheet;
     df_rear := [ axle_row "S9" "R1" (corner 10 4) (corner 12 6) ] |}.

(** One front clip and one rear clip for two center sections. *)
Definition scarce_upload : Upload :=
  {| df := [];
     df_front := [ axle_row "S1" "F1" (corner 10 0) (corner 12 2);
                   axle_row "S2" "F1" (corner 12 0) (corner 14 2) ];
     df_rear := [ axle_row "S1" "R1" (corner 10 4) (corner 12 6);
                  axle_row "S2" "R1" (corner 12 4) (corner 14 6) ] |}.

Definition dual_results : list RankedRow :=
  rank_results (working_rows cfg dual_upload (empty_session true)).

Definition dual_front_calc : list AxleCalcRow := front_calc cfg front_sheet rear_sheet.
Definition dual_rear_calc : list AxleCalcRow := rear_calc cfg front_sheet rear_sheet.
Definition dual_selector : Selector :=
  selector_data dual_results dual_front_calc dual_rear_calc.

Definition scarce_results : list RankedRow :=
  rank_results (working_rows cfg scarce_upload (empty_session true)).
Definition scarce_front_calc : list AxleCalcRow :=
  front_calc cfg (df_front scarce_upload) (df_rear scarce_upload).
Definition scarce_rear_calc : list AxleCalcRow :=
  rear_calc cfg (df_front scarce_upload) (df_rear scarce_upload).
Definition scarce_selector : Selector :=
  selector_data scarce_results scarce_front_calc scarce_rear_calc.

(** The maps the optimizer computes for equal weights. *)
Definition dual_assignments : gmap string Assignment :=
  default ∅ (optimize dual_selector default_weights).
Definition scarce_assignments : gmap string Assignment :=
  default ∅ (optimize scarce_selector default_weights).

(** Sheets whose center sections are numbered 9 and 10.  On both of
    them front clip F1 is longer than F2 at either corner; at center
    section 9 rear clip R1 is the longer one at LR and R2 at RR, and
    every clip is shorter at center section 10. *)
Definition plain_cfg : Config :=
  {| lf_y_offset := 1; rf_y_offset := 1; lr_y_offset := 1; rr_y_offset := 1;
     normalize_lca_z := false |}.

Definition numbered_front : list AxleRow :=
  [ axle_row 10%Z "F1" (corner 8 0) (corner 8 0);
    axle_row 10%Z "F2" (corner 7 0) (corner 7 0);
    axle_row 9%Z "F1" (corner 10 0) (corner 10 0);
    axle_row 9%Z "F2" (corner 9 0) (corner 9 0) ].
Definition numbered_rear : list AxleRow :=
  [ axle_row 10%Z "R1" (corner 8 0) (corner 8 0);
    axle_row 10%Z "R2" (corner 7 0) (corner 7 0);
    axle_row 9%Z "R1" (corner 10 0) (corner 9 0);
    axle_row 9%Z "R2" (corner 9 0) (corner 10 0) ].

Definition numbered_upload : Upload :=
  {| df := []; df_front := numbered_front; df_rear := numbered_rear |}.

Definition numbered_session : Session :=
  (calculate plain_cfg numbered_upload (empty_session true)).1.

Definition numbered_results : list RankedRow :=
  rank_results (working_rows plain_cfg numbered_upload (empty_session true)).
Definition numbered_front_calc : list AxleCalcRow :=
  front_calc plain_cfg numbered_front numbered_rear.
Definition numbered_rear_calc : list AxleCalcRow :=
  rear_calc plain_cfg numbered_front numbered_rear.
Definition numbered_selector : Selector :=
  selector_data numbered_results numbered_front_calc numbered_rear_calc.

(** Weights 0, 10, 45 and 45, which sum to 100. *)
Definition skewed_weights : Weights :=
  {| w_LF := pct 0; w_RF := pct 10; w_LR := pct 45; w_RR := pct 45 |}.

Definition numbered_assignments : gmap Z Assignment :=
  default ∅ (optimize numbered_selector default_weights).
Definition skewed_assignments : gmap Z Assignment :=
  default ∅ (optimize numbered_selector skewed_weights).

(** The session after Calculate has been pressed with equal weights. *)
Definition dual_lineup_session : Session :=
  (selector_tab dual_session (untouched default_weights true)).1.

(** Number inputs 25.005, 25, 25 and 25. *)
Definition near_100_weights : Weights :=
  {| w_LF := float_of_ratio 25005 1000; w_RF := pct 25; w_LR := pct 25; w_RR := pct 25 |}.
End Sample.

(** * Properties *)

(** ** Lists *)

Lemma filter_all {A} (P : A → Prop) `{∀ x, Decision (P x)} (l : list A) :
  (∀ x, x ∈ l → P x) → filter P l = l.
Proof.
  induction l as [|a l IH]; intros Hall; [done|].
  rewrite filter_cons_True by (apply Hall; set_solver).
  f_equal. apply IH. intros; apply Hall; set_solver.
Qed.

Lemma filter_none {A} (P : A → Prop) `{∀ x, Decision (P x)} (l : list A) :
  (∀ x, x ∈ l → ¬ P x) → filter P l = [].
Proof.
  induction l as [|a l IH]; intros Hnone; [done|].
  rewrite filter_cons_False by (apply Hnone; set_solver).
  apply IH. intros; apply Hnone; set_solver.
Qed.

(** ** Min-method ranking *)

Section RankFacts.
Context {A : Type} (precedes : A → A → bool).
Hypothesis precedes_irrefl : ∀ x, precedes x x = false.
Hypothesis precedes_trans :
  ∀ x y z, precedes x y = true → precedes y z = true → precedes x z = true.
Hypothesis precedes_negtrans :
  ∀ x y z, precedes x z = true → precedes x y = true ∨ precedes y z = true.

#[local] Instance not_after_total : Total (not_after precedes).
Proof.
  intros x y. unfold not_after.
  destruct (precedes y x) eqn:Hyx; [|by left].
  destruct (precedes x y) eqn:Hxy; [|by right].
  pose proof (precedes_trans _ _ _ Hxy Hyx) as Hxx.
  by rewrite precedes_irrefl in Hxx.
Qed.

#[local] Instance not_after_transitive : Transitive (not_after precedes).
Proof.
  intros x y z Hxy Hyz. unfold not_after in *.
  destruct (precedes z x) eqn:Hzx; [|done].
  destruct (precedes_negtrans _ y _ Hzx); congruence.
Qed.

Lemma tied_refl x : tied precedes x x.
Proof. split; apply precedes_irrefl. Qed.

Lemma tied_precedes_iff x y z :
  tied precedes x y → precedes z x = true ↔ precedes z y = true.
Proof.
  intros [Hxy Hyx]; split; intros H.
  - destruct (precedes_negtrans _ y _ H); congruence.
  - destruct (precedes_negtrans _ x _ H); congruence.
Qed.

Lemma rank_order_perm col : rank_order precedes col ≡ₚ col.
Proof. apply merge_sort_Permutation. Qed.

Lemma rank_order_sorted col :
  StronglySorted (not_after precedes) (rank_order precedes col).
Proof. apply StronglySorted_merge_sort; apply _. Qed.

Lemma count_before_perm l1 l2 x :
  l1 ≡ₚ l2 → count_before precedes l1 x = count_before precedes l2 x.
Proof. intros H. unfold count_before. by rewrite H. Qed.

(** In ranking order, the group of ties of [x] starts right after
    the entries that strictly precede [x]. *)
Lemma first_tie_position s i y x :
  StronglySorted (not_after precedes) s →
  list_find (tied precedes x) s = Some (i, y) →
  count_before precedes s x = i.
Proof.
  intros Hs (Hi & Hty & Hbefore)%list_find_Some.
  rewrite <- (take_drop_middle s i y Hi) in Hs.
  apply StronglySorted_app in Hs as (Hcross & _ & Hs2).
  apply StronglySorted_cons in Hs2 as [Hy _].
  unfold count_before.
  rewrite <- (take_drop_middle s i y Hi) at 1.
  rewrite filter_app.
  rewrite filter_all, filter_none.
  - rewrite app_nil_r, length_take. apply Nat.min_l.
    apply lookup_lt_Some in Hi. lia.
  - intros z Hz Hzx. destruct Hty as [Hxy Hyx].
    apply elem_of_cons in Hz as [->|Hz]; [congruence|].
    rewrite Forall_forall in Hy. specialize (Hy z Hz). unfold not_after in Hy.
    destruct (precedes_negtrans _ y _ Hzx); congruence.
  - intros z (j & Hj & Hlt)%elem_of_take.
    destruct (precedes z x) eqn:Hzx; [done|].
    exfalso. apply (Hbefore j z Hj Hlt). split; [|done].
    destruct (precedes x z) eqn:Hxz; [|done].
    assert (not_after precedes z y) as Hzy.
    { apply Hcross; [by apply elem_of_take; eauto|set_solver]. }
    unfold not_after in Hzy. destruct Hty as [Hxy Hyx].
    destruct (precedes_negtrans _ y _ Hxz); congruence.
Qed.

(** The rank of a member of the column is one more than the number
    of entries strictly before it. *)
Lemma rank_min_count col x :
  x ∈ col → rank_min precedes col x = S (count_before precedes col x).
Proof.
  intros Hx. unfold rank_min.
  assert (x ∈ rank_order precedes col) as Hx' by by rewrite rank_order_perm.
  destruct (list_find_elem_of (tied precedes x) _ x Hx' (tied_refl x)) as [[i y] Hf].
  rewrite Hf. f_equal.
  rewrite <- (count_before_perm _ _ x (rank_order_perm col)).
  symmetry. eapply first_tie_position; [apply rank_order_sorted|done].
Qed.

Lemma count_before_tied col x y :
  tied precedes x y → count_before precedes col x = count_before precedes col y.
Proof.
  intros Ht. unfold count_before. f_equal.
  apply list_filter_iff. intros z. by apply tied_precedes_iff.
Qed.

Lemma count_before_mono col x y :
  x ∈ col → precedes x y = true →
  (count_before precedes col x < count_before precedes col y)%nat.
Proof.
  intros Hx Hxy. unfold count_before.
  induction col as [|a col IH]; [set_solver|].
  assert (∀ l, (length (filter (λ z, precedes z x = true) l)
               ≤ length (filter (λ z, precedes z y = true) l))%nat) as Hle.
  { induction l as [|b l IHl]; [done|].
    rewrite !filter_cons. destruct (precedes b x) eqn:Hbx.
    - rewrite (precedes_trans _ _ _ Hbx Hxy).
      repeat case_decide; try done. simpl. lia.
    - repeat case_decide; try done; simpl; lia. }
  rewrite !filter_cons.
  apply elem_of_cons in Hx as [<-|Hx].
  - rewrite precedes_irrefl, Hxy. repeat case_decide; try done.
    simpl. specialize (Hle col). lia.
  - specialize (IH Hx). destruct (precedes a x) eqn:Hax.
    + rewrite (precedes_trans _ _ _ Hax Hxy).
      repeat case_decide; try done. simpl. lia.
    + repeat case_decide; try done; simpl; lia.
Qed.
End RankFacts.

(** ** The orders used for ranking *)

Lemma Qltb_lt x y : Qltb x y = true ↔ x < y.
Proof.
  unfold Qltb. rewrite negb_true_iff, <- not_true_iff_false, Qle_bool_iff.
  split; [apply Qnot_le_lt|apply Qlt_not_le].
Qed.

Lemma Qltb_ge x y : Qltb x y = false ↔ y <= x.
Proof. unfold Qltb. by rewrite negb_false_iff, Qle_bool_iff. Qed.

Lemma Len_gtb_irrefl x : Len_gtb x x = false.
Proof. apply Qltb_ge, Qle_refl. Qed.

Lemma Len_gtb_trans x y z :
  Len_gtb x y = true → Len_gtb y z = true → Len_gtb x z = true.
Proof.
  unfold Len_gtb, Len_ltb. rewrite !Qltb_lt. intros H1 H2. by eapply Qlt_trans.
Qed.

Lemma Len_gtb_negtrans x y z :
  Len_gtb x z = true → Len_gtb x y = true ∨ Len_gtb y z = true.
Proof.
  unfold Len_gtb, Len_ltb. rewrite !Qltb_lt. intros H.
  destruct (Qlt_le_dec (radicand y) (radicand x)) as [?|Hle]; [by left|right].
  by eapply Qlt_le_trans.
Qed.

Lemma Len_eq_tied x y : Len_eq x y ↔ tied Len_gtb x y.
Proof.
  unfold Len_eq, tied, Len_gtb, Len_ltb. rewrite !Qltb_ge. split.
  - intros H. rewrite H. split; apply Qle_refl.
  - intros [H1 H2]. by apply Qle_antisym.
Qed.

Lemma ltb_irrefl (x : nat) : (x <? x)%nat = false.
Proof. apply Nat.ltb_irrefl. Qed.

Lemma ltb_trans (x y z : nat) :
  (x <? y)%nat = true → (y <? z)%nat = true → (x <? z)%nat = true.
Proof. rewrite !Nat.ltb_lt. lia. Qed.

Lemma ltb_negtrans (x y z : nat) :
  (x <? z)%nat = true → (x <? y)%nat = true ∨ (y <? z)%nat = true.
Proof. rewrite !Nat.ltb_lt. lia. Qed.

Lemma eq_tied_ltb (x y : nat) : x = y ↔ tied Nat.ltb x y.
Proof. unfold tied. rewrite !Nat.ltb_ge. lia. Qed.

Lemma count_before_fmap {A B} (precedes : B → B → bool) (f : A → B) (l : list A) (x : B) :
  count_before precedes (f <$> l) x = length (filter (λ r, precedes (f r) x = true) l).
Proof.
  unfold count_before. induction l as [|a l IH]; [done|].
  rewrite fmap_cons, !filter_cons. repeat case_decide; try done; simpl; by rewrite IH.
Qed.

(** [rank(ascending=False, method='min')] on a column of lengths. *)
Lemma rank_descending_count col x :
  x ∈ col → rank_descending col x = S (count_before Len_gtb col x).
Proof.
  apply rank_min_count;
    eauto using Len_gtb_irrefl, Len_gtb_trans, Len_gtb_negtrans.
Qed.

(** [rank(method='min')] on a column of integers. *)
Lemma rank_ascending_count col x :
  x ∈ col → rank_ascending col x = S (count_before Nat.ltb col x).
Proof.
  apply rank_min_count; eauto using ltb_irrefl, ltb_trans, ltb_negtrans.
Qed.

(** ** The order of the floats *)

(** [flt] and [fle] compare sign, exponent and mantissa; the facts
    below hold of all floats, NaN included, except the last two. *)
Ltac float_order :=
  unfold flt, fle, SFltb, SFleb, SFcompare, is_nan;
  repeat match goal with
         | x : float |- _ => destruct x as [[]|[]| |[] ? ?]
         end;
  simpl; try done;
  repeat match goal with
         | |- context [(?a ?= ?b)%Z] => destruct (Z.compare_spec a b); simpl; try done
         | |- context [Pos.compare_cont Eq ?a ?b] =>
             change (Pos.compare_cont Eq a b) with (Pos.compare a b);
             destruct (Pos.compare_spec a b); simpl; try done
         end;
  try lia; auto.

Lemma flt_irrefl (x : float) : flt x x = false.
Proof. float_order. Qed.

Lemma flt_trans (x y z : float) : flt x y = true → flt y z = true → flt x z = true.
Proof. float_order. Qed.

Lemma flt_asym (x y : float) : flt x y = true → flt y x = false.
Proof. float_order. Qed.

Lemma fle_flt_trans (x y z : float) : fle x y = true → flt y z = true → flt x z = true.
Proof. float_order. Qed.

Lemma flt_not_fle (x y : float) : flt x y = true → fle y x = false.
Proof. float_order. Qed.

Lemma flt_fle (x y : float) : flt x y = true → fle x y = true.
Proof. float_order. Qed.

Lemma flt_not_nan (x y : float) : flt x y = true → is_nan x = false ∧ is_nan y = false.
Proof. float_order. Qed.

(** Without NaN the order is total. *)
Lemma flt_negtrans (x y z : float) :
  is_nan y = false → flt x z = true → flt x y = true ∨ flt y z = true.
Proof. float_order. Qed.

Lemma fle_total (x y : float) :
  is_nan x = false → is_nan y = false → flt x y = false → fle y x = true.
Proof. float_order. Qed.

(** ** Whole-number percentages *)

Lemma float_eqb_eq (x y : float) : float_eqb x y = true → x = y.
Proof.
  destruct x as [[]|[]| |[] m e], y as [[]|[]| |[] m' e']; simpl; try done;
    rewrite andb_true_iff; intros [->%Pos.eqb_eq ->%Z.eqb_eq]; done.
Qed.

Lemma forallb_seq (P : nat → bool) (n k : nat) :
  forallb P (seq 0 n) = true → (k < n)%nat → P k = true.
Proof.
  rewrite forallb_forall. intros Hall Hk. apply Hall, in_seq. lia.
Qed.

Lemma fadd_pct (t c : Z) :
  (0 ≤ t ≤ 300)%Z → (0 ≤ c ≤ 100)%Z → fadd (pct t) (pct c) = pct (t + c).
Proof.
  intros Ht Hc.
  assert (whole_sums_exact = true) as Hall by (vm_compute; reflexivity).
  pose proof (forallb_seq _ _ (Z.to_nat t) Hall ltac:(lia)) as Hrow. cbv beta in Hrow.
  pose proof (forallb_seq _ _ (Z.to_nat c) Hrow ltac:(lia)) as Hcell. cbv beta in Hcell.
  apply float_eqb_eq in Hcell.
  rewrite Nat2Z.inj_add, !Z2Nat.id in Hcell by lia. exact Hcell.
Qed.

Lemma whole_total_weight (a b c e : Z) :
  (0 ≤ a ≤ 100)%Z → (0 ≤ b ≤ 100)%Z → (0 ≤ c ≤ 100)%Z → (0 ≤ e ≤ 100)%Z →
  total_weight {| w_LF := pct a; w_RF := pct b; w_LR := pct c; w_RR := pct e |} =
  pct (a + b + c + e).
Proof.
  intros. unfold total_weight. simpl. rewrite !fadd_pct by lia. done.
Qed.

(** For whole-number weights between 0 and 100 the button is disabled
    exactly when they do not sum to 100. *)
Lemma calculate_disabled_whole (a b c e : Z) :
  (0 ≤ a ≤ 100)%Z → (0 ≤ b ≤ 100)%Z → (0 ≤ c ≤ 100)%Z → (0 ≤ e ≤ 100)%Z →
  calculate_disabled {| w_LF := pct a; w_RF := pct b; w_LR := pct c; w_RR := pct e |} = true
  ↔ (a + b + c + e ≠ 100)%Z.
Proof.
  intros. unfold calculate_disabled. rewrite whole_total_weight by done.
  assert (whole_gate_exact = true) as Hall by (vm_compute; reflexivity).
  pose proof (forallb_seq _ _ (Z.to_nat (a + b + c + e)) Hall ltac:(lia)) as Ht.
  cbv beta in Ht. rewrite Z2Nat.id in Ht by lia. apply Bool.eqb_prop in Ht. rewrite Ht.
  rewrite negb_true_iff, Nat.eqb_neq. lia.
Qed.

(** ** The ranked working set *)

Section Calculation.
Context {C : Type} {C_eq_dec : EqDecision C} {C_countable : Countable C}
        {C_identifier : Identifier C}.
Implicit Types (up : Upload (C:=C)) (s : Session (C:=C)).
Implicit Types (rows : list (ResultRow (C:=C))).

Lemma result_add_ranks rows : result <$> add_ranks rows = rows.
Proof.
  unfold add_ranks. rewrite <- list_fmap_compose.
  etrans; [|apply list_fmap_id]. by apply list_fmap_ext.
Qed.

Lemma rank_results_perm rows : rank_results rows ≡ₚ add_ranks rows.
Proof. apply merge_sort_Permutation. Qed.

Lemma elem_of_rank_results rows a :
  a ∈ rank_results rows →
  result a ∈ rows ∧
  (∀ c, rank_of c a = rank_descending (length_of c <$> rows) (length_of c (result a))) ∧
  Front_Weighted_Score a = (LF_Rank a * 2 + RF_Rank a * 1)%nat ∧
  Front_Weighted_Score a = front_weighted_score rows (result a) ∧
  Front_Rank a =
    rank_ascending (front_weighted_score rows <$> rows) (Front_Weighted_Score a).
Proof.
  rewrite rank_results_perm. unfold add_ranks.
  intros (r & -> & Hr)%list_elem_of_fmap. simpl.
  split_and!; [done| |done..]. by intros [].
Qed.

Lemma count_before_results {B} (precedes : B → B → bool) (f : ResultRow → B) rows x :
  length (filter (λ r, precedes (f (result r)) x = true) (rank_results rows)) =
  count_before precedes (f <$> rows) x.
Proof.
  rewrite <- (count_before_fmap precedes (λ r, f (result r))).
  rewrite (count_before_perm _ _ _ _ (fmap_Permutation _ _ _ (rank_results_perm rows))).
  by rewrite (list_fmap_compose result f), result_add_ranks.
Qed.

Lemma calculate_completed cfg up s s' :
  calculate cfg up s = (s', Completed) →
  results_df s' = Some (rank_results (working_rows cfg up s)).
Proof.
  unfold calculate, working_rows. destruct (using_multi_sheet s).
  - destruct (length _ =? 0)%nat; [done|]. by intros [= <-].
  - by intros [= <-].
Qed.

Lemma filter_ext_elem_of {A} (P Q : A → Prop) `{∀ x, Decision (P x)} `{∀ x, Decision (Q x)}
    (l : list A) :
  (∀ x, x ∈ l → P x ↔ Q x) → filter P l = filter Q l.
Proof.
  induction l as [|a l IH]; intros Hext; [done|].
  assert (P a ↔ Q a) as Ha by (apply Hext, elem_of_cons; auto).
  rewrite !filter_cons, IH by (intros; apply Hext, elem_of_cons; auto).
  repeat case_decide; tauto.
Qed.

(** C4. In the ranked working set of either mode, and for every corner,
    a strictly greater damper length has a strictly smaller rank, equal
    lengths have equal ranks, and the rank of a record is one more than
    the number of records with a strictly greater length. *)
Theorem corner_rank_min_descending cfg up s s' rs c i j a b :
  calculate cfg up s = (s', Completed) →
  results_df s' = Some rs →
  rs !! i = Some a →
  rs !! j = Some b →
  (Len_gtb (length_of c (result a)) (length_of c (result b)) = true →
   (rank_of c a < rank_of c b)%nat) ∧
  (Len_eq (length_of c (result a)) (length_of c (result b)) →
   rank_of c a = rank_of c b) ∧
  rank_of c a =
    S (length (filter (λ r, Len_gtb (length_of c (result r)) (length_of c (result a)) = true) rs)).
Proof.
  intros Hcalc Hrs Hi Hj.
  rewrite (calculate_completed _ _ _ _ Hcalc) in Hrs. injection Hrs as <-.
  set (rows := working_rows cfg up s) in *.
  apply list_elem_of_lookup_2 in Hi, Hj.
  destruct (elem_of_rank_results _ _ Hi) as (Ha & Hra & _).
  destruct (elem_of_rank_results _ _ Hj) as (Hb & Hrb & _).
  assert (∀ r, r ∈ rows → length_of c r ∈ length_of c <$> rows) as Hin
    by (intros; by apply list_elem_of_fmap_2).
  rewrite Hra, Hrb, !rank_descending_count by auto.
  split_and!.
  - intros Hgt. apply ->Nat.succ_lt_mono.
    apply count_before_mono;
      [exact Len_gtb_irrefl|exact Len_gtb_trans|exact Len_gtb_negtrans|by apply Hin|done].
  - intros Heq. f_equal.
    apply count_before_tied; [exact Len_gtb_negtrans|by apply Len_eq_tied].
  - f_equal. symmetry. apply (count_before_results Len_gtb (length_of c)).
Qed.

(** ** Weighted scores *)

Lemma elem_of_axle_ranks (rows : list (AxleCalcRow (C:=C))) a :
  a ∈ axle_ranks rows →
  calc a ∈ rows ∧
  left_rank a = rank_descending (left_length <$> rows) (left_length (calc a)) ∧
  right_rank a = rank_descending (right_length <$> rows) (right_length (calc a)) ∧
  weighted_score a = (left_rank a * 2 + right_rank a * 1)%nat ∧
  axle_rank a = rank_ascending (weighted_score <$> axle_ranks rows) (weighted_score a).
Proof.
  assert (weighted_score <$> axle_ranks rows = axle_weighted_score rows <$> rows) as ->.
  { unfold axle_ranks. rewrite <- list_fmap_compose. by apply list_fmap_ext. }
  unfold axle_ranks. intros (r & -> & Hr)%list_elem_of_fmap. by simpl.
Qed.

Lemma axle_rank_count (rows : list (AxleCalcRow (C:=C))) a :
  a ∈ axle_ranks rows →
  axle_rank a =
    S (length (filter (λ b, (weighted_score b <? weighted_score a)%nat = true) (axle_ranks rows))).
Proof.
  intros Ha. destruct (elem_of_axle_ranks _ _ Ha) as (_ & _ & _ & _ & ->).
  rewrite rank_ascending_count by by apply list_elem_of_fmap_2.
  by rewrite count_before_fmap.
Qed.

Lemma front_rank_count rows a :
  a ∈ rank_results rows →
  Front_Rank a =
    S (length (filter (λ b, (Front_Weighted_Score b <? Front_Weighted_Score a)%nat = true)
                      (rank_results rows))).
Proof.
  intros Ha. destruct (elem_of_rank_results _ _ Ha) as (Hr & _ & _ & Hs & ->).
  rewrite rank_ascending_count by (rewrite Hs; by apply list_elem_of_fmap_2).
  f_equal. rewrite <- (count_before_results Nat.ltb (front_weighted_score rows)).
  f_equal. apply filter_ext_elem_of. intros b Hb.
  destruct (elem_of_rank_results _ _ Hb) as (_ & _ & _ & -> & _). done.
Qed.

Lemma calculate_multi_calc cfg up s s' :
  using_multi_sheet s = true →
  calculate cfg up s = (s', Completed) →
  df_front_calc s' = Some (front_calc cfg (df_front up) (df_rear up)) ∧
  df_rear_calc s' = Some (rear_calc cfg (df_front up) (df_rear up)).
Proof.
  unfold calculate. intros ->. destruct (length _ =? 0)%nat; [done|]. by intros [= <-].
Qed.

Lemma fmap_calc_axle_ranks {B} (f : AxleCalcRow (C:=C) → B) (rows : list AxleCalcRow) :
  (λ b, f (calc b)) <$> axle_ranks rows = f <$> rows.
Proof. unfold axle_ranks. rewrite <- list_fmap_compose. by apply list_fmap_ext. Qed.

Lemma calc_axle_ranks (rows : list (AxleCalcRow (C:=C))) : calc <$> axle_ranks rows = rows.
Proof. etrans; [apply (fmap_calc_axle_ranks id)|apply list_fmap_id]. Qed.

(** The corner ranks of a per-axle table count the rows of that table
    with a strictly greater length. *)
Lemma axle_corner_rank_count (rows : list (AxleCalcRow (C:=C))) a :
  a ∈ axle_ranks rows →
  left_rank a =
    S (length (filter (λ b, Len_gtb (left_length (calc b)) (left_length (calc a)) = true)
                      (axle_ranks rows))) ∧
  right_rank a =
    S (length (filter (λ b, Len_gtb (right_length (calc b)) (right_length (calc a)) = true)
                      (axle_ranks rows))).
Proof.
  intros Ha. destruct (elem_of_axle_ranks _ _ Ha) as (Hc & -> & -> & _).
  rewrite !rank_descending_count by by apply list_elem_of_fmap_2.
  rewrite <- (count_before_fmap Len_gtb (λ b, left_length (calc b))).
  rewrite <- (count_before_fmap Len_gtb (λ b, right_length (calc b))).
  by rewrite !fmap_calc_axle_ranks.
Qed.

(** X19. After a completed calculation, every record of the ranked
    working set carries Front_Weighted_Score = 2*LF_Rank + 1*RF_Rank and
    Front_Rank, the min-method ascending re-rank of that score.  In
    dual-sheet mode the rear sheet has a rank table of its own, one row
    per row of the sheet: LR_Rank and RR_Rank count the rows of the
    rear sheet with a strictly greater length, Rear_Weighted_Score =
    2*LR_Rank + 1*RR_Rank, and Rear_Rank is the min-method ascending
    re-rank of that score within the table. *)
Theorem weighted_scores_and_reranks cfg up s s' rs :
  calculate cfg up s = (s', Completed) →
  results_df s' = Some rs →
  (∀ a, a ∈ rs →
     Front_Weighted_Score a = (2 * LF_Rank a + 1 * RF_Rank a)%nat ∧
     Front_Rank a =
       S (length (filter (λ b, (Front_Weighted_Score b <? Front_Weighted_Score a)%nat = true) rs))) ∧
  (using_multi_sheet s = true →
   ∃ rear, df_rear_display s' = Some rear ∧
     calc <$> rear = rear_calc cfg (df_front up) (df_rear up) ∧
     ∀ a, a ∈ rear →
       left_rank a =
         S (length (filter (λ b, Len_gtb (left_length (calc b)) (left_length (calc a)) = true)
                           rear)) ∧
       right_rank a =
         S (length (filter (λ b, Len_gtb (right_length (calc b)) (right_length (calc a)) = true)
                           rear)) ∧
       weighted_score a = (2 * left_rank a + 1 * right_rank a)%nat ∧
       axle_rank a =
         S (length (filter (λ b, (weighted_score b <? weighted_score a)%nat = true) rear))).
Proof.
  intros Hcalc Hrs.
  rewrite (calculate_completed _ _ _ _ Hcalc) in Hrs. injection Hrs as <-.
  split.
  - intros a Ha. split; [|by apply front_rank_count].
    destruct (elem_of_rank_results _ _ Ha) as (_ & _ & -> & _). lia.
  - intros Hmulti. destruct (calculate_multi_calc _ _ _ _ Hmulti Hcalc) as [_ Hrc].
    unfold df_rear_display. rewrite Hrc. eexists; split; [done|].
    split; [apply calc_axle_ranks|].
    intros a Ha. destruct (axle_corner_rank_count _ _ Ha) as [Hl Hr].
    split_and!; [done|done| |by apply axle_rank_count].
    destruct (elem_of_axle_ranks _ _ Ha) as (_ & _ & _ & -> & _). lia.
Qed.

(** ** Lower mounts *)




(** ** Height normalization *)

Lemma median_is_Some l : l ≠ [] → is_Some (median l).
Proof.
  intros Hl. unfold median.
  pose proof (Permutation_length (merge_sort_Permutation Qle l)) as Hlen.
  set (s := merge_sort Qle l) in *.
  assert (0 < length s)%nat as Hpos by (rewrite Hlen; destruct l; simpl; [done|lia]).
  destruct (Nat.odd (length s)) eqn:Hodd.
  - apply lookup_lt_is_Some. apply Nat.div_lt; lia.
  - assert (length s / 2 < length s)%nat as H2 by (apply Nat.div_lt; lia).
    destruct (lookup_lt_is_Some_2 s (length s / 2 - 1)) as [a ->]; [lia|].
    destruct (lookup_lt_is_Some_2 s (length s / 2)) as [b ->]; [lia|]. done.
Qed.

(** Dual-sheet mode: with the flag set, every LCA center the branch
    uses has the median of all LCA center heights of both sheets as its
    height. *)
Lemma dual_sheet_normalizes cfg (f r : list (AxleRow (C:=C))) h :
  normalize_lca_z cfg = true →
  f ≠ [] ∨ r ≠ [] →
  ∃ m, median_z f r = Some m ∧ pz (multi_lca_center cfg f r h) = m.
Proof.
  intros Hn Hne. destruct (median_is_Some (all_z_heights f r)) as [m Hm].
  { unfold all_z_heights. destruct Hne, f, r; done. }
  exists m. split; [done|]. unfold multi_lca_center, median_z. by rewrite Hn, Hm.
Qed.

(** Single-sheet mode never reads the flag. *)
Lemma single_calc_ignores_flag cfg b (sheet : list (SurveyRow (C:=C))) :
  single_calc (with_normalize b cfg) sheet = single_calc cfg sheet.
Proof. unfold single_calc. apply list_fmap_ext. intros _ r _. by destruct cfg. Qed.

(** ** The empty join *)

(** In dual-sheet mode, when the join of the front and rear sheets on
    the center section is empty, the calculation stops with an error
    and stores no ranked result set: [results_df] is left as it was,
    while the per-sheet tables, stored before the join is attempted,
    are replaced. *)
Lemma empty_join_stops cfg up s :
  using_multi_sheet s = true →
  merge_on_center (front_calc cfg (df_front up) (df_rear up))
                  (rear_calc cfg (df_front up) (df_rear up)) = [] →
  (∃ error, (calculate cfg up s).2 = Stopped error) ∧
  results_df (calculate cfg up s).1 = results_df s ∧
  df_front_calc (calculate cfg up s).1 = Some (front_calc cfg (df_front up) (df_rear up)) ∧
  df_rear_calc (calculate cfg up s).1 = Some (rear_calc cfg (df_front up) (df_rear up)).
Proof.
  intros Hmulti Hempty. unfold calculate. rewrite Hmulti, Hempty. simpl. eauto.
Qed.

(** * Further properties of the code *)

(** ** Distances *)

(** X1. The quantity under the square root of [calc_distance] is never
    negative, and it is zero exactly when the two points have the same
    coordinates. *)
Theorem calc_distance_zero_iff x1 y1 z1 x2 y2 z2 :
  0 <= radicand (calc_distance x1 y1 z1 x2 y2 z2) ∧
  (radicand (calc_distance x1 y1 z1 x2 y2 z2) == 0 ↔ x1 == x2 ∧ y1 == y2 ∧ z1 == z2).
Proof.
  unfold calc_distance, radicand.
  assert (∀ a b c : Q, 0 <= a ^ 2 + b ^ 2 + c ^ 2) as Hnonneg by (intros; simpl; nra).
  assert (∀ a b c : Q, a ^ 2 + b ^ 2 + c ^ 2 == 0 → a == 0 ∧ b == 0 ∧ c == 0) as Hzero
    by (intros a b c; simpl; intros; split_and!; nra).
  split; [apply Hnonneg|]. split.
  - intros (Ha & Hb & Hc)%Hzero. split_and!; lra.
  - intros (-> & -> & ->). simpl. ring.
Qed.

(** The distance does not depend on the order of its two points. *)
Theorem calc_distance_symmetric x1 y1 z1 x2 y2 z2 :
  Len_eq (calc_distance x1 y1 z1 x2 y2 z2) (calc_distance x2 y2 z2 x1 y1 z1).
Proof. unfold Len_eq, calc_distance, radicand. simpl. ring. Qed.

(** ** The join of the two sheets *)

Lemma elem_of_merge_on_center (front rear : list (AxleCalcRow (C:=C))) row :
  row ∈ merge_on_center front rear ↔
  ∃ f r, f ∈ front ∧ r ∈ rear ∧ calc_center_section r = calc_center_section f ∧
    row = {| Center_Section := calc_center_section f;
             Clip := calc_clip f +:+ " / " +:+ calc_clip r;
             Front_Clip := Some (calc_clip f);
             Rear_Clip := Some (calc_clip r);
             LF_Damper_Length := left_length f;
             RF_Damper_Length := right_length f;
             LR_Damper_Length := left_length r;
             RR_Damper_Length := right_length r |}.
Proof.
  unfold merge_on_center. rewrite list_elem_of_bind. split.
  - intros (f & (r & Hrow & (Hc & Hr)%list_elem_of_filter)%list_elem_of_bind & Hf).
    apply list_elem_of_singleton in Hrow. by exists f, r.
  - intros (f & r & Hf & Hr & Hc & ->). exists f. split; [|done].
    apply list_elem_of_bind. exists r. split; [by apply list_elem_of_singleton|].
    by apply list_elem_of_filter.
Qed.

Lemma merge_on_center_nil (front rear : list (AxleCalcRow (C:=C))) :
  merge_on_center front rear = [] ↔
  ∀ f r, f ∈ front → r ∈ rear → calc_center_section f ≠ calc_center_section r.
Proof.
  split.
  - intros Hnil f r Hf Hr Heq.
    assert (∃ row, row ∈ merge_on_center front rear) as [row Hrow].
    { eexists. apply elem_of_merge_on_center. by exists f, r. }
    rewrite Hnil in Hrow. by apply elem_of_nil in Hrow.
  - intros Hne. destruct (merge_on_center front rear) as [|row l] eqn:Hm; [done|].
    assert (row ∈ merge_on_center front rear) as Hrow by (rewrite Hm; by left).
    apply elem_of_merge_on_center in Hrow as (f & r & Hf & Hr & Heq & _).
    by destruct (Hne f r Hf Hr).
Qed.

Lemma multi_calc_centers cfg (f r : list (AxleRow (C:=C))) l rc sheet :
  calc_center_section <$> multi_calc cfg f r l rc sheet = axle_center_section <$> sheet.
Proof. unfold multi_calc. rewrite <- list_fmap_compose. by apply list_fmap_ext. Qed.

(** X2. In dual-sheet mode the calculation stops with the error exactly
    when no center section of the front sheet occurs in the rear sheet;
    in every other case it completes and stores a non-empty ranked
    working set. *)
Theorem calculate_stops_iff_no_shared_center cfg up s :
  using_multi_sheet s = true →
  ((∃ error, (calculate cfg up s).2 = Stopped error) ↔
   ∀ f r, f ∈ df_front up → r ∈ df_rear up →
          axle_center_section f ≠ axle_center_section r) ∧
  ((calculate cfg up s).2 = Completed ↔
   ∃ f r, f ∈ df_front up ∧ r ∈ df_rear up ∧
          axle_center_section f = axle_center_section r) ∧
  ((calculate cfg up s).2 = Completed →
   ∃ rs, results_df (calculate cfg up s).1 = Some rs ∧ rs ≠ []).
Proof.
  intros Hm.
  set (fc := front_calc cfg (df_front up) (df_rear up)).
  set (rc := rear_calc cfg (df_front up) (df_rear up)).
  assert (merge_on_center fc rc = [] ↔
          ∀ f r, f ∈ df_front up → r ∈ df_rear up →
                 axle_center_section f ≠ axle_center_section r) as Hnil.
  { rewrite merge_on_center_nil. unfold fc, rc, front_calc, rear_calc, multi_calc. split.
    - intros H f r Hf Hr.
      by apply (H _ _ (list_elem_of_fmap_2 _ _ _ Hf) (list_elem_of_fmap_2 _ _ _ Hr)).
    - intros H f r (f0 & -> & Hf)%list_elem_of_fmap (r0 & -> & Hr)%list_elem_of_fmap.
      by apply H. }
  unfold calculate. rewrite Hm. fold fc rc.
  destruct (merge_on_center fc rc) as [|row rows] eqn:Hmerge; simpl.
  - split_and!.
    + split; [intros _; by apply Hnil|eauto].
    + split; [done|]. intros (f & r & Hf & Hr & Heq).
      by destruct (proj1 Hnil eq_refl f r Hf Hr).
    + done.
  - assert (¬ ∀ f r, f ∈ df_front up → r ∈ df_rear up →
                     axle_center_section f ≠ axle_center_section r) as Hshared
      by (intros H%Hnil; done).
    assert (row ∈ merge_on_center fc rc) as Hrow by (rewrite Hmerge; by left).
    apply elem_of_merge_on_center in Hrow as (f & r & Hf & Hr & Heq & _).
    unfold fc, rc, front_calc, rear_calc, multi_calc in Hf, Hr.
    apply list_elem_of_fmap in Hf as (f0 & -> & Hf), Hr as (r0 & -> & Hr). simpl in Heq.
    split_and!.
    + split; [by intros [? ?]|done].
    + split; [|done]. intros _. by exists f0, r0.
    + intros _. eexists. split; [done|]. intros Hnil'.
      pose proof (Permutation_length (rank_results_perm (row :: rows))) as Hlen.
      rewrite Hnil' in Hlen. unfold add_ranks in Hlen. rewrite length_fmap in Hlen.
      simpl in Hlen. lia.
Qed.

(** ** Bounds and order of the ranks *)

Lemma count_before_lt_length {A} (precedes : A → A → bool) col x :
  (∀ x, precedes x x = false) → x ∈ col →
  (count_before precedes col x < length col)%nat.
Proof.
  intros Hirr Hx. unfold count_before.
  apply (length_filter_lt _ _ x); [done|]. by rewrite Hirr.
Qed.

Lemma count_before_le {A} (precedes : A → A → bool) col x y :
  (∀ z, precedes z x = true → precedes z y = true) →
  (count_before precedes col x ≤ count_before precedes col y)%nat.
Proof.
  intros Himp. unfold count_before. induction col as [|a col IH]; [done|].
  rewrite !filter_cons. destruct (precedes a x) eqn:Hax.
  - rewrite (Himp _ Hax). repeat case_decide; try done. simpl. lia.
  - repeat case_decide; try done; simpl; lia.
Qed.

Lemma StronglySorted_lookup_lt {A} (R : relation A) l i j a b :
  StronglySorted R l → (i < j)%nat → l !! i = Some a → l !! j = Some b → R a b.
Proof.
  intros Hs Hij Hi Hj.
  rewrite <- (take_drop_middle l i a Hi) in Hs, Hj.
  apply StronglySorted_app in Hs as (_ & _ & Hs).
  apply StronglySorted_cons in Hs as [Hall _]. rewrite Forall_forall in Hall.
  apply Hall.
  assert (length (take i l) = i) as Hlen
    by (rewrite length_take; apply lookup_lt_Some in Hi; lia).
  rewrite lookup_app_r, Hlen in Hj by lia.
  destruct (j - i)%nat as [|k] eqn:Hk; [lia|]. simpl in Hj.
  by eapply list_elem_of_lookup_2.
Qed.

Lemma sort_by_LF_sorted (rows : list (RankedRow (C:=C))) :
  StronglySorted (λ a b, not_after Len_gtb (LF_Damper_Length (result a))
                                           (LF_Damper_Length (result b)))
                 (sort_by_LF rows).
Proof.
  apply StronglySorted_merge_sort.
  - intros a b c. apply (not_after_transitive Len_gtb Len_gtb_negtrans).
  - intros a b.
    apply (not_after_total Len_gtb Len_gtb_irrefl Len_gtb_trans).
Qed.

(** X3. In the ranked working set of a completed calculation
    every corner rank and the front rank lie between 1 and the number
    of records, and the front weighted score lies between 3 and three
    times that number. *)
Theorem ranks_within_bounds cfg up s s' rs i a :
  calculate cfg up s = (s', Completed) →
  results_df s' = Some rs →
  rs !! i = Some a →
  (∀ c, (1 ≤ rank_of c a ≤ length rs)%nat) ∧
  (1 ≤ Front_Rank a ≤ length rs)%nat ∧
  (3 ≤ Front_Weighted_Score a ≤ 3 * length rs)%nat.
Proof.
  intros Hcalc Hrs Hi.
  rewrite (calculate_completed _ _ _ _ Hcalc) in Hrs. injection Hrs as <-.
  set (rows := working_rows cfg up s) in *.
  assert (length (rank_results rows) = length rows) as ->.
  { rewrite (Permutation_length (rank_results_perm rows)). unfold add_ranks.
    by rewrite length_fmap. }
  apply list_elem_of_lookup_2 in Hi.
  destruct (elem_of_rank_results _ _ Hi) as (Ha & Hra & Hs & Hs' & Hfr).
  assert (∀ c, (1 ≤ rank_of c a ≤ length rows)%nat) as Hcorner.
  { intros c. rewrite Hra, rank_descending_count by by apply list_elem_of_fmap_2.
    pose proof (count_before_lt_length Len_gtb (length_of c <$> rows)
                  (length_of c (result a)) Len_gtb_irrefl
                  (list_elem_of_fmap_2 _ _ _ Ha)) as Hlt.
    rewrite length_fmap in Hlt. lia. }
  split; [done|]. split.
  - rewrite Hfr, rank_ascending_count
      by (rewrite Hs'; by apply list_elem_of_fmap_2).
    pose proof (count_before_lt_length Nat.ltb (front_weighted_score rows <$> rows)
                  (Front_Weighted_Score a) ltb_irrefl) as Hlt.
    rewrite length_fmap in Hlt.
    specialize (Hlt ltac:(rewrite Hs'; by apply list_elem_of_fmap_2)). lia.
  - rewrite Hs. pose proof (Hcorner LF). pose proof (Hcorner RF). simpl in *. lia.
Qed.

(** X4. The stored working set keeps every record, lists them by
    ascending LF rank, and its first record has LF rank 1. *)
Theorem results_ordered_by_LF_rank cfg up s s' rs :
  calculate cfg up s = (s', Completed) →
  results_df s' = Some rs →
  length rs = length (working_rows cfg up s) ∧
  (∀ i j a b, (i ≤ j)%nat → rs !! i = Some a → rs !! j = Some b →
              (LF_Rank a ≤ LF_Rank b)%nat) ∧
  (∀ a, rs !! 0%nat = Some a → LF_Rank a = 1%nat).
Proof.
  intros Hcalc Hrs.
  rewrite (calculate_completed _ _ _ _ Hcalc) in Hrs. injection Hrs as <-.
  set (rows := working_rows cfg up s) in *.
  assert (∀ a, a ∈ rank_results rows →
               LF_Rank a = S (count_before Len_gtb (LF_Damper_Length <$> rows)
                                (LF_Damper_Length (result a)))) as Hrank.
  { intros a Ha. destruct (elem_of_rank_results _ _ Ha) as (Hr & Hra & _).
    etrans; [exact (Hra LF)|].
    apply rank_descending_count. by apply (list_elem_of_fmap_2 _ _ _ Hr). }
  assert (∀ i j a b, (i < j)%nat → rank_results rows !! i = Some a →
                     rank_results rows !! j = Some b →
                     Len_gtb (LF_Damper_Length (result b)) (LF_Damper_Length (result a))
                       = false) as Hsorted.
  { intros i j a b Hij Hi Hj.
    apply (StronglySorted_lookup_lt _ _ i j a b (sort_by_LF_sorted (add_ranks rows)) Hij Hi Hj). }
  split_and!.
  - rewrite (Permutation_length (rank_results_perm rows)). unfold add_ranks.
    by rewrite length_fmap.
  - intros i j a b Hij Hi Hj.
    destruct (decide (i = j)) as [->|Hne]; [rewrite Hi in Hj; by injection Hj as <-|].
    rewrite (Hrank a), (Hrank b) by by eapply list_elem_of_lookup_2.
    apply le_n_S, count_before_le. intros z Hza.
    pose proof (Hsorted i j a b ltac:(lia) Hi Hj) as Hba.
    destruct (Len_gtb_negtrans _ (LF_Damper_Length (result b)) _ Hza); [done|congruence].
  - intros a Ha. rewrite (Hrank a) by by eapply list_elem_of_lookup_2. f_equal.
    rewrite <- (count_before_results Len_gtb LF_Damper_Length).
    apply length_zero_iff_nil, filter_none. intros b (j & Hj)%list_elem_of_lookup Hgt.
    destruct j as [|j]; [rewrite Ha in Hj; injection Hj as <-; by rewrite Len_gtb_irrefl in Hgt|].
    by rewrite (Hsorted 0%nat (S j) a b ltac:(lia) Ha Hj) in Hgt.
Qed.

(** X5. The front rank follows the front weighted score: a
    strictly smaller score has a strictly smaller front rank, and equal
    scores have equal front ranks. *)
Theorem front_rank_follows_score cfg up s s' rs i j a b :
  calculate cfg up s = (s', Completed) →
  results_df s' = Some rs →
  rs !! i = Some a →
  rs !! j = Some b →
  ((Front_Weighted_Score a < Front_Weighted_Score b)%nat →
   (Front_Rank a < Front_Rank b)%nat) ∧
  (Front_Weighted_Score a = Front_Weighted_Score b → Front_Rank a = Front_Rank b).
Proof.
  intros Hcalc Hrs Hi Hj.
  rewrite (calculate_completed _ _ _ _ Hcalc) in Hrs. injection Hrs as <-.
  set (rows := working_rows cfg up s) in *.
  apply list_elem_of_lookup_2 in Hi, Hj.
  destruct (elem_of_rank_results _ _ Hi) as (Ha & _ & _ & Hsa & ->).
  destruct (elem_of_rank_results _ _ Hj) as (Hb & _ & _ & Hsb & ->).
  assert (Front_Weighted_Score a ∈ front_weighted_score rows <$> rows) as Hina
    by (rewrite Hsa; by apply list_elem_of_fmap_2).
  assert (Front_Weighted_Score b ∈ front_weighted_score rows <$> rows) as Hinb
    by (rewrite Hsb; by apply list_elem_of_fmap_2).
  rewrite !rank_ascending_count by done. split.
  - intros Hlt. apply ->Nat.succ_lt_mono.
    apply count_before_mono;
      [exact ltb_irrefl|exact ltb_trans|exact ltb_negtrans|done|by apply Nat.ltb_lt].
  - by intros ->.
Qed.

(** ** The median height *)

Lemma merge_sort_Qle_sorted l : StronglySorted Qle (merge_sort Qle l).
Proof.
  apply StronglySorted_merge_sort.
  - intros x y z. apply Qle_trans.
  - intros x y. destruct (Qlt_le_dec x y) as [Hlt|Hle]; [left|by right].
    by apply Qlt_le_weak.
Qed.

(** The median of a column lies between two of its entries. *)
Lemma median_between l m :
  median l = Some m → ∃ lo hi, lo ∈ l ∧ hi ∈ l ∧ lo <= m ∧ m <= hi.
Proof.
  unfold median.
  pose proof (merge_sort_Qle_sorted l) as Hsorted.
  pose proof (merge_sort_Permutation Qle l) as Hperm.
  set (s := merge_sort Qle l) in *.
  destruct (Nat.odd (length s)).
  - intros Hm. exists m, m. apply list_elem_of_lookup_2 in Hm.
    rewrite <- !Hperm. split_and!; [done|done|apply Qle_refl..].
  - destruct (s !! (length s / 2 - 1)%nat) as [a|] eqn:Ha; [|done].
    destruct (s !! (length s / 2)%nat) as [b|] eqn:Hb; [|done].
    intros [= <-]. exists a, b.
    assert (a <= b) as Hab.
    { destruct (decide (length s / 2 - 1 = length s / 2)%nat) as [Heq|Hne].
      - rewrite Heq, Hb in Ha. injection Ha as <-. apply Qle_refl.
      - assert (length s / 2 - 1 < length s / 2)%nat as Hlt
          by (revert Hne; generalize (length s / 2)%nat; intros; lia).
        apply (StronglySorted_lookup_lt Qle s _ _ a b Hsorted Hlt Ha Hb). }
    apply list_elem_of_lookup_2 in Ha, Hb. rewrite <- !Hperm.
    split_and!; [done|done| |].
    + apply Qle_shift_div_l; [done|]. lra.
    + apply Qle_shift_div_r; [done|]. lra.
Qed.

(** X6. Dual-sheet mode with the flag set: whenever a sheet
    has a row, every LCA center the branch uses, for every corner of
    every row, has one and the same height, the median of the LCA
    center heights of both sheets, and that height lies between two of
    the surveyed center heights. *)
Theorem dual_sheet_heights_are_the_median cfg (f r : list (AxleRow (C:=C))) :
  normalize_lca_z cfg = true →
  f ≠ [] ∨ r ≠ [] →
  ∃ m lo hi,
    median_z f r = Some m ∧
    (∀ h, pz (multi_lca_center cfg f r h) = m ∧
          px (multi_lca_center cfg f r h) = px (lca_center h) ∧
          py (multi_lca_center cfg f r h) = py (lca_center h)) ∧
    lo ∈ all_z_heights f r ∧ hi ∈ all_z_heights f r ∧ lo <= m ∧ m <= hi.
Proof.
  intros Hn Hne. destruct (median_is_Some (all_z_heights f r)) as [m Hm].
  { unfold all_z_heights. destruct Hne, f, r; done. }
  destruct (median_between _ _ Hm) as (lo & hi & Hlo & Hhi & ? & ?).
  exists m, lo, hi. split_and!; try done.
  intros h. unfold multi_lca_center, median_z. by rewrite Hn, Hm.
Qed.

(** With the flag unset the dual-sheet branch uses the plain midpoint. *)
Lemma multi_lca_center_unnormalized cfg (f r : list (AxleRow (C:=C))) h :
  normalize_lca_z cfg = false → multi_lca_center cfg f r h = lca_center h.
Proof. unfold multi_lca_center. by intros ->. Qed.

End Calculation.

(** ** Totality of the optimizer *)

Section Optimizer.
Context {C : Type} {C_eq_dec : EqDecision C} {C_countable : Countable C}
        {C_identifier : Identifier C}.
Implicit Types (d : Selector (C:=C)) (st : OptState (C:=C)) (cs : C) (css pre post : list C).
Implicit Types (w : Weights) (a : gmap C Assignment) (combos : list (Combo (C:=C))).
Implicit Types (results : list (RankedRow (C:=C))) (fc rc : list (AxleCalcRow (C:=C))).

Lemma fallback_is_Some clips used : clips ≠ [] → is_Some (fallback clips used).
Proof. destruct clips; [done|]. by eexists. Qed.

Lemma assign_center_is_Some d w st cs :
  all_front_clips d ≠ [] → all_rear_clips d ≠ [] →
  is_Some (assign_center d w st cs).
Proof.
  intros Hf Hr.
  assert (is_Some (fallback_commit d st cs)) as Hfb.
  { unfold fallback_commit.
    destruct (fallback_is_Some (all_front_clips d) (used_front_clips st) Hf) as [f ->].
    destruct (fallback_is_Some (all_rear_clips d) (used_rear_clips st) Hr) as [r ->].
    by eexists. }
  unfold assign_center. cbv zeta.
  destruct (best_front _) as [f|]; [|done].
  destruct (best_rear _) as [r|]; [|done].
  by destruct (truthy f && truthy r).
Qed.

Lemma assign_centers_is_Some d w css st :
  all_front_clips d ≠ [] → all_rear_clips d ≠ [] →
  is_Some (assign_centers d w css st).
Proof.
  intros Hf Hr. induction css as [|cs css IH] in st |- *; [by eexists|].
  simpl. destruct (assign_center_is_Some d w st cs Hf Hr) as [st' ->]. apply IH.
Qed.

Lemma optimize_is_Some d w :
  all_front_clips d ≠ [] → all_rear_clips d ≠ [] → is_Some (optimize d w).
Proof.
  intros Hf Hr. unfold optimize, calculate_optimal_assignments. cbv zeta.
  match goal with |- context [assign_centers d ?w' _ _] =>
    destruct (assign_centers_is_Some d w' (all_center_sections d) initial_state Hf Hr)
      as [st ->] end.
  by eexists.
Qed.

Lemma unique_nonempty `{EqDecision K} (l : list K) : l ≠ [] → unique l ≠ [].
Proof. by destruct l. Qed.

Lemma sorted_unique_nonempty `{Identifier K} (l : list K) : l ≠ [] → sorted_unique l ≠ [].
Proof.
  intros Hl%unique_nonempty Hs. apply Hl.
  apply Permutation_nil_r. rewrite <- Hs. unfold sorted_unique.
  by rewrite merge_sort_Permutation.
Qed.

Lemma selector_data_clips results fc rc :
  fc ≠ [] → rc ≠ [] →
  all_front_clips (selector_data results fc rc) ≠ [] ∧
  all_rear_clips (selector_data results fc rc) ≠ [].
Proof.
  intros Hf Hr. split; apply sorted_unique_nonempty; by destruct fc, rc.
Qed.

Lemma optimize_eta d w :
  optimize d w =
  (st ← assign_centers d w (all_center_sections d) initial_state;
   Some (store_assignments (center_best_combos st))).
Proof. by destruct w. Qed.

(** ** The search of one center section *)

Lemma rear_loop_candidates d w ur cs f (front_row : AxleRankRow (C:=C)) (rs : list string) b :
  foldl (try_rear d w ur cs f (left_rank front_row) (right_rank front_row)) b rs =
  foldl (consider w) b
    (r ← rs;
     if decide (r ∈ ur) then []
     else
       match rows_for (df_rear_calc_ranks d) cs r with
       | [] => []
       | rear_row :: _ =>
           [ {| cand_front := f; cand_rear := r;
                cand_LF := left_rank front_row; cand_RF := right_rank front_row;
                cand_LR := left_rank rear_row; cand_RR := right_rank rear_row |} ]
       end).
Proof.
  induction rs as [|r rs IH] in b |- *; [done|].
  rewrite bind_cons, foldl_app. simpl. rewrite IH. f_equal.
  unfold try_rear. case_decide; [done|].
  by destruct (rows_for (df_rear_calc_ranks d) cs r).
Qed.

(** The nested loops are one pass over the candidates. *)
Lemma best_combo_candidates d w uf ur cs :
  best_combo d w uf ur cs = foldl (consider w) no_best (candidates d uf ur cs).
Proof.
  unfold best_combo, candidates. generalize no_best as b.
  induction (all_front_clips d) as [|f fs IH]; intros b; [done|].
  rewrite bind_cons, foldl_app. simpl. rewrite IH. f_equal.
  unfold try_front. case_decide; [done|].
  destruct (rows_for (df_front_calc_ranks d) cs f) as [|front_row ?]; [done|].
  apply rear_loop_candidates.
Qed.

Lemma elem_of_candidates d uf ur cs c :
  c ∈ candidates d uf ur cs →
  cand_front c ∈ all_front_clips d ∧ (cand_front c ∉ uf) ∧
  cand_rear c ∈ all_rear_clips d ∧ (cand_rear c ∉ ur) ∧
  (∃ front_row, head (rows_for (df_front_calc_ranks d) cs (cand_front c)) = Some front_row ∧
     cand_LF c = left_rank front_row ∧ cand_RF c = right_rank front_row) ∧
  (∃ rear_row, head (rows_for (df_rear_calc_ranks d) cs (cand_rear c)) = Some rear_row ∧
     cand_LR c = left_rank rear_row ∧ cand_RR c = right_rank rear_row).
Proof.
  unfold candidates. intros (f & Hc & Hf)%list_elem_of_bind.
  case_decide; [set_solver|].
  destruct (rows_for (df_front_calc_ranks d) cs f) as [|front_row ?] eqn:Hfr; [set_solver|].
  apply list_elem_of_bind in Hc as (r & Hc & Hr).
  case_decide; [set_solver|].
  destruct (rows_for (df_rear_calc_ranks d) cs r) as [|rear_row ?] eqn:Hrr; [set_solver|].
  apply list_elem_of_singleton in Hc as ->. simpl.
  rewrite Hfr, Hrr. split_and!; eauto.
Qed.

(** A candidate seen before a strictly better one, or before the first
    one below infinity, scores strictly more than it unless its score
    is NaN. *)
Lemma earlier_is_greater (x y z : float) :
  flt y z = true → flt x z = false → flt y x = true ∨ is_nan x = true.
Proof.
  intros Hyz Hxz. destruct (is_nan x) eqn:Hx; [by right|left].
  destruct (flt y x) eqn:Hyx; [done|]. exfalso.
  destruct (flt_not_nan _ _ Hyz) as [Hy _].
  pose proof (fle_total _ _ Hy Hx Hyx) as Hle.
  by rewrite (fle_flt_trans _ _ _ Hle Hyz) in Hxz.
Qed.

(** One pass with the strict comparison keeps the first candidate of
    least computed score, if any candidate scores below infinity. *)
Lemma foldl_consider w cands :
  ((∀ c, c ∈ cands → flt (candidate_score w c) infinity = false) ∧
   foldl (consider w) no_best cands = no_best) ∨
  (∃ i c, first_minimum w cands i c ∧ foldl (consider w) no_best cands = best_of w c).
Proof.
  induction cands as [|c cands IH] using rev_ind; [left; split; [by intros c ?%elem_of_nil|done]|].
  rewrite foldl_snoc.
  destruct IH as [[Hinf ->]|(i & m & (Hi & Hfin & Hmin & Hfirst) & ->)].
  - unfold consider, improves. simpl.
    destruct (flt (candidate_score w c) infinity) eqn:Hc.
    + right. exists (length cands), c. split; [|done]. split_and!.
      * by rewrite lookup_app_r, Nat.sub_diag by lia.
      * done.
      * intros c' [Hc'| ->%list_elem_of_singleton]%elem_of_app; [|apply flt_irrefl].
        destruct (flt (candidate_score w c') (candidate_score w c)) eqn:Hlt; [|done].
        pose proof (Hinf c' Hc') as Hx. by rewrite (flt_trans _ _ _ Hlt Hc) in Hx.
      * intros j c' Hj Hc'. rewrite lookup_app_l in Hc' by done.
        apply list_elem_of_lookup_2 in Hc'.
        eapply earlier_is_greater; [exact Hc|by apply Hinf].
    + left. split; [|done].
      intros c' [Hc'| ->%list_elem_of_singleton]%elem_of_app; auto.
  - right. unfold consider, improves. simpl.
    destruct (flt (candidate_score w c) (candidate_score w m)) eqn:Hlt.
    + exists (length cands), c. split; [|done]. split_and!.
      * by rewrite lookup_app_r, Nat.sub_diag by lia.
      * by eapply flt_trans.
      * intros c' [Hc'| ->%list_elem_of_singleton]%elem_of_app; [|apply flt_irrefl].
        destruct (flt (candidate_score w c') (candidate_score w c)) eqn:Hlt'; [|done].
        pose proof (Hmin c' Hc') as Hx. by rewrite (flt_trans _ _ _ Hlt' Hlt) in Hx.
      * intros j c' Hj Hc'. rewrite lookup_app_l in Hc' by done.
        apply list_elem_of_lookup_2 in Hc'.
        eapply earlier_is_greater; [exact Hlt|by apply Hmin].
    + exists i, m. split; [|done]. split_and!.
      * rewrite lookup_app_l; [done|]. by eapply lookup_lt_Some.
      * done.
      * intros c' [Hc'| ->%list_elem_of_singleton]%elem_of_app; auto.
      * intros j c' Hj Hc'. apply (Hfirst j c' Hj).
        rewrite lookup_app_l in Hc'; [done|]. apply lookup_lt_Some in Hi. lia.
Qed.

Lemma best_combo_spec d w uf ur cs :
  ((∀ c, c ∈ candidates d uf ur cs → flt (candidate_score w c) infinity = false) ∧
   best_combo d w uf ur cs = no_best) ∨
  (∃ i c, first_minimum w (candidates d uf ur cs) i c ∧
          best_combo d w uf ur cs = best_of w c).
Proof. rewrite best_combo_candidates. apply foldl_consider. Qed.

(** ** One step of the greedy loop *)

Lemma fallback_spec clips used f :
  fallback clips used = Some f →
  f ∈ clips ∧
  ((∃ c, c ∈ clips ∧ c ∉ used) → f ∉ used) ∧
  ((∀ c, c ∈ clips → c ∈ used) → head clips = Some f).
Proof.
  unfold fallback. destruct clips as [|first rest]; [done|]. intros [= <-].
  destruct (filter (λ c, c ∉ used) (first :: rest)) as [|x l] eqn:Hfilter; simpl.
  - split_and!; [set_solver| |done].
    intros (c & Hc & Hnot). exfalso.
    by apply (filter_nil_not_elem_of _ _ c Hfilter Hnot).
  - assert (x ∈ filter (λ c, c ∉ used) (first :: rest)) as Hx
      by (rewrite Hfilter; set_solver).
    apply list_elem_of_filter in Hx as [Hx1 Hx2].
    split_and!; [done|done|]. intros Hall. by specialize (Hall x Hx2).
Qed.

Lemma fallback_commit_spec d st cs st' :
  fallback_commit d st cs = Some st' →
  ∃ f r, st' = commit st cs f r infinity ∧
    fallback (all_front_clips d) (used_front_clips st) = Some f ∧
    fallback (all_rear_clips d) (used_rear_clips st) = Some r.
Proof.
  unfold fallback_commit. intros H.
  destruct (fallback (all_front_clips d) _) as [f|]; [|done].
  destruct (fallback (all_rear_clips d) _) as [r|]; [|done].
  simpl in H. injection H as <-. by exists f, r.
Qed.

(** A step commits one front and one rear clip from the clip lists,
    each of them a fresh one whenever the axle still has an unused
    clip. *)
Lemma assign_center_spec d w st cs st' :
  assign_center d w st cs = Some st' →
  ∃ f r s, st' = commit st cs f r s ∧
    f ∈ all_front_clips d ∧ r ∈ all_rear_clips d ∧
    ((∃ c, c ∈ all_front_clips d ∧ c ∉ used_front_clips st) → f ∉ used_front_clips st) ∧
    ((∃ c, c ∈ all_rear_clips d ∧ c ∉ used_rear_clips st) → r ∉ used_rear_clips st).
Proof.
  intros Hstep.
  assert (fallback_commit d st cs = Some st' →
          ∃ f r s, st' = commit st cs f r s ∧
            f ∈ all_front_clips d ∧ r ∈ all_rear_clips d ∧
            ((∃ c, c ∈ all_front_clips d ∧ c ∉ used_front_clips st) →
             f ∉ used_front_clips st) ∧
            ((∃ c, c ∈ all_rear_clips d ∧ c ∉ used_rear_clips st) →
             r ∉ used_rear_clips st)) as Hfb.
  { intros (f & r & -> & Hf & Hr)%fallback_commit_spec.
    apply fallback_spec in Hf as (? & ? & _), Hr as (? & ? & _).
    exists f, r, infinity. done. }
  unfold assign_center in Hstep. cbv zeta in Hstep.
  destruct (best_combo_spec d w (used_front_clips st) (used_rear_clips st) cs)
    as [[_ Hb]|(i & c & (Hi & _) & Hb)]; rewrite Hb in Hstep; simpl in Hstep; [auto|].
  destruct (truthy (cand_front c) && truthy (cand_rear c)); [|auto].
  injection Hstep as <-.
  apply list_elem_of_lookup_2, elem_of_candidates in Hi as (? & ? & ? & ? & _).
  exists (cand_front c), (cand_rear c), (candidate_score w c). done.
Qed.

Lemma consistent_initial d : consistent d initial_state.
Proof. unfold consistent, fronts, rears. simpl. set_solver. Qed.

Lemma consistent_commit d st cs f r s :
  f ∈ all_front_clips d → r ∈ all_rear_clips d →
  consistent d st → consistent d (commit st cs f r s).
Proof.
  intros Hf Hr (Hu1 & Hu2 & Hu3 & Hu4). unfold consistent, fronts, rears in *. simpl.
  rewrite !fmap_app. simpl. split_and!; intros x.
  - rewrite elem_of_union, elem_of_singleton, elem_of_app, list_elem_of_singleton, Hu1. tauto.
  - rewrite elem_of_union, elem_of_singleton, elem_of_app, list_elem_of_singleton, Hu2. tauto.
  - rewrite elem_of_app, list_elem_of_singleton. intros [?| ->]; auto.
  - rewrite elem_of_app, list_elem_of_singleton. intros [?| ->]; auto.
Qed.

(** ** The whole run *)

Lemma assign_centers_app d w l1 l2 st :
  assign_centers d w (l1 ++ l2) st =
  assign_centers d w l1 st ≫= assign_centers d w l2.
Proof.
  induction l1 as [|cs l1 IH] in st |- *; [done|]. simpl.
  destruct (assign_center d w st cs); [apply IH|done].
Qed.

(** The run appends one combo per center section, in order. *)
Lemma assign_centers_combos d w css st st' :
  assign_centers d w css st = Some st' →
  consistent d st →
  consistent d st' ∧
  ∃ more, center_best_combos st' = center_best_combos st ++ more ∧ center <$> more = css.
Proof.
  induction css as [|cs css IH] in st |- *; simpl.
  - intros [= <-] ?. split; [done|]. exists []. by rewrite app_nil_r.
  - destruct (assign_center d w st cs) as [st1|] eqn:Hstep; [|done]. simpl.
    intros Hrun Hcons.
    apply assign_center_spec in Hstep as (f & r & s & -> & Hf & Hr & _).
    destruct (IH _ Hrun (consistent_commit d st cs f r s Hf Hr Hcons))
      as (Hcons' & more & -> & <-).
    split; [done|]. simpl. rewrite <- app_assoc. by eexists.
Qed.

Lemma store_assignments_snoc combos c :
  store_assignments (combos ++ [c]) = <[center c := entry_of c]> (store_assignments combos).
Proof. unfold store_assignments. by rewrite foldl_snoc. Qed.

Lemma store_assignments_lookup combos cs e :
  store_assignments combos !! cs = Some e →
  ∃ c, c ∈ combos ∧ center c = cs ∧ e = entry_of c.
Proof.
  induction combos as [|c combos IH] using rev_ind; [done|].
  rewrite store_assignments_snoc. destruct (decide (center c = cs)) as [<-|Hne].
  - rewrite lookup_insert_eq. intros [= <-]. exists c. set_solver.
  - rewrite lookup_insert_ne by done. intros (c' & ? & ? & ?)%IH. exists c'. set_solver.
Qed.

Lemma store_assignments_lookup_NoDup combos c :
  NoDup (center <$> combos) → c ∈ combos →
  store_assignments combos !! center c = Some (entry_of c).
Proof.
  induction combos as [|c' combos IH] using rev_ind; [set_solver|].
  rewrite fmap_app, NoDup_app, store_assignments_snoc. simpl.
  intros (Hnd & Hfresh & _) [Hc| ->%list_elem_of_singleton]%elem_of_app.
  - rewrite lookup_insert_ne; [by apply IH|].
    intros Heq. apply (Hfresh (center c)); [by apply list_elem_of_fmap_2|].
    rewrite Heq. set_solver.
  - by rewrite lookup_insert_eq.
Qed.

(** ** The sorted lists of identifiers *)

Lemma elem_of_unique `{EqDecision K} (l : list K) x : x ∈ unique l ↔ x ∈ l.
Proof.
  induction l as [|y l IH]; [done|]. simpl.
  rewrite !elem_of_cons, list_elem_of_filter, IH.
  destruct (decide (x = y)); naive_solver.
Qed.

Lemma NoDup_unique `{EqDecision K} (l : list K) : NoDup (unique l).
Proof.
  induction l as [|y l IH]; simpl; [constructor|].
  constructor; [|by apply NoDup_filter].
  rewrite list_elem_of_filter. naive_solver.
Qed.

Lemma NoDup_sorted_unique `{Identifier K} (l : list K) : NoDup (sorted_unique l).
Proof. unfold sorted_unique. rewrite merge_sort_Permutation. apply NoDup_unique. Qed.

Lemma elem_of_sorted_unique `{Identifier K} (l : list K) x : x ∈ sorted_unique l ↔ x ∈ l.
Proof. unfold sorted_unique. by rewrite merge_sort_Permutation, elem_of_unique. Qed.

Lemma sorted_unique_ascending `{Identifier K} (l : list K) :
  StronglySorted id_le (sorted_unique l).
Proof. apply StronglySorted_merge_sort; apply _. Qed.

Lemma NoDup_fmap_elem_eq {A B} (f : A → B) (l : list A) x y :
  NoDup (f <$> l) → x ∈ l → y ∈ l → f x = f y → x = y.
Proof.
  induction l as [|a l IH]; [set_solver|]. rewrite fmap_cons, NoDup_cons.
  intros [Ha Hnd] [->|Hx]%elem_of_cons [->|Hy]%elem_of_cons Heq; [done| | |by apply IH].
  - exfalso. apply Ha. rewrite Heq. by apply list_elem_of_fmap_2.
  - exfalso. apply Ha. rewrite <- Heq. by apply list_elem_of_fmap_2.
Qed.

(** ** No reuse while clips last *)

Lemma unused_clip_exists (clips used : list string) :
  NoDup clips → (length used < length clips)%nat → ∃ c, c ∈ clips ∧ c ∉ used.
Proof.
  intros Hnd Hlen.
  destruct (decide (Forall (λ c, c ∈ used) clips)) as [Hall|Hex].
  - exfalso. rewrite Forall_forall in Hall.
    pose proof (submseteq_length _ _ (NoDup_submseteq _ _ Hnd Hall)). lia.
  - apply not_Forall_Exists in Hex; [|apply _].
    apply Exists_exists in Hex as (c & ? & ?). by exists c.
Qed.

Lemma assign_centers_fronts_NoDup d w css st st' :
  NoDup (all_front_clips d) →
  assign_centers d w css st = Some st' →
  consistent d st →
  NoDup (fronts (center_best_combos st)) →
  (length (fronts (center_best_combos st)) + length css ≤ length (all_front_clips d))%nat →
  NoDup (fronts (center_best_combos st')).
Proof.
  intros Hclips. induction css as [|cs css IH] in st |- *; simpl.
  - by intros [= <-].
  - destruct (assign_center d w st cs) as [st1|] eqn:Hstep; [|done]. simpl.
    intros Hrun Hcons Hnd Hlen.
    apply assign_center_spec in Hstep as (f & r & s & -> & Hf & Hr & Hfresh & _).
    apply (IH _ Hrun); [by apply consistent_commit| |].
    + unfold fronts. simpl. rewrite fmap_app. apply NoDup_app. split_and!; [done| |].
      * intros x Hx ->%list_elem_of_singleton.
        destruct Hcons as (Hused & _).
        destruct (unused_clip_exists (all_front_clips d) (fronts (center_best_combos st)))
          as (c & Hc & Hnot); [done|lia|].
        apply Hfresh; [|by apply Hused]. exists c. by rewrite Hused.
      * apply NoDup_singleton.
    + unfold fronts in *. simpl. rewrite fmap_app, length_app. simpl. lia.
Qed.

Lemma assign_centers_rears_NoDup d w css st st' :
  NoDup (all_rear_clips d) →
  assign_centers d w css st = Some st' →
  consistent d st →
  NoDup (rears (center_best_combos st)) →
  (length (rears (center_best_combos st)) + length css ≤ length (all_rear_clips d))%nat →
  NoDup (rears (center_best_combos st')).
Proof.
  intros Hclips. induction css as [|cs css IH] in st |- *; simpl.
  - by intros [= <-].
  - destruct (assign_center d w st cs) as [st1|] eqn:Hstep; [|done]. simpl.
    intros Hrun Hcons Hnd Hlen.
    apply assign_center_spec in Hstep as (f & r & s & -> & Hf & Hr & _ & Hfresh).
    apply (IH _ Hrun); [by apply consistent_commit| |].
    + unfold rears. simpl. rewrite fmap_app. apply NoDup_app. split_and!; [done| |].
      * intros x Hx ->%list_elem_of_singleton.
        destruct Hcons as (_ & Hused & _).
        destruct (unused_clip_exists (all_rear_clips d) (rears (center_best_combos st)))
          as (c & Hc & Hnot); [done|lia|].
        apply Hfresh; [|by apply Hused]. exists c. by rewrite Hused.
      * apply NoDup_singleton.
    + unfold rears in *. simpl. rewrite fmap_app, length_app. simpl. lia.
Qed.

Lemma optimal_assignments_run d lf rf lr rr a :
  calculate_optimal_assignments d lf rf lr rr = Some a →
  ∃ st,
    assign_centers d {| w_LF := lf; w_RF := rf; w_LR := lr; w_RR := rr |}
      (all_center_sections d) initial_state = Some st ∧
    a = store_assignments (center_best_combos st) ∧
    consistent d st ∧
    center <$> center_best_combos st = all_center_sections d.
Proof.
  unfold calculate_optimal_assignments. cbv zeta.
  destruct (assign_centers d _ (all_center_sections d) initial_state) as [st|] eqn:Hrun;
    [|done].
  intros [= <-]. exists st.
  destruct (assign_centers_combos _ _ _ _ _ Hrun (consistent_initial d))
    as (Hcons & more & Hmore & Hcenters).
  simpl in Hmore. by rewrite Hmore.
Qed.

(** C3, as the code has it. In the map of one optimizer run, two
    different center sections hold different front clips whenever the
    center sections are no more numerous than the front clips, and
    different rear clips whenever they are no more numerous than the
    rear clips. *)
Theorem no_clip_reuse_while_clips_last results fc rc lf rf lr rr a cs1 cs2 e1 e2 :
  calculate_optimal_assignments (selector_data results fc rc) lf rf lr rr = Some a →
  cs1 ≠ cs2 →
  a !! cs1 = Some e1 →
  a !! cs2 = Some e2 →
  ((length (all_center_sections (selector_data results fc rc))
    ≤ length (all_front_clips (selector_data results fc rc)))%nat →
   front_clip e1 ≠ front_clip e2) ∧
  ((length (all_center_sections (selector_data results fc rc))
    ≤ length (all_rear_clips (selector_data results fc rc)))%nat →
   rear_clip e1 ≠ rear_clip e2).
Proof.
  set (d := selector_data results fc rc).
  intros (st & Hrun & -> & Hcons & Hcenters)%optimal_assignments_run Hne
         (c1 & Hc1 & <- & ->)%store_assignments_lookup
         (c2 & Hc2 & <- & ->)%store_assignments_lookup.
  split; intros Hlen Heq; apply Hne; f_equal; simpl in Heq.
  - apply (NoDup_fmap_elem_eq combo_front (center_best_combos st)); [|done..].
    eapply (assign_centers_fronts_NoDup d);
      [apply NoDup_sorted_unique|done|apply consistent_initial|apply NoDup_nil_2|exact Hlen].
  - apply (NoDup_fmap_elem_eq combo_rear (center_best_combos st)); [|done..].
    eapply (assign_centers_rears_NoDup d);
      [apply NoDup_sorted_unique|done|apply consistent_initial|apply NoDup_nil_2|exact Hlen].
Qed.

(** ** What a center section receives *)

Lemma commit_last st cs f r s :
  entry_of <$> last (center_best_combos (commit st cs f r s)) =
  Some {| front_clip := f; rear_clip := r |}.
Proof. simpl. by rewrite last_snoc. Qed.

(** The state in which [cs] is processed is the one reached on the
    center sections before it; its used sets hold the clips the map
    gives to those sections, and the map gives [cs] the pair committed
    in that state. *)
Lemma run_at d lf rf lr rr a pre cs post :
  NoDup (all_center_sections d) →
  all_center_sections d = pre ++ cs :: post →
  calculate_optimal_assignments d lf rf lr rr = Some a →
  ∃ st st',
    assign_centers d {| w_LF := lf; w_RF := rf; w_LR := lr; w_RR := rr |} pre initial_state
      = Some st ∧
    assign_center d {| w_LF := lf; w_RF := rf; w_LR := lr; w_RR := rr |} st cs = Some st' ∧
    a !! cs = entry_of <$> last (center_best_combos st') ∧
    (∀ f, f ∈ used_front_clips st ↔
          ∃ cs' e, cs' ∈ pre ∧ a !! cs' = Some e ∧ front_clip e = f) ∧
    (∀ r, r ∈ used_rear_clips st ↔
          ∃ cs' e, cs' ∈ pre ∧ a !! cs' = Some e ∧ rear_clip e = r).
Proof.
  intros Hnd Hsplit (fin & Hrun & -> & _ & Hcenters)%optimal_assignments_run.
  rewrite Hsplit, assign_centers_app in Hrun.
  destruct (assign_centers d _ pre initial_state) as [st|] eqn:Hpre; [|done].
  simpl in Hrun.
  destruct (assign_center d _ st cs) as [st'|] eqn:Hstep; [|done]. simpl in Hrun.
  destruct (assign_centers_combos _ _ _ _ _ Hpre (consistent_initial d))
    as (Hcons & pre_combos & Hpc & Hpre_centers).
  simpl in Hpc.
  pose proof Hstep as (f & r & s & -> & Hf & Hr & _)%assign_center_spec.
  destruct (assign_centers_combos _ _ _ _ _ Hrun (consistent_commit d st cs f r s Hf Hr Hcons))
    as (_ & post_combos & Hfin & Hpost_centers).
  simpl in Hfin. rewrite <- Hcenters in Hnd.
  set (c0 := {| center := cs; combo_front := f; combo_rear := r; score := s |}) in *.
  assert (∀ c, c ∈ center_best_combos st ++ [c0] →
               store_assignments (center_best_combos fin) !! center c = Some (entry_of c))
    as Hlookup.
  { intros c Hc. apply store_assignments_lookup_NoDup; [done|].
    rewrite Hfin. apply elem_of_app. by left. }
  assert (∀ cs' e, cs' ∈ pre → store_assignments (center_best_combos fin) !! cs' = Some e →
            ∃ c, c ∈ center_best_combos st ∧ center c = cs' ∧ e = entry_of c) as Hback.
  { intros cs' e Hcs' He. rewrite <- Hpre_centers, <- Hpc in Hcs'.
    apply list_elem_of_fmap in Hcs' as (c & -> & Hc).
    rewrite Hlookup in He by (apply elem_of_app; by left). injection He as <-. eauto. }
  exists st, (commit st cs f r s). split_and!; [done|done| | |].
  - rewrite commit_last. apply (Hlookup c0). apply elem_of_app. right. by left.
  - intros x. destruct Hcons as (Hused & _). rewrite Hused. unfold fronts. split.
    + intros (c & -> & Hc)%list_elem_of_fmap. exists (center c), (entry_of c).
      split_and!; [|apply Hlookup, elem_of_app; by left|done].
      rewrite <- Hpre_centers, <- Hpc. by apply list_elem_of_fmap_2.
    + intros (cs' & e & Hcs' & He & <-).
      destruct (Hback _ _ Hcs' He) as (c & Hc & _ & ->).
      by apply (list_elem_of_fmap_2 combo_front).
  - intros x. destruct Hcons as (_ & Hused & _). rewrite Hused. unfold rears. split.
    + intros (c & -> & Hc)%list_elem_of_fmap. exists (center c), (entry_of c).
      split_and!; [|apply Hlookup, elem_of_app; by left|done].
      rewrite <- Hpre_centers, <- Hpc. by apply list_elem_of_fmap_2.
    + intros (cs' & e & Hcs' & He & <-).
      destruct (Hback _ _ Hcs' He) as (c & Hc & _ & ->).
      by apply (list_elem_of_fmap_2 combo_rear).
Qed.

Lemma truthy_nonempty s : s ≠ "" → truthy s = true.
Proof.
  intros Hs. unfold truthy. apply negb_true_iff. by apply String.eqb_neq.
Qed.

(** The entry of a center section whose search finds a pair of truthy
    clips, stated on the state in which the section is processed. *)
Lemma assign_center_found d w st cs st' :
  assign_center d w st cs = Some st' →
  Forall (λ c, c ≠ "") (all_front_clips d ++ all_rear_clips d) →
  (∃ c, c ∈ candidates d (used_front_clips st) (used_rear_clips st) cs ∧
        flt (candidate_score w c) infinity = true) →
  ∃ i c,
    first_minimum w (candidates d (used_front_clips st) (used_rear_clips st) cs) i c ∧
    st' = commit st cs (cand_front c) (cand_rear c) (candidate_score w c).
Proof.
  intros Hstep Hids (c0 & Hc0 & Hfin). unfold assign_center in Hstep. cbv zeta in Hstep.
  destruct (best_combo_spec d w (used_front_clips st) (used_rear_clips st) cs)
    as [[Hnone _]|(i & c & Hmin & Hb)]; [by rewrite (Hnone c0 Hc0) in Hfin|].
  rewrite Hb in Hstep. simpl in Hstep.
  pose proof Hmin as (Hi & _).
  apply list_elem_of_lookup_2, elem_of_candidates in Hi as (Hcf & _ & Hcr & _).
  rewrite Forall_forall in Hids.
  rewrite !truthy_nonempty in Hstep by (apply Hids, elem_of_app; auto).
  simpl in Hstep. injection Hstep as <-. by exists i, c.
Qed.

(** C2, as the code has it. When the optimizer processes a center
    section, the clips still unused are those the map does not give to
    the center sections processed before it.  If some pair of unused
    clips with rank data at the center section has a computed score
    below infinity, the pair the map gives the center section is, among
    all such pairs taken in the order of the nested loops, one whose
    score, computed in double precision as (LF_rank * w_LF)/100 +
    (RF_rank * w_RF)/100 + (LR_rank * w_LR)/100 + (RR_rank * w_RR)/100,
    no other pair undercuts, and the first to reach that score.  Clip
    identifiers are non-empty text, as spreadsheet cells are. *)
Theorem committed_pair_minimizes results fc rc lf rf lr rr a pre cs post :
  calculate_optimal_assignments (selector_data results fc rc) lf rf lr rr = Some a →
  all_center_sections (selector_data results fc rc) = pre ++ cs :: post →
  Forall (λ c, c ≠ "") (all_front_clips (selector_data results fc rc) ++
                        all_rear_clips (selector_data results fc rc)) →
  ∃ used_front used_rear : gset string,
    (∀ f, f ∈ used_front ↔ ∃ cs' e, cs' ∈ pre ∧ a !! cs' = Some e ∧ front_clip e = f) ∧
    (∀ r, r ∈ used_rear ↔ ∃ cs' e, cs' ∈ pre ∧ a !! cs' = Some e ∧ rear_clip e = r) ∧
    ((∃ c, c ∈ candidates (selector_data results fc rc) used_front used_rear cs ∧
           flt (candidate_score {| w_LF := lf; w_RF := rf; w_LR := lr; w_RR := rr |} c)
               infinity = true) →
     ∃ i c,
       first_minimum {| w_LF := lf; w_RF := rf; w_LR := lr; w_RR := rr |}
         (candidates (selector_data results fc rc) used_front used_rear cs) i c ∧
       a !! cs = Some {| front_clip := cand_front c; rear_clip := cand_rear c |}).
Proof.
  set (d := selector_data results fc rc). intros Hcalc Hsplit Hids.
  destruct (run_at d lf rf lr rr a pre cs post (NoDup_sorted_unique _) Hsplit Hcalc)
    as (st & st' & _ & Hstep & Hcs & Hfront & Hrear).
  exists (used_front_clips st), (used_rear_clips st). split_and!; [done..|].
  intros Hcands.
  destruct (assign_center_found _ _ _ _ _ Hstep Hids Hcands) as (i & c & Hmin & ->).
  exists i, c. split; [done|]. by rewrite Hcs, commit_last.
Qed.

(** ** Iteration order and fallback *)




(** ** The assignment map *)

Lemma store_assignments_is_Some combos c :
  c ∈ combos → is_Some (store_assignments combos !! center c).
Proof.
  induction combos as [|c' combos IH] using rev_ind; [by intros ?%elem_of_nil|].
  rewrite store_assignments_snoc.
  intros [Hc| ->%list_elem_of_singleton]%elem_of_app.
  - destruct (decide (center c' = center c)) as [->|Hne].
    + rewrite lookup_insert_eq. by eexists.
    + rewrite lookup_insert_ne by done. by apply IH.
  - rewrite lookup_insert_eq. by eexists.
Qed.

(** X7. The map of a run has an entry for exactly the center
    sections of the list, and every entry holds a clip of the front
    list and a clip of the rear list. *)
Theorem assignments_cover_center_sections d lf rf lr rr a :
  calculate_optimal_assignments d lf rf lr rr = Some a →
  (∀ cs, is_Some (a !! cs) ↔ cs ∈ all_center_sections d) ∧
  (∀ cs e, a !! cs = Some e →
           front_clip e ∈ all_front_clips d ∧ rear_clip e ∈ all_rear_clips d).
Proof.
  intros (st & _ & -> & (_ & _ & Hf & Hr) & Hcenters)%optimal_assignments_run. split.
  - intros cs. rewrite <- Hcenters. split.
    + intros [e (c & Hc & <- & _)%store_assignments_lookup].
      by apply list_elem_of_fmap_2.
    + intros (c & -> & Hc)%list_elem_of_fmap. by apply store_assignments_is_Some.
  - intros cs e (c & Hc & _ & ->)%store_assignments_lookup. simpl. split.
    + apply Hf. by apply (list_elem_of_fmap_2 combo_front).
    + apply Hr. by apply (list_elem_of_fmap_2 combo_rear).
Qed.

(** ** When the fallback raises *)

Lemma candidates_without_clips d uf ur cs :
  all_front_clips d = [] ∨ all_rear_clips d = [] → candidates d uf ur cs = [].
Proof.
  unfold candidates. intros [->| ->]; [done|].
  induction (all_front_clips d) as [|f fs IH]; [done|].
  rewrite bind_cons, IH, app_nil_r. case_decide; [done|].
  by destruct (rows_for (df_front_calc_ranks d) cs f).
Qed.

Lemma assign_center_without_clips d w st cs :
  all_front_clips d = [] ∨ all_rear_clips d = [] → assign_center d w st cs = None.
Proof.
  intros Hno. unfold assign_center. cbv zeta.
  destruct (best_combo_spec d w (used_front_clips st) (used_rear_clips st) cs)
    as [[_ ->]|(i & c & (Hi & _) & _)].
  - simpl. unfold fallback_commit. destruct Hno as [->| ->]; [done|].
    by destruct (fallback (all_front_clips d) (used_front_clips st)).
  - by rewrite (candidates_without_clips d _ _ cs Hno) in Hi.
Qed.

(** X8. The optimizer fails (the IndexError of [clips[0]] in the
    fallback) exactly when there is a center section to process and the
    list of front clips or the list of rear clips is empty. *)
Theorem optimizer_raises_iff d lf rf lr rr :
  calculate_optimal_assignments d lf rf lr rr = None ↔
  all_center_sections d ≠ [] ∧ (all_front_clips d = [] ∨ all_rear_clips d = []).
Proof.
  unfold calculate_optimal_assignments. cbv zeta.
  set (w := {| w_LF := lf; w_RF := rf; w_LR := lr; w_RR := rr |}). split.
  - intros Hnone.
    destruct (all_center_sections d) as [|cs css] eqn:Hc; [done|]. split; [done|].
    destruct (all_front_clips d) as [|f fs] eqn:Hf; [by left|].
    destruct (all_rear_clips d) as [|r rs] eqn:Hr; [by right|].
    destruct (assign_centers_is_Some d w (cs :: css) initial_state) as [st Hst];
      [by rewrite Hf|by rewrite Hr|].
    by rewrite Hst in Hnone.
  - intros [Hc Hno]. destruct (all_center_sections d) as [|cs css]; [done|].
    simpl. by rewrite (assign_center_without_clips d w initial_state cs Hno).
Qed.

(** ** Every clip is used once the center sections are numerous enough *)

Lemma size_used_fresh (used : gset string) f :
  f ∉ used → size (used ∪ {[ f ]}) = S (size used).
Proof. intros Hf. rewrite size_union by set_solver. rewrite size_singleton. lia. Qed.

Lemma clips_exhausted (clips : list string) (used : gset string) :
  NoDup clips →
  (∀ f, f ∈ used → f ∈ clips) →
  (length clips ≤ size used)%nat →
  ∀ f, f ∈ clips → f ∈ used.
Proof.
  intros Hnd Hsub Hlen f Hf.
  assert (used ⊆ list_to_set clips) as Hsubset.
  { intros x Hx. apply elem_of_list_to_set. by apply Hsub. }
  assert (used ≡ list_to_set clips) as Heq.
  { apply set_subseteq_size_equiv; [done|]. by rewrite size_list_to_set. }
  rewrite Heq. by apply elem_of_list_to_set.
Qed.

Lemma assign_centers_fronts_exhaust d w css st st' :
  NoDup (all_front_clips d) →
  assign_centers d w css st = Some st' →
  consistent d st →
  (∀ f, f ∈ all_front_clips d → f ∈ used_front_clips st) ∨
  (length (all_front_clips d) ≤ size (used_front_clips st) + length css)%nat →
  ∀ f, f ∈ all_front_clips d → f ∈ used_front_clips st'.
Proof.
  intros Hnd. induction css as [|cs css IH] in st |- *; simpl.
  - intros [= <-] (Hused & _ & Hin & _) [Hall|Hlen]; [done|].
    apply clips_exhausted; [done| |lia]. intros f Hf. by apply Hin, Hused.
  - destruct (assign_center d w st cs) as [st1|] eqn:Hstep; [|done]. simpl.
    intros Hrun Hcons Hcase.
    apply assign_center_spec in Hstep as (f & r & s & -> & Hf & Hr & Hfresh & _).
    apply (IH _ Hrun); [by apply consistent_commit|].
    destruct (decide (Forall (λ c, c ∈ used_front_clips st) (all_front_clips d)))
      as [Hall|Hex].
    + left. rewrite Forall_forall in Hall. intros x Hx. simpl.
      apply elem_of_union. left. by apply Hall.
    + right. apply not_Forall_Exists in Hex; [|apply _].
      apply Exists_exists in Hex as (c & Hc & Hnot).
      simpl. rewrite size_used_fresh by (apply Hfresh; by exists c).
      destruct Hcase as [Hall|Hlen]; [|lia]. by destruct (Hnot (Hall c Hc)).
Qed.

Lemma assign_centers_rears_exhaust d w css st st' :
  NoDup (all_rear_clips d) →
  assign_centers d w css st = Some st' →
  consistent d st →
  (∀ r, r ∈ all_rear_clips d → r ∈ used_rear_clips st) ∨
  (length (all_rear_clips d) ≤ size (used_rear_clips st) + length css)%nat →
  ∀ r, r ∈ all_rear_clips d → r ∈ used_rear_clips st'.
Proof.
  intros Hnd. induction css as [|cs css IH] in st |- *; simpl.
  - intros [= <-] (_ & Hused & _ & Hin) [Hall|Hlen]; [done|].
    apply clips_exhausted; [done| |lia]. intros f Hf. by apply Hin, Hused.
  - destruct (assign_center d w st cs) as [st1|] eqn:Hstep; [|done]. simpl.
    intros Hrun Hcons Hcase.
    apply assign_center_spec in Hstep as (f & r & s & -> & Hf & Hr & _ & Hfresh).
    apply (IH _ Hrun); [by apply consistent_commit|].
    destruct (decide (Forall (λ c, c ∈ used_rear_clips st) (all_rear_clips d)))
      as [Hall|Hex].
    + left. rewrite Forall_forall in Hall. intros x Hx. simpl.
      apply elem_of_union. left. by apply Hall.
    + right. apply not_Forall_Exists in Hex; [|apply _].
      apply Exists_exists in Hex as (c & Hc & Hnot).
      simpl. rewrite size_used_fresh by (apply Hfresh; by exists c).
      destruct Hcase as [Hall|Hlen]; [|lia]. by destruct (Hnot (Hall c Hc)).
Qed.

(** X9. When the center sections are at least as numerous as
    the front clips, every front clip is given to some center section;
    likewise for the rear clips. *)
Theorem every_clip_is_assigned results fc rc lf rf lr rr a :
  calculate_optimal_assignments (selector_data results fc rc) lf rf lr rr = Some a →
  ((length (all_front_clips (selector_data results fc rc))
    ≤ length (all_center_sections (selector_data results fc rc)))%nat →
   ∀ f, f ∈ all_front_clips (selector_data results fc rc) →
        ∃ cs e, a !! cs = Some e ∧ front_clip e = f) ∧
  ((length (all_rear_clips (selector_data results fc rc))
    ≤ length (all_center_sections (selector_data results fc rc)))%nat →
   ∀ r, r ∈ all_rear_clips (selector_data results fc rc) →
        ∃ cs e, a !! cs = Some e ∧ rear_clip e = r).
Proof.
  set (d := selector_data results fc rc).
  intros (st & Hrun & -> & Hcons & Hcenters)%optimal_assignments_run.
  assert (NoDup (center <$> center_best_combos st)) as Hnd
    by (rewrite Hcenters; apply NoDup_sorted_unique).
  split; intros Hlen x Hx.
  - assert (x ∈ used_front_clips st) as Hused.
    { eapply (assign_centers_fronts_exhaust d);
        [apply NoDup_sorted_unique|done|apply consistent_initial| |done].
      right. change (used_front_clips initial_state) with (∅ : gset string).
      rewrite size_empty. exact Hlen. }
    destruct Hcons as (Hf & _). apply Hf in Hused.
    apply list_elem_of_fmap in Hused as (c & -> & Hc).
    exists (center c), (entry_of c). split; [|done].
    by apply store_assignments_lookup_NoDup.
  - assert (x ∈ used_rear_clips st) as Hused.
    { eapply (assign_centers_rears_exhaust d);
        [apply NoDup_sorted_unique|done|apply consistent_initial| |done].
      right. change (used_rear_clips initial_state) with (∅ : gset string).
      rewrite size_empty. exact Hlen. }
    destruct Hcons as (_ & Hr & _). apply Hr in Hused.
    apply list_elem_of_fmap in Hused as (c & -> & Hc).
    exists (center c), (entry_of c). split; [|done].
    by apply store_assignments_lookup_NoDup.
Qed.

Lemma run_defined_on_centers d lf rf lr rr a cs :
  calculate_optimal_assignments d lf rf lr rr = Some a →
  cs ∈ all_center_sections d → is_Some (a !! cs).
Proof.
  intros (st & _ & -> & _ & Hcenters)%optimal_assignments_run.
  rewrite <- Hcenters. intros (c & -> & Hc)%list_elem_of_fmap.
  by apply store_assignments_is_Some.
Qed.

(** Two center sections of one run hold different clips while the
    clips of the axle last. *)
Lemma run_distinct_clips results fc rc lf rf lr rr a cs1 cs2 e1 e2 :
  calculate_optimal_assignments (selector_data results fc rc) lf rf lr rr = Some a →
  a !! cs1 = Some e1 → a !! cs2 = Some e2 →
  ((length (all_center_sections (selector_data results fc rc))
    ≤ length (all_front_clips (selector_data results fc rc)))%nat →
   front_clip e1 = front_clip e2 → cs1 = cs2) ∧
  ((length (all_center_sections (selector_data results fc rc))
    ≤ length (all_rear_clips (selector_data results fc rc)))%nat →
   rear_clip e1 = rear_clip e2 → cs1 = cs2).
Proof.
  set (d := selector_data results fc rc).
  intros (st & Hrun & -> & Hcons & Hcenters)%optimal_assignments_run
         (c1 & Hc1 & <- & ->)%store_assignments_lookup
         (c2 & Hc2 & <- & ->)%store_assignments_lookup.
  split; intros Hlen Heq; f_equal; simpl in Heq.
  - apply (NoDup_fmap_elem_eq combo_front (center_best_combos st)); [|done..].
    eapply (assign_centers_fronts_NoDup d);
      [apply NoDup_sorted_unique|done|apply consistent_initial|apply NoDup_nil_2|exact Hlen].
  - apply (NoDup_fmap_elem_eq combo_rear (center_best_combos st)); [|done..].
    eapply (assign_centers_rears_NoDup d);
      [apply NoDup_sorted_unique|done|apply consistent_initial|apply NoDup_nil_2|exact Hlen].
Qed.

End Optimizer.

(** ** Rendering the Selector tab *)

Section Render.
Context {C : Type} {C_eq_dec : EqDecision C} {C_countable : Countable C}
        {C_identifier : Identifier C}.
Implicit Types (d : Selector (C:=C)) (s : Session (C:=C)) (ui : Widgets (C:=C)).
Implicit Types (w : Weights) (a : gmap C Assignment) (t : gmap C string).
Implicit Types (results : list (RankedRow (C:=C))) (fc rc : list (AxleCalcRow (C:=C))).

(** *** The table editors *)

Lemma apply_edits_flag {S R} (edit : S → R → option (S * bool)) l b rows :
  apply_edits edit l b rows =
  (λ out : S * bool, (out.1, b || out.2)) <$> apply_edits edit l false rows.
Proof.
  induction rows as [|row rows IH] in l, b |- *; simpl.
  - by rewrite orb_false_r.
  - destruct (edit l row) as [[l1 ch]|]; [|done]. simpl.
    rewrite (IH l1 (b || ch)), (IH l1 ch).
    destruct (apply_edits edit l1 false rows) as [[l2 c2]|]; [|done]. simpl.
    by rewrite orb_assoc.
Qed.

(** Rows that ask for what is already stored change nothing. *)
Lemma apply_edits_noop {S R} (edit : S → R → option (S * bool)) l b rows :
  (∀ row, row ∈ rows → edit l row = Some (l, false)) →
  apply_edits edit l b rows = Some (l, b).
Proof.
  induction rows as [|row rows IH] in b |- *; intros Hrows; simpl; [done|].
  rewrite (Hrows row) by by left. simpl. rewrite orb_false_r.
  apply IH. intros row' Hrow'. apply Hrows. by right.
Qed.

(** A loop that ends with [changes_made] unset started with it unset
    and wrote nothing. *)
Lemma apply_edits_unchanged {S R} (edit : S → R → option (S * bool)) l b rows l' :
  (∀ l0 row l1, edit l0 row = Some (l1, false) → l1 = l0) →
  apply_edits edit l b rows = Some (l', false) → l' = l ∧ b = false.
Proof.
  intros Hedit. induction rows as [|row rows IH] in l, b |- *; simpl.
  - by intros [= <- <-].
  - destruct (edit l row) as [[l1 ch]|] eqn:Hrow; [|done]. simpl.
    intros [-> [-> ->]%orb_false_iff]%IH. by rewrite (Hedit _ _ _ Hrow).
Qed.

Lemma edit_front_unchanged (l : Lineup (C:=C)) row (l1 : Lineup (C:=C)) :
  edit_front l row = Some (l1, false) → l1 = l.
Proof.
  unfold edit_front. destruct (assignments l !! row.1); [|done]. simpl.
  case_decide; by intros [=].
Qed.

Lemma edit_rear_unchanged (l : Lineup (C:=C)) row (l1 : Lineup (C:=C)) :
  edit_rear l row = Some (l1, false) → l1 = l.
Proof.
  unfold edit_rear. destruct (assignments l !! row.1); [|done]. simpl.
  case_decide; by intros [=].
Qed.

Lemma edit_track_unchanged t (row : C * string) t1 :
  edit_track t row = Some (t1, false) → t1 = t.
Proof.
  unfold edit_track. destruct (t !! row.1); [|done]. simpl.
  case_decide; by intros [=].
Qed.

Lemma edit_front_same (l : Lineup (C:=C)) cs e :
  assignments l !! cs = Some e → edit_front l (cs, front_clip e) = Some (l, false).
Proof.
  intros He. unfold edit_front. simpl. rewrite He. simpl. by rewrite decide_False by auto.
Qed.

Lemma edit_rear_same (l : Lineup (C:=C)) cs e :
  assignments l !! cs = Some e → edit_rear l (cs, rear_clip e) = Some (l, false).
Proof.
  intros He. unfold edit_rear. simpl. rewrite He. simpl. by rewrite decide_False by auto.
Qed.

Lemma edit_track_same t cs (x : string) :
  t !! cs = Some x → edit_track t (cs, x) = Some (t, false).
Proof.
  intros Hx. unfold edit_track. simpl. rewrite Hx. simpl. by rewrite decide_False by auto.
Qed.

Lemma lineup_rows_spec d a centers rows :
  lineup_rows d a centers = Some rows →
  sublist rows.*1 centers ∧ ∀ row, row ∈ rows → a !! row.1 = Some row.2.
Proof.
  induction centers as [|center centers IH] in rows |- *; simpl.
  - intros [= <-]. split; [constructor|]. by intros row ?%elem_of_nil.
  - destruct (a !! center) as [e|] eqn:He; [|done]. simpl.
    destruct (lineup_rows d a centers) as [rest|]; [|done]. simpl.
    destruct (IH rest eq_refl) as [Hsub Hmem].
    destruct (rows_for (df_front_calc_ranks d) center (front_clip e)),
             (rows_for (df_rear_calc_ranks d) center (rear_clip e));
      intros [= <-]; try (split; [by apply sublist_cons|done]).
    split; [by apply sublist_skip|].
    intros row [->|Hrow]%elem_of_cons; [done|by apply Hmem].
Qed.

Lemma track_column_spec t (rows : list (C * Assignment)) tracks :
  track_column t rows = Some tracks →
  ∀ row, row ∈ zip rows tracks → t !! row.1.1 = Some row.2.
Proof.
  unfold track_column. intros Hcol%mapM_Some.
  induction Hcol as [|row x rows tracks Hx Hcol IH]; simpl.
  - by intros row ?%elem_of_nil.
  - intros row' [->|Hrow']%elem_of_cons; [done|by apply IH].
Qed.

(** Untouched clip cells leave the lineup as it is. *)
Lemma untouched_front_cells ui d a manual centers rows b :
  (∀ cs x, front_table_editor ui cs x = x) →
  lineup_rows d a centers = Some rows →
  apply_edits edit_front {| assignments := a; manual_order_mode := manual |} b
    ((λ row, (row.1, front_table_editor ui row.1 (front_clip row.2))) <$> rows) =
  Some ({| assignments := a; manual_order_mode := manual |}, b).
Proof.
  intros Hui [_ Hrows]%lineup_rows_spec. apply apply_edits_noop.
  intros row' (row & -> & Hrow)%list_elem_of_fmap. rewrite Hui.
  apply edit_front_same. simpl. by apply Hrows.
Qed.

Lemma untouched_rear_cells ui d a manual centers rows b :
  (∀ cs x, rear_table_editor ui cs x = x) →
  lineup_rows d a centers = Some rows →
  apply_edits edit_rear {| assignments := a; manual_order_mode := manual |} b
    ((λ row, (row.1, rear_table_editor ui row.1 (rear_clip row.2))) <$> rows) =
  Some ({| assignments := a; manual_order_mode := manual |}, b).
Proof.
  intros Hui [_ Hrows]%lineup_rows_spec. apply apply_edits_noop.
  intros row' (row & -> & Hrow)%list_elem_of_fmap. rewrite Hui.
  apply edit_rear_same. simpl. by apply Hrows.
Qed.

Lemma untouched_track_cells ui t (rows : list (C * Assignment)) tracks b :
  (∀ cs x, track_type_editor ui cs x = x) →
  track_column t rows = Some tracks →
  apply_edits edit_track t b
    ((λ row, (row.1.1, track_type_editor ui row.1.1 row.2)) <$> zip rows tracks) =
  Some (t, b).
Proof.
  intros Hui Hcol. apply apply_edits_noop.
  intros row' (row & -> & Hrow)%list_elem_of_fmap. rewrite Hui.
  apply edit_track_same. by apply (track_column_spec _ _ _ Hcol).
Qed.

(** *** The session entries a render writes *)

Lemma set_assignments_id s a : lineup_assignments s = Some a → set_assignments a s = s.
Proof. destruct s. simpl. by intros ->. Qed.

Lemma set_track_types_id s t : track_types s = Some t → set_track_types t s = s.
Proof. destruct s. simpl. by intros ->. Qed.

Lemma set_manual_order_mode_id s b :
  session_manual_order_mode s = Some b → set_manual_order_mode b s = s.
Proof. destruct s. simpl. by intros ->. Qed.

Lemma init_order_flags_id s :
  is_Some (session_manual_order_mode s) → is_Some (last_calculate_time s) →
  init_order_flags s = s.
Proof. unfold init_order_flags. by intros [? ->] [? ->]. Qed.

Lemma init_order_flags_entries s :
  using_multi_sheet (init_order_flags s) = using_multi_sheet s ∧
  results_df (init_order_flags s) = results_df s ∧
  df_front_calc (init_order_flags s) = df_front_calc s ∧
  df_rear_calc (init_order_flags s) = df_rear_calc s ∧
  corner_weights (init_order_flags s) = corner_weights s ∧
  lineup_assignments (init_order_flags s) = lineup_assignments s ∧
  track_types (init_order_flags s) = track_types s ∧
  is_Some (session_manual_order_mode (init_order_flags s)) ∧
  is_Some (last_calculate_time (init_order_flags s)).
Proof.
  unfold init_order_flags.
  destruct (session_manual_order_mode s) eqn:Hm, (last_calculate_time s) eqn:Hl; simpl;
    rewrite ?Hm, ?Hl; simpl; rewrite ?Hm, ?Hl; split_and!; eauto.
Qed.

(** What a run of the lineup tables is made of: either an exception,
    or the three edit loops applied to the stored lineup. *)
Lemma lineup_tables_run d ui s :
  (∃ e, lineup_tables d ui s = (init_order_flags s, Raised e)) ∨
  (∃ w a t manual centers rows tracks l1 c1 t' c2 l2 changes_made,
     corner_weights s = Some w ∧ lineup_assignments s = Some a ∧
     track_types s = Some t ∧
     session_manual_order_mode (init_order_flags s) = Some manual ∧
     sorted_centers d w a manual = Some centers ∧
     lineup_rows d a centers = Some rows ∧
     track_column t rows = Some tracks ∧
     rows ≠ [] ∧
     apply_edits edit_front {| assignments := a; manual_order_mode := manual |} false
       ((λ row, (row.1, front_table_editor ui row.1 (front_clip row.2))) <$> rows)
       = Some (l1, c1) ∧
     apply_edits edit_track t c1
       ((λ row, (row.1.1, track_type_editor ui row.1.1 row.2)) <$> zip rows tracks)
       = Some (t', c2) ∧
     apply_edits edit_rear l1 c2
       ((λ row, (row.1, rear_table_editor ui row.1 (rear_clip row.2))) <$> rows)
       = Some (l2, changes_made) ∧
     lineup_tables d ui s =
       (set_manual_order_mode (manual_order_mode l2)
          (set_track_types t' (set_assignments (assignments l2) (init_order_flags s))),
        if changes_made then Rerun else Completed)).
Proof.
  unfold lineup_tables. cbv zeta.
  destruct (init_order_flags_entries s) as (_ & _ & _ & _ & Hw & Ha & Ht & _ & _).
  rewrite Hw, Ha, Ht.
  destruct (corner_weights s) as [w|]; [|left; by eexists].
  destruct (lineup_assignments s) as [a|]; [|left; by eexists].
  destruct (track_types s) as [t|]; [|left; by eexists].
  destruct (session_manual_order_mode (init_order_flags s)) as [manual|];
    [|left; by eexists].
  destruct (sorted_centers d w a manual) as [centers|] eqn:Hcenters; [|left; by eexists].
  destruct (lineup_rows d a centers) as [rows|] eqn:Hrows; [|left; by eexists].
  destruct (track_column t rows) as [tracks|] eqn:Htracks; [|left; by eexists].
  case_decide; [left; by eexists|].
  destruct (apply_edits edit_front _ false _) as [[l1 c1]|] eqn:H1; [|left; by eexists].
  destruct (apply_edits edit_track t c1 _) as [[t' c2]|] eqn:H2; [|left; by eexists].
  destruct (apply_edits edit_rear l1 c2 _) as [[l2 changes_made]|] eqn:H3;
    [|left; by eexists].
  right. by exists w, a, t, manual, centers, rows, tracks, l1, c1, t', c2, l2, changes_made.
Qed.

(** The tables never write the weights. *)
Lemma lineup_tables_weights d ui s :
  corner_weights (lineup_tables d ui s).1 = corner_weights s.
Proof.
  destruct (init_order_flags_entries s) as (_ & _ & _ & _ & Hw & _).
  destruct (lineup_tables_run d ui s) as [[e ->]|Hrun]; [done|].
  destruct Hrun as (? & ? & ? & ? & ? & ? & ? & ? & ? & ? & ? & ? & ? & Hrun).
  destruct Hrun as (_ & _ & _ & _ & _ & _ & _ & _ & _ & _ & _ & ->). done.
Qed.

(** With the clip cells untouched the tables leave the map as it is. *)
Lemma lineup_tables_map_kept d ui s a :
  lineup_assignments s = Some a →
  (∀ cs x, front_table_editor ui cs x = x) →
  (∀ cs x, rear_table_editor ui cs x = x) →
  lineup_assignments (lineup_tables d ui s).1 = Some a.
Proof.
  intros Ha Hfront Hrear.
  destruct (init_order_flags_entries s) as (_ & _ & _ & _ & _ & Ha' & _).
  destruct (lineup_tables_run d ui s) as [[e ->]|Hrun]; [by rewrite <- Ha|].
  destruct Hrun as (w & a0 & t & manual & centers & rows & tracks & l1 & c1 & t' & c2 &
                    l2 & changes_made & Hrun).
  destruct Hrun as (_ & Ha0 & _ & _ & _ & Hrows & _ & _ & H1 & _ & H3 & ->).
  rewrite (untouched_front_cells ui d a0 manual centers rows false Hfront Hrows) in H1.
  injection H1 as <- <-.
  rewrite (untouched_rear_cells ui d a0 manual centers rows c2 Hrear Hrows) in H3.
  injection H3 as <- <-. simpl. congruence.
Qed.

(** A run of the tables that ends normally has written nothing, and a
    run with untouched editors on the session it leaves does the same. *)
Lemma lineup_tables_completed d ui s :
  (lineup_tables d ui s).2 = Completed →
  (lineup_tables d ui s).1 = init_order_flags s ∧
  ∀ input click,
    lineup_tables d (untouched input click) (init_order_flags s) =
    (init_order_flags s, Completed).
Proof.
  destruct (init_order_flags_entries s) as (_ & _ & _ & _ & Hw & Ha & Ht & Hm & Hl).
  destruct (lineup_tables_run d ui s) as [[e ->]|Hrun]; [done|].
  destruct Hrun as (w & a & t & manual & centers & rows & tracks & l1 & c1 & t' & c2 &
                    l2 & changes_made & Hrun).
  destruct Hrun as (Hws & Has & Hts & Hms & Hcenters & Hrows & Htracks & Hne &
                    H1 & H2 & H3 & ->).
  simpl. destruct changes_made; [done|]. intros _.
  apply (apply_edits_unchanged edit_rear) in H3 as [-> ->];
    [|apply edit_rear_unchanged].
  apply (apply_edits_unchanged edit_track) in H2 as [-> ->];
    [|apply edit_track_unchanged].
  apply (apply_edits_unchanged edit_front) in H1 as [-> _];
    [|apply edit_front_unchanged].
  simpl.
  assert (set_manual_order_mode manual
            (set_track_types t (set_assignments a (init_order_flags s))) =
          init_order_flags s) as Hsame.
  { rewrite (set_assignments_id _ a) by congruence.
    rewrite (set_track_types_id _ t) by congruence.
    by apply set_manual_order_mode_id. }
  split; [done|]. intros input click.
  destruct (lineup_tables_run d (untouched input click) (init_order_flags s))
    as [[e He]|Hrun].
  - exfalso. revert He. unfold lineup_tables. cbv zeta.
    rewrite (init_order_flags_id (init_order_flags s)) by done.
    rewrite Hw, Ha, Ht, Hws, Has, Hts, Hms, Hcenters, Hrows, Htracks.
    rewrite decide_False by done.
    rewrite (untouched_front_cells (untouched input click) d a manual centers rows false)
      by done.
    rewrite (untouched_track_cells (untouched input click) t rows tracks false) by done.
    rewrite (untouched_rear_cells (untouched input click) d a manual centers rows false)
      by done.
    done.
  - destruct Hrun as (w' & a' & t0 & manual' & centers' & rows' & tracks' & l1' & c1' &
                      t1 & c2' & l2' & changes' & Hrun).
    destruct Hrun as (Hw' & Ha' & Ht' & Hm' & Hcenters' & Hrows' & Htracks' & Hne' &
                      H1' & H2' & H3' & ->).
    rewrite (init_order_flags_id (init_order_flags s)) in * by done.
    rewrite (untouched_front_cells (untouched input click) d a' manual' centers' rows' false)
      in H1' by done.
    injection H1' as <- <-.
    rewrite (untouched_track_cells (untouched input click) t0 rows' tracks' false)
      in H2' by done.
    injection H2' as <- <-.
    rewrite (untouched_rear_cells (untouched input click) d a' manual' centers' rows' false)
      in H3' by done.
    injection H3' as <- <-. simpl.
    rewrite (set_assignments_id _ a') by done.
    rewrite (set_track_types_id _ t0) by done.
    by rewrite (set_manual_order_mode_id _ manual') by done.
Qed.

(** *** Pressing Calculate *)

Lemma selector_tab_click s ui results fc rc a :
  using_multi_sheet s = true →
  results_df s = Some results →
  df_front_calc s = Some fc →
  df_rear_calc s = Some rc →
  fc ≠ [] → rc ≠ [] →
  calculate_disabled (number_inputs ui) = false →
  calculate_pressed ui = true →
  optimize (selector_data results fc rc) (number_inputs ui) = Some a →
  (selector_tab s ui).2 = Rerun ∧
  lineup_assignments (selector_tab s ui).1 = Some a ∧
  corner_weights (selector_tab s ui).1 = Some (number_inputs ui).
Proof.
  intros Hm Hres Hfc Hrc Hf Hr Hgate Hpress Hopt. unfold selector_tab.
  rewrite Hres, Hm, Hfc, Hrc.
  destruct (selector_data_clips results fc rc Hf Hr) as [Hfn Hrn].
  set (d := selector_data results fc rc) in *.
  cbv zeta. rewrite Hgate, Hpress, Hopt.
  destruct (corner_weights s) as [w0|] eqn:Hw, (lineup_assignments s) as [a0|] eqn:Ha;
    cbn -[optimize]; rewrite ?Hw, ?Ha; cbn -[optimize].
  - by destruct (track_types s).
  - destruct (optimize_is_Some d w0 Hfn Hrn) as [a1 ->]. cbn -[optimize].
    by destruct (track_types s).
  - by destruct (track_types s).
  - destruct (optimize_is_Some d default_weights Hfn Hrn) as [a1 ->]. cbn -[optimize].
    by destruct (track_types s).
Qed.

(** A run of the tab in which the optimizer is not invoked, on a
    session that holds weights and a map. *)
Lemma selector_tab_no_run s ui results fc rc w a :
  using_multi_sheet s = true →
  results_df s = Some results →
  df_front_calc s = Some fc →
  df_rear_calc s = Some rc →
  corner_weights s = Some w →
  lineup_assignments s = Some a →
  calculate_pressed ui = false ∨ calculate_disabled (number_inputs ui) = true →
  selector_tab s ui =
  lineup_tables (selector_data results fc rc) ui
    match track_types s with
    | Some _ => s
    | None => set_track_types (initial_track_types (selector_data results fc rc)) s
    end.
Proof.
  intros Hm Hres Hfc Hrc Hw Ha Hno. unfold selector_tab.
  rewrite Hres, Hm, Hfc, Hrc, Hw. cbn -[optimize calculate_disabled lineup_tables].
  rewrite Ha. cbn -[optimize calculate_disabled lineup_tables].
  destruct Hno as [->| ->]; [|done]. by destruct (calculate_disabled (number_inputs ui)).
Qed.


(** ** The weight-sum gate *)

(** C7, as the code has it. The button is disabled when the total of
    the four number inputs, added from the left in double precision,
    differs from 100 by more than 0.01 in double precision; for
    whole-number weights between 0 and 100 that is exactly when they do
    not sum to 100 (99 or 101, say).  A run with the button disabled is
    refused: the stored weights stay as they are, a press changes
    nothing, and unless a clip cell of the lineup tables is edited in
    the same run the stored assignment map stays as it is.  With the
    button enabled a press stores the number inputs as they are and
    the map the optimizer computes for them. *)
Theorem weight_gate_refuses s ui results fc rc w a :
  using_multi_sheet s = true →
  results_df s = Some results →
  df_front_calc s = Some fc →
  df_rear_calc s = Some rc →
  fc ≠ [] → rc ≠ [] →
  corner_weights s = Some w →
  lineup_assignments s = Some a →
  (calculate_disabled (number_inputs ui) = true →
   corner_weights (selector_tab s ui).1 = Some w ∧
   (∀ ui', number_inputs ui' = number_inputs ui →
           front_table_editor ui' = front_table_editor ui →
           track_type_editor ui' = track_type_editor ui →
           rear_table_editor ui' = rear_table_editor ui →
           selector_tab s ui' = selector_tab s ui) ∧
   ((∀ cs x, front_table_editor ui cs x = x) →
    (∀ cs x, rear_table_editor ui cs x = x) →
    lineup_assignments (selector_tab s ui).1 = Some a)) ∧
  (calculate_disabled (number_inputs ui) = false →
   calculate_pressed ui = true →
   ∃ a', calculate_optimal_assignments (selector_data results fc rc)
           (w_LF (number_inputs ui)) (w_RF (number_inputs ui))
           (w_LR (number_inputs ui)) (w_RR (number_inputs ui)) = Some a' ∧
         (selector_tab s ui).2 = Rerun ∧
         corner_weights (selector_tab s ui).1 = Some (number_inputs ui) ∧
         lineup_assignments (selector_tab s ui).1 = Some a') ∧
  (∀ lf rf lr rr : Z,
     (0 ≤ lf ≤ 100)%Z → (0 ≤ rf ≤ 100)%Z → (0 ≤ lr ≤ 100)%Z → (0 ≤ rr ≤ 100)%Z →
     number_inputs ui = {| w_LF := pct lf; w_RF := pct rf; w_LR := pct lr; w_RR := pct rr |} →
     calculate_disabled (number_inputs ui) = true ↔ (lf + rf + lr + rr ≠ 100)%Z).
Proof.
  intros Hm Hres Hfc Hrc Hf Hr Hw Ha. split_and!.
  - intros Hgate.
    rewrite (selector_tab_no_run s ui results fc rc w a) by auto. split_and!.
    + rewrite lineup_tables_weights. by destruct (track_types s).
    + intros ui' Hin Hfront Htrack Hrear.
      rewrite (selector_tab_no_run s ui' results fc rc w a) by (rewrite ?Hin; auto).
      unfold lineup_tables. by rewrite Hfront, Htrack, Hrear.
    + intros Hfront Hrear. apply lineup_tables_map_kept; [|done..].
      by destruct (track_types s).
  - intros Hgate Hpress.
    destruct (selector_data_clips results fc rc Hf Hr) as [Hfn Hrn].
    destruct (optimize_is_Some (selector_data results fc rc) (number_inputs ui) Hfn Hrn)
      as [a' Hopt].
    exists a'. split; [exact Hopt|].
    destruct (selector_tab_click s ui results fc rc a') as (? & ? & ?); done.
  - intros lf rf lr rr Hlf Hrf Hlr Hrr ->. by apply calculate_disabled_whole.
Qed.

(** ** Re-running the optimizer *)

(** C9. Pressing Calculate with the same weights on the same working
    set yields the same assignment map whatever the two sessions held
    before (weights, assignments) and whatever the table editors show:
    both runs store the map and end in [st.rerun()], and the map is the
    one the greedy loop builds from the empty used-clip sets. *)
Theorem optimizer_rerun_deterministic s1 s2 ui1 ui2 results fc rc :
  using_multi_sheet s1 = true → using_multi_sheet s2 = true →
  results_df s1 = Some results → results_df s2 = Some results →
  df_front_calc s1 = Some fc → df_front_calc s2 = Some fc →
  df_rear_calc s1 = Some rc → df_rear_calc s2 = Some rc →
  fc ≠ [] → rc ≠ [] →
  number_inputs ui1 = number_inputs ui2 →
  calculate_pressed ui1 = true → calculate_pressed ui2 = true →
  calculate_disabled (number_inputs ui1) = false →
  ∃ st,
    assign_centers (selector_data results fc rc) (number_inputs ui1)
      (all_center_sections (selector_data results fc rc)) initial_state = Some st ∧
    (selector_tab s1 ui1).2 = Rerun ∧
    (selector_tab s2 ui2).2 = Rerun ∧
    lineup_assignments (selector_tab s1 ui1).1 =
      Some (store_assignments (center_best_combos st)) ∧
    lineup_assignments (selector_tab s2 ui2).1 =
      Some (store_assignments (center_best_combos st)).
Proof.
  intros Hm1 Hm2 Hres1 Hres2 Hfc1 Hfc2 Hrc1 Hrc2 Hf Hr Hin Hp1 Hp2 Hgate.
  destruct (selector_data_clips results fc rc Hf Hr) as [Hfn Hrn].
  destruct (assign_centers_is_Some (selector_data results fc rc) (number_inputs ui1)
              (all_center_sections (selector_data results fc rc)) initial_state Hfn Hrn)
    as [st Hst].
  assert (optimize (selector_data results fc rc) (number_inputs ui1) =
          Some (store_assignments (center_best_combos st))) as Hopt
    by by rewrite optimize_eta, Hst.
  exists st. split; [done|].
  destruct (selector_tab_click s1 ui1 results fc rc _ Hm1 Hres1 Hfc1 Hrc1 Hf Hr Hgate Hp1 Hopt)
    as (? & ? & _).
  rewrite Hin in Hgate, Hopt.
  destruct (selector_tab_click s2 ui2 results fc rc _ Hm2 Hres2 Hfc2 Hrc2 Hf Hr Hgate Hp2 Hopt)
    as (? & ? & _).
  done.
Qed.

(** ** The first render of the Selector tab *)

(** X11. On a session that holds a working set with rows in both
    sheets but neither weights nor an assignment map, a render that
    does not run Calculate (no press, or the button disabled) stores
    the default weights 25/25/25/25 and shows the lineup tables for the
    map the optimizer computes for them, whatever the number inputs
    show; unless a clip cell is edited in that render, this map is the
    one the session holds afterwards. *)
Theorem first_render_uses_default_weights s ui results fc rc :
  using_multi_sheet s = true →
  results_df s = Some results →
  df_front_calc s = Some fc →
  df_rear_calc s = Some rc →
  fc ≠ [] → rc ≠ [] →
  corner_weights s = None →
  lineup_assignments s = None →
  calculate_pressed ui = false ∨ calculate_disabled (number_inputs ui) = true →
  ∃ a,
    calculate_optimal_assignments (selector_data results fc rc)
      (pct 25) (pct 25) (pct 25) (pct 25) = Some a ∧
    selector_tab s ui =
      lineup_tables (selector_data results fc rc) ui
        match track_types s with
        | Some _ => set_assignments a (set_weights default_weights s)
        | None => set_track_types (initial_track_types (selector_data results fc rc))
                    (set_assignments a (set_weights default_weights s))
        end ∧
    corner_weights (selector_tab s ui).1 = Some default_weights ∧
    ((∀ cs x, front_table_editor ui cs x = x) →
     (∀ cs x, rear_table_editor ui cs x = x) →
     lineup_assignments (selector_tab s ui).1 = Some a).
Proof.
  intros Hm Hres Hfc Hrc Hf Hr Hw Ha Hno.
  destruct (selector_data_clips results fc rc Hf Hr) as [Hfn Hrn].
  destruct (optimize_is_Some (selector_data results fc rc) default_weights Hfn Hrn)
    as [a Hopt].
  exists a. split; [exact Hopt|].
  assert (selector_tab s ui =
          lineup_tables (selector_data results fc rc) ui
            match track_types s with
            | Some _ => set_assignments a (set_weights default_weights s)
            | None => set_track_types (initial_track_types (selector_data results fc rc))
                        (set_assignments a (set_weights default_weights s))
            end) as Heq.
  { unfold selector_tab. rewrite Hres, Hm, Hfc, Hrc, Hw.
    cbn -[optimize calculate_disabled lineup_tables]. rewrite Ha, Hopt.
    cbn -[optimize calculate_disabled lineup_tables].
    destruct Hno as [->| ->]; [|done]. by destruct (calculate_disabled (number_inputs ui)). }
  split; [exact Heq|]. rewrite Heq. split.
  - rewrite lineup_tables_weights. by destruct (track_types s).
  - intros Hfront Hrear. apply lineup_tables_map_kept; [|done..].
    by destruct (track_types s).
Qed.

(** ** Rendering again *)

(** X10. A render that ended normally (no [st.rerun()], no
    [st.stop()], no exception) leaves a session that a later render
    with untouched table editors and no press of Calculate does not
    change, whatever the number inputs show. *)
Theorem rerender_keeps_session s ui input :
  (selector_tab s ui).2 = Completed →
  selector_tab (selector_tab s ui).1 (untouched input false) =
  ((selector_tab s ui).1, Completed).
Proof.
  unfold selector_tab at 1 3 4.
  destruct (results_df s) as [results|] eqn:Hres;
    [|intros _; simpl; unfold selector_tab; by rewrite Hres].
  destruct (using_multi_sheet s) eqn:Hm;
    [|intros _; simpl; unfold selector_tab; by rewrite Hres, Hm].
  destruct (df_front_calc s) as [fc|] eqn:Hfc; [|done].
  destruct (df_rear_calc s) as [rc|] eqn:Hrc; [|done].
  set (d := selector_data results fc rc). cbv zeta.
  set (s1 := match corner_weights s with
             | Some _ => s
             | None => set_weights default_weights s
             end).
  assert (using_multi_sheet s1 = true ∧ results_df s1 = Some results ∧
          df_front_calc s1 = Some fc ∧ df_rear_calc s1 = Some rc ∧
          is_Some (corner_weights s1)) as (Hm1 & Hres1 & Hfc1 & Hrc1 & Hw1).
  { unfold s1. destruct (corner_weights s) eqn:Hw; simpl; rewrite ?Hw; eauto 10. }
  clearbody s1.
  destruct (match lineup_assignments s1 with
            | Some _ => Some s1
            | None => _
            end) as [s2|] eqn:Hinit; [|done].
  assert (using_multi_sheet s2 = true ∧ results_df s2 = Some results ∧
          df_front_calc s2 = Some fc ∧ df_rear_calc s2 = Some rc ∧
          is_Some (corner_weights s2) ∧ is_Some (lineup_assignments s2))
    as (Hm2 & Hres2 & Hfc2 & Hrc2 & Hw2 & Ha2).
  { destruct (lineup_assignments s1) eqn:Ha.
    - injection Hinit as <-. rewrite Ha. eauto 10.
    - destruct (optimize d _); [|done]. injection Hinit as <-. simpl. eauto 10. }
  clear Hinit.
  set (s3 := match track_types s2 with
             | Some _ => s2
             | None => set_track_types (initial_track_types d) s2
             end).
  assert (using_multi_sheet s3 = true ∧ results_df s3 = Some results ∧
          df_front_calc s3 = Some fc ∧ df_rear_calc s3 = Some rc ∧
          is_Some (corner_weights s3) ∧ is_Some (lineup_assignments s3) ∧
          is_Some (track_types s3)) as (Hm3 & Hres3 & Hfc3 & Hrc3 & Hw3 & Ha3 & Ht3).
  { unfold s3. destruct (track_types s2) eqn:Ht; simpl; rewrite ?Ht; eauto 10. }
  clearbody s3.
  destruct (if calculate_disabled (number_inputs ui) then false else calculate_pressed ui).
  { by destruct (optimize d (number_inputs ui)). }
  intros [Hsame Hagain]%lineup_tables_completed. rewrite Hsame.
  destruct (init_order_flags_entries s3)
    as (Hm4 & Hres4 & Hfc4 & Hrc4 & Hw4 & Ha4 & Ht4 & _).
  destruct Hw3 as [w Hw3], Ha3 as [a Ha3].
  rewrite (selector_tab_no_run (init_order_flags s3) (untouched input false) results fc rc w a)
    by (rewrite ?Hm4, ?Hres4, ?Hfc4, ?Hrc4, ?Hw4, ?Ha4; auto).
  rewrite Ht4. destruct Ht3 as [t ->]. apply Hagain.
Qed.

(** ** The order in which center sections are shown *)

Lemma insert_by_score_perm (x : C * float) l : insert_by_score x l ≡ₚ x :: l.
Proof.
  induction l as [|y l IH]; [done|]. simpl.
  destruct (flt y.2 x.2); [|done]. rewrite IH. apply Permutation_swap.
Qed.

Lemma sort_by_score_perm (l : list (C * float)) : sort_by_score l ≡ₚ l.
Proof.
  induction l as [|x l IH]; [done|]. simpl.
  by rewrite insert_by_score_perm, IH.
Qed.

Lemma insert_by_score_sorted (x : C * float) l :
  Forall (λ y, is_nan y.2 = false) l →
  Forall (λ y, id_le x.1 y.1) l →
  StronglySorted shown_before l →
  StronglySorted shown_before (insert_by_score x l).
Proof.
  induction l as [|y l IH]; intros Hnan Hle Hs; simpl.
  - repeat constructor.
  - apply Forall_cons in Hnan as [Hy_nan Hnan].
    apply Forall_cons in Hle as [Hxy Hle].
    apply StronglySorted_cons in Hs as [Hy Hs].
    destruct (flt y.2 x.2) eqn:Hyx.
    + apply StronglySorted_cons. split; [|by apply IH].
      rewrite insert_by_score_perm. apply Forall_cons. split; [|done].
      split; [by apply flt_asym|]. by rewrite Hyx.
    + apply StronglySorted_cons. split; [|by apply StronglySorted_cons].
      apply Forall_cons. split; [done|].
      rewrite Forall_forall in Hy, Hle |- *. intros z Hz. split; [|auto].
      destruct (flt z.2 x.2) eqn:Hzx; [|done].
      destruct (Hy z Hz) as [Hzy _].
      destruct (flt_negtrans _ y.2 _ Hy_nan Hzx); congruence.
Qed.

Lemma sort_by_score_sorted (l : list (C * float)) :
  Forall (λ y, is_nan y.2 = false) l →
  StronglySorted (λ x y : C * float, id_le x.1 y.1) l →
  StronglySorted shown_before (sort_by_score l).
Proof.
  intros Hnan. induction 1 as [|x l Hs IH Hx]; simpl; [constructor|].
  apply Forall_cons in Hnan as [_ Hnan].
  apply insert_by_score_sorted; [by rewrite sort_by_score_perm..|by apply IH].
Qed.

Lemma center_scores_spec d w a centers :
  (∀ cs, cs ∈ centers → is_Some (a !! cs)) →
  ∃ scores, center_scores d w a centers = Some scores ∧
    scores.*1 = centers ∧
    ∀ c x, (c, x) ∈ scores → ∃ e, a !! c = Some e ∧ x = displayed_score d w e c.
Proof.
  induction centers as [|center centers IH]; intros Hdom; simpl.
  - exists []. split_and!; [done..|]. by intros c s ?%elem_of_nil.
  - destruct (Hdom center) as [e He]; [by left|]. rewrite He. simpl.
    destruct IH as (rest & -> & Hfst & Hrest); [intros; apply Hdom; by right|].
    simpl. eexists. split; [done|]. split; [by rewrite fmap_cons, Hfst|].
    intros c s [[= -> ->]|Hin]%elem_of_cons; eauto.
Qed.

Lemma center_scores_None d w a centers :
  center_scores d w a centers = None ↔ ∃ cs, cs ∈ centers ∧ a !! cs = None.
Proof.
  induction centers as [|center centers IH]; simpl.
  - split; [done|]. by intros (cs & ?%elem_of_nil & _).
  - destruct (a !! center) as [e|] eqn:He; simpl.
    + destruct (center_scores d w a centers) as [rest|]; simpl.
      * split; [done|]. intros (cs & [->|Hcs]%elem_of_cons & Hnone); [congruence|].
        assert (Some rest = None) as Habs by (apply (proj2 IH); eauto). done.
      * split; [|done]. intros _. destruct (proj1 IH eq_refl) as (cs & ? & ?).
        exists cs. split; [by right|done].
    + split; [|done]. intros _. exists center. split; [by left|done].
Qed.

Lemma StronglySorted_of_fmap {A B} (R : relation B) (f : A → B) l :
  StronglySorted R (f <$> l) → StronglySorted (λ x y, R (f x) (f y)) l.
Proof.
  induction l as [|x l IH]; [constructor|]. rewrite fmap_cons.
  intros [Hall Hs]%StronglySorted_cons. apply StronglySorted_cons. split; [|by apply IH].
  rewrite Forall_fmap in Hall. exact Hall.
Qed.

(** X12. Shown order of the center sections, for a map with an
    entry for every center section.  In manual order mode it is the
    list of center sections itself.  Otherwise it is a rearrangement of
    that list in which every center section carries the weighted score
    of its assigned pair, computed in double precision as LF_rank *
    (w_LF / 100) + RF_rank * (w_RF / 100) + LR_rank * (w_LR / 100) +
    RR_rank * (w_RR / 100) and infinite for a pair without rank data;
    provided no score is NaN, computed scores never decrease from one
    row to the next and center sections of equal computed score stay
    in identifier order. *)
Theorem display_order results fc rc w a :
  (∀ cs, cs ∈ all_center_sections (selector_data results fc rc) → is_Some (a !! cs)) →
  sorted_centers (selector_data results fc rc) w a true =
    Some (all_center_sections (selector_data results fc rc)) ∧
  ∃ shown,
    sorted_centers (selector_data results fc rc) w a false = Some shown.*1 ∧
    shown.*1 ≡ₚ all_center_sections (selector_data results fc rc) ∧
    (∀ c x, (c, x) ∈ shown →
            ∃ e, a !! c = Some e ∧ x = displayed_score (selector_data results fc rc) w e c) ∧
    ((∀ c x, (c, x) ∈ shown → is_nan x = false) → StronglySorted shown_before shown).
Proof.
  set (d := selector_data results fc rc). intros Hdom. split.
  - unfold sorted_centers. f_equal.
    apply (StronglySorted_unique id_le);
      [apply StronglySorted_merge_sort; apply _|apply sorted_unique_ascending|
       apply merge_sort_Permutation].
  - destruct (center_scores_spec d w a (all_center_sections d) Hdom)
      as (scores & Hscores & Hfst & Hmem).
    exists (sort_by_score scores). unfold sorted_centers. rewrite Hscores. simpl.
    split_and!; [done| | |].
    + by rewrite sort_by_score_perm, Hfst.
    + intros c s Hin. apply Hmem. by rewrite <- (sort_by_score_perm scores).
    + intros Hnan. apply sort_by_score_sorted.
      * apply Forall_forall. intros [c x] Hin. apply (Hnan c x).
        by rewrite sort_by_score_perm.
      * apply (StronglySorted_of_fmap id_le fst). rewrite Hfst.
        apply sorted_unique_ascending.
Qed.

(** ** Duplicate clips *)

Lemma length_filter_eq_pos (col : list string) c :
  (0 < length (filter (λ c', c' = c) col))%nat ↔ c ∈ col.
Proof.
  split.
  - intros Hlen. destruct (filter (λ c', c' = c) col) as [|x l] eqn:Hf; [simpl in Hlen; lia|].
    assert (x ∈ filter (λ c', c' = c) col) as Hx by (rewrite Hf; by left).
    by apply list_elem_of_filter in Hx as [-> ?].
  - intros Hc. assert (c ∈ filter (λ c', c' = c) col) as Hin by by apply list_elem_of_filter.
    destruct (filter (λ c', c' = c) col); [by apply elem_of_nil in Hin|simpl; lia].
Qed.

Lemma length_filter_eq_twice (col : list string) c :
  (1 < length (filter (λ c', c' = c) col))%nat ↔
  ∃ i j, (i < j)%nat ∧ col !! i = Some c ∧ col !! j = Some c.
Proof.
  induction col as [|x col IH].
  - simpl. split; [lia|]. by intros (i & j & _ & ? & _).
  - rewrite filter_cons. destruct (decide (x = c)) as [->|Hne].
    + simpl. split.
      * intros Hlen. assert (c ∈ col) as (j & Hj)%list_elem_of_lookup
          by (apply length_filter_eq_pos; lia).
        exists 0%nat, (S j). split_and!; [lia|done..].
      * intros (i & j & Hij & Hi & Hj). destruct j as [|j]; [lia|]. simpl in Hj.
        apply list_elem_of_lookup_2, length_filter_eq_pos in Hj. lia.
    + rewrite IH. split.
      * intros (i & j & ? & ? & ?). exists (S i), (S j). split_and!; [lia|done..].
      * intros (i & j & Hij & Hi & Hj).
        destruct i as [|i]; [simpl in Hi; congruence|].
        destruct j as [|j]; [lia|]. exists i, j. split_and!; [lia|done..].
Qed.

(** X13. A clip is reported as duplicate exactly when it
    stands in two different rows of the column; nothing is reported
    exactly when all rows hold different clips. *)
Theorem duplicates_are_repeated_clips col :
  (∀ c, c ∈ duplicates col ↔
        ∃ i j, (i < j)%nat ∧ col !! i = Some c ∧ col !! j = Some c) ∧
  (duplicates col = ∅ ↔ NoDup col).
Proof.
  assert (∀ c, c ∈ duplicates col ↔
               ∃ i j, (i < j)%nat ∧ col !! i = Some c ∧ col !! j = Some c) as Hiff.
  { intros c. unfold duplicates.
    rewrite elem_of_list_to_set, list_elem_of_filter, length_filter_eq_twice. split.
    - by intros [? _].
    - intros H. split; [done|]. destruct H as (i & _ & _ & Hi & _).
      by eapply list_elem_of_lookup_2. }
  split; [done|]. split.
  - intros Hempty. apply NoDup_alt. intros i j c Hi Hj.
    destruct (decide (i = j)) as [|Hne]; [done|]. exfalso.
    assert (c ∈ duplicates col) as Hc.
    { apply Hiff. destruct (decide (i < j)%nat).
      - exists i, j. done.
      - exists j, i. split_and!; [lia|done..]. }
    rewrite Hempty in Hc. by apply elem_of_empty in Hc.
  - intros Hnd. apply set_eq. intros c. rewrite Hiff. split.
    + intros (i & j & Hij & Hi & Hj).
      rewrite NoDup_alt in Hnd. specialize (Hnd i j c Hi Hj). lia.
    + by intros ?%elem_of_empty.
Qed.

Lemma NoDup_no_duplicates col : NoDup col → duplicates col = ∅.
Proof.
  intros Hnd. apply set_eq. intros c. unfold duplicates.
  rewrite elem_of_list_to_set, list_elem_of_filter, length_filter_eq_twice. split.
  - intros [(i & j & Hij & Hi & Hj) _].
    rewrite NoDup_alt in Hnd. specialize (Hnd i j c Hi Hj). lia.
  - by intros ?%elem_of_empty.
Qed.

(** X14. After a run of the optimizer, and before any manual
    reassignment, the lineup tables report no duplicate front clip when
    the center sections are no more numerous than the front clips, and
    no duplicate rear clip when they are no more numerous than the rear
    clips, in either display order. *)
Theorem run_reports_no_duplicates results fc rc lf rf lr rr w a manual shown rows :
  calculate_optimal_assignments (selector_data results fc rc) lf rf lr rr = Some a →
  sorted_centers (selector_data results fc rc) w a manual = Some shown →
  lineup_rows (selector_data results fc rc) a shown = Some rows →
  ((length (all_center_sections (selector_data results fc rc))
    ≤ length (all_front_clips (selector_data results fc rc)))%nat →
   front_duplicates rows = ∅) ∧
  ((length (all_center_sections (selector_data results fc rc))
    ≤ length (all_rear_clips (selector_data results fc rc)))%nat →
   rear_duplicates rows = ∅).
Proof.
  set (d := selector_data results fc rc). intros Hcalc Hshown Hrows.
  assert (shown ≡ₚ all_center_sections d) as Hperm.
  { unfold sorted_centers in Hshown. destruct manual.
    - injection Hshown as <-. apply merge_sort_Permutation.
    - destruct (center_scores d w a (all_center_sections d)) as [scores|] eqn:Hs; [|done].
      injection Hshown as <-.
      destruct (center_scores_spec d w a (all_center_sections d)) as (scores' & Hs' & Hfst & _).
      { intros cs Hcs. by apply (run_defined_on_centers d lf rf lr rr a cs Hcalc). }
      rewrite Hs in Hs'. injection Hs' as <-. by rewrite sort_by_score_perm, Hfst. }
  destruct (lineup_rows_spec _ _ _ _ Hrows) as [Hsub Hmem].
  assert (NoDup rows.*1) as Hnd.
  { eapply sublist_NoDup; [|exact Hsub]. rewrite Hperm. apply NoDup_sorted_unique. }
  split; intros Hlen; apply NoDup_no_duplicates; apply NoDup_fmap_2_strong;
    try by eapply NoDup_fmap_1.
  - intros x y Hx Hy Heq. apply (NoDup_fmap_elem_eq fst rows); [done..|].
    by apply (proj1 (run_distinct_clips results fc rc lf rf lr rr a x.1 y.1 x.2 y.2
                       Hcalc (Hmem x Hx) (Hmem y Hy)) Hlen).
  - intros x y Hx Hy Heq. apply (NoDup_fmap_elem_eq fst rows); [done..|].
    by apply (proj2 (run_distinct_clips results fc rc lf rf lr rr a x.1 y.1 x.2 y.2
                       Hcalc (Hmem x Hx) (Hmem y Hy)) Hlen).
Qed.


(** ** Manual reassignment *)

(** X15. Applying the rows of the edited front table changes
    nothing but front clips: the map keeps its center sections and its
    rear clips, center sections without a row keep their entry, every
    center section with a row (one row per center section) ends with
    the front clip of its row, manual order mode is switched on exactly
    when some row changed the map, and without such a row the lineup is
    left as it was. *)
Theorem front_edits_do_not_cascade (l : Lineup (C:=C)) rows l' changes_made :
  apply_edits edit_front l false rows = Some (l', changes_made) →
  (∀ cs, rear_clip <$> assignments l' !! cs = rear_clip <$> assignments l !! cs) ∧
  (∀ cs, cs ∉ rows.*1 → assignments l' !! cs = assignments l !! cs) ∧
  (NoDup rows.*1 →
   ∀ row, row ∈ rows → front_clip <$> assignments l' !! row.1 = Some row.2) ∧
  manual_order_mode l' = manual_order_mode l || changes_made ∧
  (changes_made = false → l' = l).
Proof.
  induction rows as [|row rows IH] in l, l', changes_made |- *; simpl.
  - intros [= <- <-]. split_and!; try done.
    + by intros _ row ?%elem_of_nil.
    + by rewrite orb_false_r.
  - destruct (edit_front l row) as [[l1 ch]|] eqn:Hedit; [|done]. simpl.
    rewrite apply_edits_flag.
    destruct (apply_edits edit_front l1 false rows) as [[l2 c2]|] eqn:Hrest; [|done].
    simpl. intros [= <- <-].
    destruct (IH _ _ _ Hrest) as (Hrear & Hother & Hrows & Hmode & Hsame).
    unfold edit_front in Hedit.
    destruct (assignments l !! row.1) as [e|] eqn:He; [|done]. simpl in Hedit.
    assert (∀ cs, rear_clip <$> assignments l1 !! cs = rear_clip <$> assignments l !! cs)
      as Hrear1.
    { intros cs. case_decide; simplify_eq; [|done]. simpl.
      destruct (decide (row.1 = cs)) as [<-|Hne].
      - by rewrite lookup_insert_eq, He.
      - by rewrite lookup_insert_ne. }
    assert (∀ cs, cs ≠ row.1 → assignments l1 !! cs = assignments l !! cs) as Hother1.
    { intros cs Hne. case_decide; simplify_eq; [|done]. simpl.
      by rewrite lookup_insert_ne. }
    assert (front_clip <$> assignments l1 !! row.1 = Some row.2) as Hfront1.
    { case_decide as Hdiff; simplify_eq; simpl.
      - by rewrite lookup_insert_eq.
      - rewrite He. simpl. f_equal. by destruct (decide (front_clip e = row.2)). }
    assert (manual_order_mode l1 = manual_order_mode l || ch) as Hmode1.
    { case_decide; simplify_eq; simpl; [by rewrite orb_true_r|by rewrite orb_false_r]. }
    assert (ch = false → l1 = l) as Hsame1 by (case_decide; by simplify_eq).
    split_and!.
    + intros cs. by rewrite Hrear, Hrear1.
    + intros cs [Hne Hnot]%not_elem_of_cons. by rewrite Hother, Hother1.
    + intros [Hfresh Hnd]%NoDup_cons r [->|Hr]%elem_of_cons.
      * by rewrite Hother.
      * by apply Hrows.
    + by rewrite Hmode, Hmode1, orb_assoc.
    + intros [-> ->]%orb_false_iff. by rewrite Hsame, Hsame1.
Qed.

(** X16. Applying the rows of the edited rear table changes
    nothing but rear clips: the map keeps its center sections and its
    front clips, center sections without a row keep their entry, every
    center section with a row (one row per center section) ends with
    the rear clip of its row, manual order mode is switched on exactly
    when some row changed the map, and without such a row the lineup is
    left as it was. *)
Theorem rear_edits_do_not_cascade (l : Lineup (C:=C)) rows l' changes_made :
  apply_edits edit_rear l false rows = Some (l', changes_made) →
  (∀ cs, front_clip <$> assignments l' !! cs = front_clip <$> assignments l !! cs) ∧
  (∀ cs, cs ∉ rows.*1 → assignments l' !! cs = assignments l !! cs) ∧
  (NoDup rows.*1 →
   ∀ row, row ∈ rows → rear_clip <$> assignments l' !! row.1 = Some row.2) ∧
  manual_order_mode l' = manual_order_mode l || changes_made ∧
  (changes_made = false → l' = l).
Proof.
  induction rows as [|row rows IH] in l, l', changes_made |- *; simpl.
  - intros [= <- <-]. split_and!; try done.
    + by intros _ row ?%elem_of_nil.
    + by rewrite orb_false_r.
  - destruct (edit_rear l row) as [[l1 ch]|] eqn:Hedit; [|done]. simpl.
    rewrite apply_edits_flag.
    destruct (apply_edits edit_rear l1 false rows) as [[l2 c2]|] eqn:Hrest; [|done].
    simpl. intros [= <- <-].
    destruct (IH _ _ _ Hrest) as (Hrear & Hother & Hrows & Hmode & Hsame).
    unfold edit_rear in Hedit.
    destruct (assignments l !! row.1) as [e|] eqn:He; [|done]. simpl in Hedit.
    assert (∀ cs, front_clip <$> assignments l1 !! cs = front_clip <$> assignments l !! cs)
      as Hrear1.
    { intros cs. case_decide; simplify_eq; [|done]. simpl.
      destruct (decide (row.1 = cs)) as [<-|Hne].
      - by rewrite lookup_insert_eq, He.
      - by rewrite lookup_insert_ne. }
    assert (∀ cs, cs ≠ row.1 → assignments l1 !! cs = assignments l !! cs) as Hother1.
    { intros cs Hne. case_decide; simplify_eq; [|done]. simpl.
      by rewrite lookup_insert_ne. }
    assert (rear_clip <$> assignments l1 !! row.1 = Some row.2) as Hfront1.
    { case_decide as Hdiff; simplify_eq; simpl.
      - by rewrite lookup_insert_eq.
      - rewrite He. simpl. f_equal. by destruct (decide (rear_clip e = row.2)). }
    assert (manual_order_mode l1 = manual_order_mode l || ch) as Hmode1.
    { case_decide; simplify_eq; simpl; [by rewrite orb_true_r|by rewrite orb_false_r]. }
    assert (ch = false → l1 = l) as Hsame1 by (case_decide; by simplify_eq).
    split_and!.
    + intros cs. by rewrite Hrear, Hrear1.
    + intros cs [Hne Hnot]%not_elem_of_cons. by rewrite Hother, Hother1.
    + intros [Hfresh Hnd]%NoDup_cons r [->|Hr]%elem_of_cons.
      * by rewrite Hother.
      * by apply Hrows.
    + by rewrite Hmode, Hmode1, orb_assoc.
    + intros [-> ->]%orb_false_iff. by rewrite Hsame, Hsame1.
Qed.

End Render.

(** ** The saved column mapping *)

(** X17. When a column name is saved under [col_name] and the
    sheet has that column, [get_index] is the first position of the
    column in the list, so the selectbox opens on it; when nothing is
    saved, the saved value is a number, or the sheet lacks the column,
    [get_index] is the default. *)
Theorem get_index_selects_saved_column loaded_config col_name col_list default_index :
  (∀ v, loaded_config !! col_name = Some (ConfigString v) → v ∈ col_list →
        col_list !! get_index loaded_config col_name col_list default_index = Some v ∧
        ∀ j, (j < get_index loaded_config col_name col_list default_index)%nat →
             col_list !! j ≠ Some v) ∧
  ((∀ v, loaded_config !! col_name = Some (ConfigString v) → v ∉ col_list) →
   get_index loaded_config col_name col_list default_index = default_index).
Proof.
  unfold get_index, list_index. split.
  - intros v -> Hv.
    destruct (list_find_elem_of (λ c, c = v) col_list v Hv eq_refl) as [[i x] Hfind].
    rewrite Hfind. simpl.
    apply list_find_Some in Hfind as (Hi & -> & Hfirst). split; [done|].
    intros j Hj Hjv. by apply (Hfirst j v Hjv Hj).
  - intros Hnot. destruct (loaded_config !! col_name) as [[v|q]|]; [|done..].
    destruct (list_find (λ c, c = v) col_list) as [[i x]|] eqn:Hfind; [|done].
    apply list_find_Some in Hfind as (Hi & -> & _).
    destruct (Hnot v eq_refl). by eapply list_elem_of_lookup_2.
Qed.

(** * The sample sheets *)

(** ** Calculation *)

(** C1 on the single sample sheet: the flag is set and the median of
    all LCA center heights is 3, yet the LF center of combination A
    keeps its own height 0, and the ranked results are those of a run
    with the flag unset. *)
Lemma single_sheet_keeps_own_heights :
  normalize_lca_z Sample.cfg = true ∧
  (∃ m, median (spec_single_z_heights (df Sample.single_upload)) = Some m ∧ m == 3) ∧
  pz (single_lca_center Sample.row_A LF) == 0 ∧
  (calculate Sample.cfg Sample.single_upload (Sample.empty_session false)).1 =
  (calculate (with_normalize false Sample.cfg) Sample.single_upload
     (Sample.empty_session false)).1.
Proof.
  split; [done|]. split; [eexists; split; [reflexivity|done]|]. split; [done|].
  reflexivity.
Qed.

Lemma corner_rank_min_descending_witness :
  ∃ a b,
    Sample.single_results !! 0%nat = Some a ∧ Sample.single_results !! 1%nat = Some b ∧
    (Len_gtb (length_of LR (result a)) (length_of LR (result b)) = true →
     (rank_of LR a < rank_of LR b)%nat) ∧
    (Len_eq (length_of LR (result a)) (length_of LR (result b)) →
     rank_of LR a = rank_of LR b) ∧
    rank_of LR a =
      S (length (filter (λ r, Len_gtb (length_of LR (result r)) (length_of LR (result a)) = true)
                        Sample.single_results)).
Proof.
  eexists _, _. split; [reflexivity|]. split; [reflexivity|].
  eapply (corner_rank_min_descending Sample.cfg Sample.single_upload
            (Sample.empty_session false) _ _ LR 0 1); reflexivity.
Defined.

(** C5 on the single sample sheet.  The working set of single-sheet
    mode carries no rear weighted score and no rear rank; the only
    Rear_Rank of that mode is the one of the roll-up by center section,
    the mean of LR_Rank and RR_Rank.  Combination A ranks first at LR
    and second at RR, combination B the other way round: their rear
    weighted scores 2*LR_Rank + 1*RR_Rank are 4 and 5, which re-rank to
    1 and 2, while the roll-up shows a Rear_Rank of 1.5 for both. *)
Lemma single_sheet_rear_rank_unweighted :
  results_df (calculate Sample.cfg Sample.single_upload (Sample.empty_session false)).1 =
    Some Sample.single_results ∧
  ∃ a b,
    Sample.single_results = [a; b] ∧
    Center_Section (result a) = "A" ∧ Center_Section (result b) = "B" ∧
    (LR_Rank a, RR_Rank a) = (1%nat, 2%nat) ∧ (LR_Rank b, RR_Rank b) = (2%nat, 1%nat) ∧
    spec_rear_weighted_score a = 4%nat ∧ spec_rear_weighted_score b = 5%nat ∧
    spec_rear_rank Sample.single_results a = 1%nat ∧
    spec_rear_rank Sample.single_results b = 2%nat ∧
    (λ cr, (cr_center cr, cr_Rear_Rank cr)) <$> center_rankings_single Sample.single_results =
      [("A", float_of_ratio 3 2); ("B", float_of_ratio 3 2)].
Proof.
  split; [reflexivity|]. eexists _, _. split; [reflexivity|].
  split_and!; by vm_compute.
Qed.

Lemma weighted_scores_and_reranks_witness :
  (∀ a, a ∈ Sample.dual_results →
     Front_Weighted_Score a = (2 * LF_Rank a + 1 * RF_Rank a)%nat ∧
     Front_Rank a =
       S (length (filter (λ b, (Front_Weighted_Score b <? Front_Weighted_Score a)%nat = true)
                         Sample.dual_results))) ∧
  (using_multi_sheet (Sample.empty_session (C:=string) true) = true →
   ∃ rear, df_rear_display Sample.dual_session = Some rear ∧
     calc <$> rear = rear_calc Sample.cfg (df_front Sample.dual_upload)
                       (df_rear Sample.dual_upload) ∧
     ∀ a, a ∈ rear →
       left_rank a =
         S (length (filter (λ b, Len_gtb (left_length (calc b)) (left_length (calc a)) = true)
                           rear)) ∧
       right_rank a =
         S (length (filter (λ b, Len_gtb (right_length (calc b)) (right_length (calc a)) = true)
                           rear)) ∧
       weighted_score a = (2 * left_rank a + 1 * right_rank a)%nat ∧
       axle_rank a =
         S (length (filter (λ b, (weighted_score b <? weighted_score a)%nat = true) rear))).
Proof.
  apply (weighted_scores_and_reranks Sample.cfg Sample.dual_upload
           (Sample.empty_session true)); reflexivity.
Defined.

(** C8 on the sample sheets.  The session holds the results of the
    dual sample sheets; a recalculation with a rear sheet that shares
    no center section with the front sheet stops with the error and
    leaves [results_df] as it was, but it has already replaced the
    stored front and rear tables: the rear table now holds center
    section S9 only, which the ranked working set does not know, and
    the front table holds lengths computed with another median
    height. *)
Lemma empty_join_aborts :
  merge_on_center
    (front_calc Sample.cfg (df_front Sample.disjoint_upload) (df_rear Sample.disjoint_upload))
    (rear_calc Sample.cfg (df_front Sample.disjoint_upload) (df_rear Sample.disjoint_upload))
    = [] ∧
  (calculate Sample.cfg Sample.disjoint_upload Sample.dual_session).2 =
    Stopped "No matching Center Sections found between front and rear sheets!" ∧
  results_df Sample.dual_session = Some Sample.dual_results ∧
  results_df (calculate Sample.cfg Sample.disjoint_upload Sample.dual_session).1 =
    Some Sample.dual_results ∧
  df_front_calc (calculate Sample.cfg Sample.disjoint_upload Sample.dual_session).1 ≠
    df_front_calc Sample.dual_session ∧
  df_rear_calc (calculate Sample.cfg Sample.disjoint_upload Sample.dual_session).1 ≠
    df_rear_calc Sample.dual_session ∧
  (∃ rear, df_rear_calc (calculate Sample.cfg Sample.disjoint_upload Sample.dual_session).1 =
             Some rear ∧ calc_center_section <$> rear = ["S9"]) ∧
  (∀ r, r ∈ Sample.dual_results → Center_Section (result r) ≠ "S9").
Proof.
  split_and!; try by vm_compute.
  { eexists. split; reflexivity. }
  intros r Hr. apply (Forall_forall (λ r, Center_Section (result r) ≠ "S9") Sample.dual_results);
    [|exact Hr].
  vm_compute. repeat (constructor; [done|]). constructor.
Qed.

(** ** The optimizer *)

Lemma sample_runs :
  calculate_optimal_assignments Sample.dual_selector (pct 25) (pct 25) (pct 25) (pct 25) =
    Some Sample.dual_assignments ∧
  calculate_optimal_assignments Sample.scarce_selector (pct 25) (pct 25) (pct 25) (pct 25) =
    Some Sample.scarce_assignments ∧
  calculate_optimal_assignments Sample.numbered_selector (pct 25) (pct 25) (pct 25) (pct 25) =
    Some Sample.numbered_assignments ∧
  calculate_optimal_assignments Sample.numbered_selector (pct 0) (pct 10) (pct 45) (pct 45) =
    Some Sample.skewed_assignments.
Proof. split_and!; by vm_compute. Qed.

Lemma no_clip_reuse_while_clips_last_witness :
  ((length (all_center_sections Sample.dual_selector)
    ≤ length (all_front_clips Sample.dual_selector))%nat →
   front_clip {| front_clip := "F1"; rear_clip := "R1" |} ≠
   front_clip {| front_clip := "F2"; rear_clip := "R2" |}) ∧
  ((length (all_center_sections Sample.dual_selector)
    ≤ length (all_rear_clips Sample.dual_selector))%nat →
   rear_clip {| front_clip := "F1"; rear_clip := "R1" |} ≠
   rear_clip {| front_clip := "F2"; rear_clip := "R2" |}).
Proof.
  apply (no_clip_reuse_while_clips_last Sample.dual_results Sample.dual_front_calc
           Sample.dual_rear_calc (pct 25) (pct 25) (pct 25) (pct 25)
           Sample.dual_assignments "S1" "S2"
           {| front_clip := "F1"; rear_clip := "R1" |}
           {| front_clip := "F2"; rear_clip := "R2" |});
    [by vm_compute|done|by vm_compute|by vm_compute].
Defined.

(** C3, as stated, fails when the center sections outnumber the clips:
    with one front clip and one rear clip surveyed on two center
    sections, the second section falls back to the clips of the first. *)
Lemma scarce_clips_are_reused :
  ∃ a,
    calculate_optimal_assignments Sample.scarce_selector (pct 25) (pct 25) (pct 25) (pct 25)
      = Some a ∧
    a !! "S1" = Some {| front_clip := "F1"; rear_clip := "R1" |} ∧
    a !! "S2" = Some {| front_clip := "F1"; rear_clip := "R1" |}.
Proof. exists Sample.scarce_assignments. split_and!; by vm_compute. Qed.

Lemma committed_pair_minimizes_witness :
  ∃ used_front used_rear : gset string,
    (∀ f, f ∈ used_front ↔
          ∃ cs' e, cs' ∈ [] ∧ Sample.numbered_assignments !! cs' = Some e ∧ front_clip e = f) ∧
    (∀ r, r ∈ used_rear ↔
          ∃ cs' e, cs' ∈ [] ∧ Sample.numbered_assignments !! cs' = Some e ∧ rear_clip e = r) ∧
    ((∃ c, c ∈ candidates Sample.numbered_selector used_front used_rear 9%Z ∧
           flt (candidate_score default_weights c) infinity = true) →
     ∃ i c,
       first_minimum default_weights
         (candidates Sample.numbered_selector used_front used_rear 9%Z) i c ∧
       Sample.numbered_assignments !! 9%Z =
         Some {| front_clip := cand_front c; rear_clip := cand_rear c |}).
Proof.
  apply (committed_pair_minimizes Sample.numbered_results Sample.numbered_front_calc
           Sample.numbered_rear_calc (pct 25) (pct 25) (pct 25) (pct 25)
           Sample.numbered_assignments [] 9%Z [10%Z]).
  - by vm_compute.
  - by vm_compute.
  - vm_compute. repeat (constructor; [done|]). constructor.
Defined.

(** C2, as stated, fails where rounding separates two pairs of equal
    weighted combination.  With weights 0, 10, 45 and 45 the pairs
    (F1, R1) and (F1, R2) of center section 9, with ranks (1, 1, 1, 2)
    and (1, 1, 2, 1), both have the least weighted combination 145, and
    (F1, R1) is met first; the scores the loop computes are
    1.4500000000000002 and 1.45, and the map gives the center section
    the second pair. *)
Lemma rounding_decides_between_equal_pairs :
  ∃ c1 c2,
    candidates Sample.numbered_selector ∅ ∅ 9%Z !! 0%nat = Some c1 ∧
    candidates Sample.numbered_selector ∅ ∅ 9%Z !! 1%nat = Some c2 ∧
    (cand_front c1, cand_rear c1) = ("F1", "R1") ∧
    (cand_front c2, cand_rear c2) = ("F1", "R2") ∧
    weighted_combination Sample.skewed_weights c1 == 145 ∧
    weighted_combination Sample.skewed_weights c2 == 145 ∧
    Forall (λ c, weighted_combination Sample.skewed_weights c1 <=
                 weighted_combination Sample.skewed_weights c)
           (candidates Sample.numbered_selector ∅ ∅ 9%Z) ∧
    candidate_score Sample.skewed_weights c1 = S754_finite false 6530219459687220 (-52) ∧
    candidate_score Sample.skewed_weights c2 = S754_finite false 6530219459687219 (-52) ∧
    calculate_optimal_assignments Sample.numbered_selector
      (pct 0) (pct 10) (pct 45) (pct 45) = Some Sample.skewed_assignments ∧
    Sample.skewed_assignments !! 9%Z = Some {| front_clip := "F1"; rear_clip := "R2" |}.
Proof.
  eexists _, _. split; [reflexivity|]. split; [reflexivity|].
  split_and!; try by vm_compute.
  vm_compute. repeat (constructor; [done|]). constructor.
Qed.

(** Center sections 9 and 10 both rank F1 and R1 best; 9 is processed
    first, as a number, and takes them, and 10 is left with one
    pair. *)
Example contested_clips_on_sample :
  all_center_sections Sample.numbered_selector = [9%Z; 10%Z] ∧
  (λ c, (cand_front c, cand_rear c)) <$> candidates Sample.numbered_selector ∅ ∅ 10%Z
    = [("F1", "R1"); ("F1", "R2"); ("F2", "R1"); ("F2", "R2")] ∧
  best_front (best_combo Sample.numbered_selector default_weights ∅ ∅ 10%Z) = Some "F1" ∧
  best_rear (best_combo Sample.numbered_selector default_weights ∅ ∅ 10%Z) = Some "R1" ∧
  best_front (best_combo Sample.numbered_selector default_weights ∅ ∅ 9%Z) = Some "F1" ∧
  best_rear (best_combo Sample.numbered_selector default_weights ∅ ∅ 9%Z) = Some "R1" ∧
  (λ c, (cand_front c, cand_rear c)) <$>
    candidates Sample.numbered_selector {[ "F1" ]} {[ "R1" ]} 10%Z = [("F2", "R2")] ∧
  map_to_list Sample.numbered_assignments =
    [ (9%Z, {| front_clip := "F1"; rear_clip := "R1" |});
      (10%Z, {| front_clip := "F2"; rear_clip := "R2" |}) ].
Proof. split_and!; by vm_compute. Qed.


(** With one clip per axle on two center sections, the second center
    section falls back to the first clip of either sorted list. *)
Example fallback_on_sample :
  all_center_sections Sample.scarce_selector = ["S1"; "S2"] ∧
  candidates Sample.scarce_selector {[ "F1" ]} {[ "R1" ]} "S2" = [] ∧
  head (all_front_clips Sample.scarce_selector) = Some "F1" ∧
  head (all_rear_clips Sample.scarce_selector) = Some "R1" ∧
  map_to_list Sample.scarce_assignments =
    [ ("S1", {| front_clip := "F1"; rear_clip := "R1" |});
      ("S2", {| front_clip := "F1"; rear_clip := "R1" |}) ].
Proof. split_and!; by vm_compute. Qed.

Lemma assignments_cover_center_sections_witness :
  (∀ cs, is_Some (Sample.dual_assignments !! cs) ↔
         cs ∈ all_center_sections Sample.dual_selector) ∧
  (∀ cs e, Sample.dual_assignments !! cs = Some e →
           front_clip e ∈ all_front_clips Sample.dual_selector ∧
           rear_clip e ∈ all_rear_clips Sample.dual_selector).
Proof.
  apply (assignments_cover_center_sections Sample.dual_selector
           (pct 25) (pct 25) (pct 25) (pct 25)).
  by vm_compute.
Defined.

Lemma every_clip_is_assigned_witness :
  ((length (all_front_clips Sample.dual_selector)
    ≤ length (all_center_sections Sample.dual_selector))%nat →
   ∀ f, f ∈ all_front_clips Sample.dual_selector →
        ∃ cs e, Sample.dual_assignments !! cs = Some e ∧ front_clip e = f) ∧
  ((length (all_rear_clips Sample.dual_selector)
    ≤ length (all_center_sections Sample.dual_selector))%nat →
   ∀ r, r ∈ all_rear_clips Sample.dual_selector →
        ∃ cs e, Sample.dual_assignments !! cs = Some e ∧ rear_clip e = r).
Proof.
  apply (every_clip_is_assigned Sample.dual_results Sample.dual_front_calc
           Sample.dual_rear_calc (pct 25) (pct 25) (pct 25) (pct 25)).
  by vm_compute.
Defined.

(** ** The Selector tab *)

Lemma weight_gate_refuses_witness :
  let s := Sample.dual_lineup_session in
  let ui := untouched {| w_LF := pct 25; w_RF := pct 25; w_LR := pct 25; w_RR := pct 24 |}
                      true in
  (calculate_disabled (number_inputs ui) = true →
   corner_weights (selector_tab s ui).1 = Some default_weights ∧
   (∀ ui', number_inputs ui' = number_inputs ui →
           front_table_editor ui' = front_table_editor ui →
           track_type_editor ui' = track_type_editor ui →
           rear_table_editor ui' = rear_table_editor ui →
           selector_tab s ui' = selector_tab s ui) ∧
   ((∀ cs x, front_table_editor ui cs x = x) →
    (∀ cs x, rear_table_editor ui cs x = x) →
    lineup_assignments (selector_tab s ui).1 = Some Sample.dual_assignments)) ∧
  (calculate_disabled (number_inputs ui) = false →
   calculate_pressed ui = true →
   ∃ a', calculate_optimal_assignments
           (selector_data Sample.dual_results Sample.dual_front_calc Sample.dual_rear_calc)
           (w_LF (number_inputs ui)) (w_RF (number_inputs ui))
           (w_LR (number_inputs ui)) (w_RR (number_inputs ui)) = Some a' ∧
         (selector_tab s ui).2 = Rerun ∧
         corner_weights (selector_tab s ui).1 = Some (number_inputs ui) ∧
         lineup_assignments (selector_tab s ui).1 = Some a') ∧
  (∀ lf rf lr rr : Z,
     (0 ≤ lf ≤ 100)%Z → (0 ≤ rf ≤ 100)%Z → (0 ≤ lr ≤ 100)%Z → (0 ≤ rr ≤ 100)%Z →
     number_inputs ui = {| w_LF := pct lf; w_RF := pct rf; w_LR := pct lr; w_RR := pct rr |} →
     calculate_disabled (number_inputs ui) = true ↔ (lf + rf + lr + rr ≠ 100)%Z).
Proof.
  apply (weight_gate_refuses Sample.dual_lineup_session
           (untouched {| w_LF := pct 25; w_RF := pct 25; w_LR := pct 25; w_RR := pct 24 |} true)
           Sample.dual_results Sample.dual_front_calc Sample.dual_rear_calc
           default_weights Sample.dual_assignments); by vm_compute.
Defined.

(** C7, as stated, fails for totals close to 100: the number inputs
    25.005, 25, 25 and 25 do not sum to 100, neither as the numbers
    they stand for nor as the program adds them, yet the button is
    enabled, and pressing it stores the inputs and replaces the
    (emptied) assignment map by the result of an optimizer run. *)
Lemma near_100_weights_accepted :
  ¬ float_value (w_LF Sample.near_100_weights) + float_value (w_RF Sample.near_100_weights) +
    float_value (w_LR Sample.near_100_weights) + float_value (w_RR Sample.near_100_weights)
    == 100 ∧
  total_weight Sample.near_100_weights ≠ hundred ∧
  calculate_disabled Sample.near_100_weights = false ∧
  lineup_assignments (set_assignments ∅ Sample.dual_lineup_session) = Some ∅ ∧
  (selector_tab (set_assignments ∅ Sample.dual_lineup_session)
     (untouched Sample.near_100_weights true)).2 = Rerun ∧
  corner_weights (selector_tab (set_assignments ∅ Sample.dual_lineup_session)
                    (untouched Sample.near_100_weights true)).1 =
    Some Sample.near_100_weights ∧
  ∃ a,
    lineup_assignments (selector_tab (set_assignments ∅ Sample.dual_lineup_session)
                          (untouched Sample.near_100_weights true)).1 = Some a ∧
    a !! "S1" = Some {| front_clip := "F1"; rear_clip := "R1" |} ∧
    a !! "S2" = Some {| front_clip := "F2"; rear_clip := "R2" |}.
Proof.
  split_and!; try by vm_compute.
  exists Sample.dual_assignments. split_and!; by vm_compute.
Qed.

(** The gate on some totals: 99, 100 and 101 made of whole numbers, and
    the typed totals 100.005 and 100.01. *)
Example gate_on_sample_totals :
  calculate_disabled {| w_LF := pct 25; w_RF := pct 25; w_LR := pct 25; w_RR := pct 24 |}
    = true ∧
  calculate_disabled default_weights = false ∧
  calculate_disabled {| w_LF := pct 25; w_RF := pct 25; w_LR := pct 25; w_RR := pct 26 |}
    = true ∧
  calculate_disabled Sample.near_100_weights = false ∧
  calculate_disabled {| w_LF := float_of_ratio 2501 100; w_RF := pct 25; w_LR := pct 25;
                        w_RR := pct 25 |} = true.
Proof. split_and!; by vm_compute. Qed.

Lemma optimizer_rerun_deterministic_witness :
  let s1 := set_assignments ∅
              (set_weights {| w_LF := pct 40; w_RF := pct 20; w_LR := pct 20; w_RR := pct 20 |}
                 Sample.dual_session) in
  let s2 := Sample.dual_session in
  let ui := untouched default_weights true in
  let d := selector_data Sample.dual_results Sample.dual_front_calc Sample.dual_rear_calc in
  ∃ st,
    assign_centers d (number_inputs ui) (all_center_sections d) initial_state = Some st ∧
    (selector_tab s1 ui).2 = Rerun ∧
    (selector_tab s2 ui).2 = Rerun ∧
    lineup_assignments (selector_tab s1 ui).1 =
      Some (store_assignments (center_best_combos st)) ∧
    lineup_assignments (selector_tab s2 ui).1 =
      Some (store_assignments (center_best_combos st)).
Proof.
  apply (optimizer_rerun_deterministic
           (set_assignments ∅
              (set_weights {| w_LF := pct 40; w_RF := pct 20; w_LR := pct 20; w_RR := pct 20 |}
                 Sample.dual_session))
           Sample.dual_session
           (untouched default_weights true) (untouched default_weights true)
           Sample.dual_results Sample.dual_front_calc Sample.dual_rear_calc);
    by vm_compute.
Defined.

Lemma first_render_uses_default_weights_witness :
  let ui := untouched {| w_LF := pct 70; w_RF := pct 10; w_LR := pct 10; w_RR := pct 0 |}
                      true in
  let d := selector_data Sample.dual_results Sample.dual_front_calc Sample.dual_rear_calc in
  ∃ a,
    calculate_optimal_assignments d (pct 25) (pct 25) (pct 25) (pct 25) = Some a ∧
    selector_tab Sample.dual_session ui =
      lineup_tables d ui
        match track_types Sample.dual_session with
        | Some _ => set_assignments a (set_weights default_weights Sample.dual_session)
        | None => set_track_types (initial_track_types d)
                    (set_assignments a (set_weights default_weights Sample.dual_session))
        end ∧
    corner_weights (selector_tab Sample.dual_session ui).1 = Some default_weights ∧
    ((∀ cs x, front_table_editor ui cs x = x) →
     (∀ cs x, rear_table_editor ui cs x = x) →
     lineup_assignments (selector_tab Sample.dual_session ui).1 = Some a).
Proof.
  apply (first_render_uses_default_weights Sample.dual_session
           (untouched {| w_LF := pct 70; w_RF := pct 10; w_LR := pct 10; w_RR := pct 0 |} true)
           Sample.dual_results Sample.dual_front_calc Sample.dual_rear_calc);
    try (by vm_compute). right. by vm_compute.
Defined.

Lemma rerender_keeps_session_witness :
  selector_tab (selector_tab Sample.dual_lineup_session (untouched default_weights false)).1
               (untouched {| w_LF := pct 10; w_RF := pct 10; w_LR := pct 10; w_RR := pct 10 |}
                          false) =
  ((selector_tab Sample.dual_lineup_session (untouched default_weights false)).1, Completed).
Proof.
  apply (rerender_keeps_session Sample.dual_lineup_session (untouched default_weights false)).
  by vm_compute.
Defined.

Lemma display_order_witness :
  sorted_centers Sample.dual_selector default_weights Sample.dual_assignments true =
    Some (all_center_sections Sample.dual_selector) ∧
  ∃ shown,
    sorted_centers Sample.dual_selector default_weights Sample.dual_assignments false
      = Some shown.*1 ∧
    shown.*1 ≡ₚ all_center_sections Sample.dual_selector ∧
    (∀ c x, (c, x) ∈ shown →
            ∃ e, Sample.dual_assignments !! c = Some e ∧
                 x = displayed_score Sample.dual_selector default_weights e c) ∧
    ((∀ c x, (c, x) ∈ shown → is_nan x = false) → StronglySorted shown_before shown).
Proof.
  apply (display_order Sample.dual_results Sample.dual_front_calc Sample.dual_rear_calc
           default_weights Sample.dual_assignments).
  intros cs.
  apply (run_defined_on_centers Sample.dual_selector (pct 25) (pct 25) (pct 25) (pct 25)).
  by vm_compute.
Defined.

(** On the sample sheets S2 holds the better-ranked pair left to it and
    is shown first; neither score is NaN. *)
Example display_order_on_sample :
  sorted_centers Sample.dual_selector default_weights Sample.dual_assignments false
    = Some ["S2"; "S1"] ∧
  (sort_by_score <$> center_scores Sample.dual_selector default_weights
                       Sample.dual_assignments (all_center_sections Sample.dual_selector))
    = Some [("S2", float_of_Z 2); ("S1", float_of_Z 3)].
Proof. split; by vm_compute. Qed.

Lemma run_reports_no_duplicates_witness :
  ((length (all_center_sections Sample.dual_selector)
    ≤ length (all_front_clips Sample.dual_selector))%nat →
   front_duplicates
     [ ("S2", {| front_clip := "F2"; rear_clip := "R2" |});
       ("S1", {| front_clip := "F1"; rear_clip := "R1" |}) ] = ∅) ∧
  ((length (all_center_sections Sample.dual_selector)
    ≤ length (all_rear_clips Sample.dual_selector))%nat →
   rear_duplicates
     [ ("S2", {| front_clip := "F2"; rear_clip := "R2" |});
       ("S1", {| front_clip := "F1"; rear_clip := "R1" |}) ] = ∅).
Proof.
  apply (run_reports_no_duplicates Sample.dual_results Sample.dual_front_calc
           Sample.dual_rear_calc (pct 25) (pct 25) (pct 25) (pct 25) default_weights
           Sample.dual_assignments false ["S2"; "S1"]); by vm_compute.
Defined.

Lemma front_edits_do_not_cascade_witness :
  let l := {| assignments := Sample.dual_assignments; manual_order_mode := false |} in
  let l' := {| assignments :=
                 <[ "S2" := {| front_clip := "F1"; rear_clip := "R2" |} ]>
                   Sample.dual_assignments;
               manual_order_mode := true |} in
  let rows := [("S1", "F1"); ("S2", "F1")] in
  (∀ cs, rear_clip <$> assignments l' !! cs = rear_clip <$> assignments l !! cs) ∧
  (∀ cs, cs ∉ rows.*1 → assignments l' !! cs = assignments l !! cs) ∧
  (NoDup rows.*1 →
   ∀ row, row ∈ rows → front_clip <$> assignments l' !! row.1 = Some row.2) ∧
  manual_order_mode l' = manual_order_mode l || true ∧
  (true = false → l' = l).
Proof.
  apply (front_edits_do_not_cascade
           {| assignments := Sample.dual_assignments; manual_order_mode := false |}
           [("S1", "F1"); ("S2", "F1")]).
  by vm_compute.
Defined.

Lemma rear_edits_do_not_cascade_witness :
  let l := {| assignments := Sample.dual_assignments; manual_order_mode := false |} in
  let l' := {| assignments :=
                 <[ "S1" := {| front_clip := "F1"; rear_clip := "R2" |} ]>
                   Sample.dual_assignments;
               manual_order_mode := true |} in
  let rows := [("S1", "R2"); ("S2", "R2")] in
  (∀ cs, front_clip <$> assignments l' !! cs = front_clip <$> assignments l !! cs) ∧
  (∀ cs, cs ∉ rows.*1 → assignments l' !! cs = assignments l !! cs) ∧
  (NoDup rows.*1 →
   ∀ row, row ∈ rows → rear_clip <$> assignments l' !! row.1 = Some row.2) ∧
  manual_order_mode l' = manual_order_mode l || true ∧
  (true = false → l' = l).
Proof.
  apply (rear_edits_do_not_cascade
           {| assignments := Sample.dual_assignments; manual_order_mode := false |}
           [("S1", "R2"); ("S2", "R2")]).
  by vm_compute.
Defined.

(** ** Witnesses of the calculation *)

Lemma dual_sheet_heights_are_the_median_witness :
  ∃ m lo hi,
    median_z Sample.front_sheet Sample.rear_sheet = Some m ∧
    (∀ h, pz (multi_lca_center Sample.cfg Sample.front_sheet Sample.rear_sheet h) = m ∧
          px (multi_lca_center Sample.cfg Sample.front_sheet Sample.rear_sheet h)
            = px (lca_center h) ∧
          py (multi_lca_center Sample.cfg Sample.front_sheet Sample.rear_sheet h)
            = py (lca_center h)) ∧
    lo ∈ all_z_heights Sample.front_sheet Sample.rear_sheet ∧
    hi ∈ all_z_heights Sample.front_sheet Sample.rear_sheet ∧ lo <= m ∧ m <= hi.
Proof.
  apply (dual_sheet_heights_are_the_median Sample.cfg Sample.front_sheet Sample.rear_sheet);
    [reflexivity|by left].
Defined.


Lemma calculate_stops_iff_no_shared_center_witness :
  ((∃ error, (calculate Sample.cfg Sample.disjoint_upload (Sample.empty_session true)).2
             = Stopped error) ↔
   ∀ f r, f ∈ df_front Sample.disjoint_upload → r ∈ df_rear Sample.disjoint_upload →
          axle_center_section f ≠ axle_center_section r) ∧
  ((calculate Sample.cfg Sample.disjoint_upload (Sample.empty_session true)).2 = Completed ↔
   ∃ f r, f ∈ df_front Sample.disjoint_upload ∧ r ∈ df_rear Sample.disjoint_upload ∧
          axle_center_section f = axle_center_section r) ∧
  ((calculate Sample.cfg Sample.disjoint_upload (Sample.empty_session true)).2 = Completed →
   ∃ rs, results_df (calculate Sample.cfg Sample.disjoint_upload
                       (Sample.empty_session true)).1 = Some rs ∧ rs ≠ []).
Proof.
  apply (calculate_stops_iff_no_shared_center Sample.cfg Sample.disjoint_upload
           (Sample.empty_session true)).
  reflexivity.
Defined.

Lemma ranks_within_bounds_witness :
  ∃ a, Sample.single_results !! 1%nat = Some a ∧
    (∀ c, (1 ≤ rank_of c a ≤ length Sample.single_results)%nat) ∧
    (1 ≤ Front_Rank a ≤ length Sample.single_results)%nat ∧
    (3 ≤ Front_Weighted_Score a ≤ 3 * length Sample.single_results)%nat.
Proof.
  eexists. split; [reflexivity|].
  eapply (ranks_within_bounds Sample.cfg Sample.single_upload
            (Sample.empty_session false) _ _ 1); reflexivity.
Defined.

Lemma results_ordered_by_LF_rank_witness :
  length Sample.dual_results =
    length (working_rows Sample.cfg Sample.dual_upload (Sample.empty_session true)) ∧
  (∀ i j a b, (i ≤ j)%nat → Sample.dual_results !! i = Some a →
              Sample.dual_results !! j = Some b → (LF_Rank a ≤ LF_Rank b)%nat) ∧
  (∀ a, Sample.dual_results !! 0%nat = Some a → LF_Rank a = 1%nat).
Proof.
  apply (results_ordered_by_LF_rank Sample.cfg Sample.dual_upload
           (Sample.empty_session true) Sample.dual_session); reflexivity.
Defined.

Lemma front_rank_follows_score_witness :
  ∃ a b, Sample.single_results !! 0%nat = Some a ∧ Sample.single_results !! 1%nat = Some b ∧
    ((Front_Weighted_Score a < Front_Weighted_Score b)%nat →
     (Front_Rank a < Front_Rank b)%nat) ∧
    (Front_Weighted_Score a = Front_Weighted_Score b → Front_Rank a = Front_Rank b).
Proof.
  eexists _, _. split; [reflexivity|]. split; [reflexivity|].
  eapply (front_rank_follows_score Sample.cfg Sample.single_upload
            (Sample.empty_session false) _ _ 0 1); reflexivity.
Defined.

